(** * Retro CPU/GPU temperature display: the TM1637 driver, the segment
      rendering and the serial input loop of [release/main.py]

    The MicroPython program drives two four-digit TM1637 displays from
    lines ["cpu,gpu"] read on the serial console.  This development embeds
    the program in Rocq and proves properties of its three layers:

    - the bit-banged two-wire driver ([TM1637._write_byte], [TM1637.write]),
      whose effects are pin writes and microsecond delays;
    - the rendering functions ([show_status], [show_error], [display_temp]),
      whose effects are calls to [TM1637.write];
    - the polling loop with its time-out latch and its two exception
      handlers.

    Effectful code is written in one small state/trace/exception monad, so
    that every definition below can be read next to the Python it embeds. *)

From Stdlib Require Import ZArith QArith List String Ascii Bool Lia.
Import ListNotations.

Open Scope Z_scope.

(** ** Python exceptions

    The index error of a list access, the value error of [float] and of
    [int(round(nan))], the overflow error of [int(round(inf))] and whatever
    else the console primitives may raise are instances of [Exception].
    [KeyboardInterrupt] and [SystemExit] are not: they derive from
    [BaseException] only.  On the MicroPython console, which carries the
    temperatures, the byte 0x03 raises [KeyboardInterrupt]. *)

Inductive exn : Type :=
| IndexError
| ValueError
| OverflowError
| OtherException (name : string)
| KeyboardInterrupt
| SystemExit.

Definition is_ValueError (e : exn) : bool :=
  match e with ValueError => true | _ => false end.

(** [isinstance(e, Exception)]: what [except Exception] catches. *)
Definition is_Exception (e : exn) : bool :=
  match e with
  | KeyboardInterrupt | SystemExit => false
  | IndexError | ValueError | OverflowError | OtherException _ => true
  end.

(** ** The effect monad

    A computation reads and updates a state [S], appends events of type [E]
    to a trace, and ends with a value or with a raised exception.  As in
    Python, what was done before an exception is raised stays done. *)

Definition M (S E A : Type) : Type := S -> list E * S * (exn + A).

Definition ret {S E A} (a : A) : M S E A :=
  fun s => ([], s, inr a).

Definition bind {S E A B} (m : M S E A) (k : A -> M S E B) : M S E B :=
  fun s =>
    match m s with
    | (tr, s1, inl e) => (tr, s1, inl e)
    | (tr, s1, inr a) =>
        match k a s1 with
        | (tr', s2, r) => (tr ++ tr', s2, r)
        end
    end.

Definition raise {S E A} (e : exn) : M S E A :=
  fun s => ([], s, inl e).

Definition emit {S E} (ev : E) : M S E unit :=
  fun s => ([ev], s, inr tt).

Definition get {S E} : M S E S :=
  fun s => ([], s, inr s).

Definition put {S E} (s' : S) : M S E unit :=
  fun _ => ([], s', inr tt).

(** [try: m except handles: h] runs [h] on the exceptions of [m] that
    the predicate [handles] selects; the others propagate. *)
Definition try_except {S E A} (m : M S E A) (handles : exn -> bool)
    (h : exn -> M S E A) : M S E A :=
  fun s =>
    match m s with
    | (tr, s1, inl e) =>
        if handles e then
          match h e s1 with
          | (tr', s2, r) => (tr ++ tr', s2, r)
          end
        else (tr, s1, inl e)
    | (tr, s1, inr a) => (tr, s1, inr a)
    end.

Declare Scope py_scope.
Delimit Scope py_scope with py.
Notation "x <- m ;; k" := (bind m (fun x => k))
  (at level 61, m at next level, right associativity) : py_scope.
Notation "m ;; k" := (bind m (fun _ => k))
  (at level 61, right associativity) : py_scope.
Open Scope py_scope.

(** [for x in l: body x] *)
Fixpoint for_each {S E X} (l : list X) (body : X -> M S E unit) : M S E unit :=
  match l with
  | [] => ret tt
  | x :: l' => body x ;; for_each l' body
  end.

Definition trace_of {S E A} (r : list E * S * (exn + A)) : list E := fst (fst r).
Definition state_of {S E A} (r : list E * S * (exn + A)) : S := snd (fst r).
Definition result_of {S E A} (r : list E * S * (exn + A)) : exn + A := snd r.

(** [range(8)] *)
Definition range8 : list Z := [0; 1; 2; 3; 4; 5; 6; 7].

(** ** The pins and the clock of the board *)

Inductive hw_event : Type :=
| PinValue (pin : Z) (v : Z)   (* [Pin.value(v)]: drive the pin *)
| PinRead (pin : Z)            (* [Pin.value()]: sample the pin *)
| SleepUs (n : Z).             (* [time.sleep_us(n)] *)

Definition is_sample (ev : hw_event) : bool :=
  match ev with PinRead _ => true | _ => false end.

(** Level of pin [pin] seen as a wave form: the number of rising edges in a
    trace, from the level [level] the pin has before it. *)
Fixpoint rising_edges (pin : Z) (level : bool) (tr : list hw_event) : nat :=
  match tr with
  | [] => 0%nat
  | PinValue p v :: tr' =>
      if p =? pin then
        let level' := negb (v =? 0) in
        ((if negb level && level' then 1 else 0) + rising_edges pin level' tr')%nat
      else rising_edges pin level tr'
  | _ :: tr' => rising_edges pin level tr'
  end.

(** The events that come before the first rising edge of [pin]. *)
Fixpoint before_first_rise (pin : Z) (level : bool) (tr : list hw_event)
    : list hw_event :=
  match tr with
  | [] => []
  | PinValue p v :: tr' =>
      if p =? pin then
        let level' := negb (v =? 0) in
        if negb level && level' then []
        else PinValue p v :: before_first_rise pin level' tr'
      else PinValue p v :: before_first_rise pin level tr'
  | ev :: tr' => ev :: before_first_rise pin level tr'
  end.

(** ** class TM1637 *)

Module TM1637.

Record t : Type := mk { clk : Z; dio : Z; brightness : Z }.

Definition method (A : Type) : Type := M t hw_event A.

(** [__init__(self, clk, dio)]; an output pin is kept as its number. *)
Definition __init__ (clk dio : Z) : t :=
  {| clk := clk; dio := dio; brightness := 7 |}.

Definition clk_value (v : Z) : method unit :=
  self <- get ;; emit (PinValue (clk self) v).

Definition dio_value (v : Z) : method unit :=
  self <- get ;; emit (PinValue (dio self) v).

Definition sleep_us (n : Z) : method unit := emit (SleepUs n).

Definition _start : method unit :=
  dio_value 0 ;;
  sleep_us 2.

Definition _stop : method unit :=
  dio_value 0 ;;
  sleep_us 2 ;;
  clk_value 1 ;;
  sleep_us 2 ;;
  dio_value 1.

Definition _write_byte (b : Z) : method unit :=
  for_each range8 (fun i =>
    clk_value 0 ;;
    sleep_us 2 ;;
    dio_value (Z.land (Z.shiftr b i) 1) ;;
    sleep_us 2 ;;
    clk_value 1 ;;
    sleep_us 2) ;;
  clk_value 0 ;;
  sleep_us 2 ;;
  clk_value 1 ;;
  sleep_us 2 ;;
  clk_value 0 ;;
  sleep_us 2.

Definition write (segments : list Z) : method unit :=
  _start ;;
  _write_byte 0x40 ;;
  _stop ;;
  _start ;;
  _write_byte 0xC0 ;;
  for_each segments (fun seg => _write_byte seg) ;;
  _stop ;;
  _start ;;
  self <- get ;;
  _write_byte (Z.lor 0x88 (brightness self)) ;;
  _stop.

(** *** Vocabulary for the statements about the driver *)

(** One data bit on the wire. *)
Definition bit_cycle (self : t) (v : Z) : list hw_event :=
  [PinValue (clk self) 0; SleepUs 2;
   PinValue (dio self) v; SleepUs 2;
   PinValue (clk self) 1; SleepUs 2].

(** The ninth clock pulse, during which the controller acknowledges. *)
Definition ack_pulse (self : t) : list hw_event :=
  [PinValue (clk self) 0; SleepUs 2;
   PinValue (clk self) 1; SleepUs 2;
   PinValue (clk self) 0; SleepUs 2].

(** The begin of a transaction: the data line goes low, then 2 us. *)
Definition start_events (self : t) : list hw_event :=
  [PinValue (dio self) 0; SleepUs 2].

(** The end of a transaction: data low, 2 us, clock high, 2 us, data
    high. *)
Definition stop_events (self : t) : list hw_event :=
  [PinValue (dio self) 0; SleepUs 2;
   PinValue (clk self) 1; SleepUs 2;
   PinValue (dio self) 1].

(** A byte on the wire: a bit cycle for each of the bits 0 to 7 of [b],
    then the acknowledge pulse. *)
Definition byte_events (self : t) (b : Z) : list hw_event :=
  flat_map (bit_cycle self) (map (fun i => Z.b2z (Z.testbit b i)) range8)
  ++ ack_pulse self.

(** The operations a transaction is made of. *)
Inductive bus_op : Type :=
| Start
| Byte (b : Z)
| Stop.

Definition bus_method (op : bus_op) : method unit :=
  match op with
  | Start => _start
  | Byte b => _write_byte b
  | Stop => _stop
  end.

Definition bus_trace (self : t) (ops : list bus_op) : list hw_event :=
  flat_map (fun op => trace_of (bus_method op self)) ops.

(** The value of the data bits, first bit least significant. *)
Fixpoint lsb_first (bits : list Z) : Z :=
  match bits with
  | [] => 0
  | v :: bits' => v + 2 * lsb_first bits'
  end.

End TM1637.

(** ** Python values used by the program *)

(** [l[i]]: indices count from the end when negative; [None] stands for
    the [IndexError] of an index out of range. *)
Definition py_getitem {A} (l : list A) (i : Z) : option A :=
  let n := Z.of_nat (List.length l) in
  if (0 <=? i) && (i <? n) then nth_error l (Z.to_nat i)
  else if (- n <=? i) && (i <? 0) then nth_error l (Z.to_nat (n + i))
  else None.

Definition getitem {S E A} (l : list A) (i : Z) : M S E A :=
  match py_getitem l i with
  | Some x => ret x
  | None => raise IndexError
  end.

(** A float is a rational (every finite IEEE value is one), an infinity
    or a NaN.  The program only compares floats with integer constants and
    rounds them to the nearest integer; both are exact on the value. *)
Inductive pyfloat : Type :=
| Finite (q : Q)
| PosInf
| NegInf
| NaN.

(** [x == n] *)
Definition float_eq (x : pyfloat) (n : Z) : bool :=
  match x with
  | Finite q => Qeq_bool q (inject_Z n)
  | _ => false
  end.

(** [x < n] *)
Definition float_lt (x : pyfloat) (n : Z) : bool :=
  match x with
  | Finite q => negb (Qle_bool (inject_Z n) q)
  | NegInf => true
  | PosInf | NaN => false
  end.

(** [x > n] *)
Definition float_gt (x : pyfloat) (n : Z) : bool :=
  match x with
  | Finite q => negb (Qle_bool q (inject_Z n))
  | PosInf => true
  | NegInf | NaN => false
  end.

(** [x >= n] *)
Definition float_ge (x : pyfloat) (n : Z) : bool :=
  match x with
  | Finite q => Qle_bool (inject_Z n) q
  | PosInf => true
  | NegInf | NaN => false
  end.

(** [round] on a finite float: the nearest integer, a tie going to the
    even neighbour.  Computed on numerator [a] and denominator [b] from the
    quotient and the remainder of [a] by [b]. *)
Definition round_half_even (q : Q) : Z :=
  let a := Qnum q in
  let b := Z.pos (Qden q) in
  let f := a / b in
  let r := a mod b in
  match 2 * r ?= b with
  | Lt => f
  | Gt => f + 1
  | Eq => if Z.even f then f else f + 1
  end.

(** [int(round(x))]: a NaN has no integer ([ValueError]), an infinity
    neither ([OverflowError]). *)
Definition int_round {S E} (x : pyfloat) : M S E Z :=
  match x with
  | Finite q => ret (round_half_even q)
  | NaN => raise ValueError
  | PosInf | NegInf => raise OverflowError
  end.

(** [sep in s], for a separator of one character *)
Fixpoint contains (sep : ascii) (s : string) : bool :=
  match s with
  | EmptyString => false
  | String c s' => Ascii.eqb c sep || contains sep s'
  end.

(** [s.split(sep)], for a separator of one character *)
Fixpoint split (sep : ascii) (s : string) : list string :=
  match s with
  | EmptyString => [EmptyString]
  | String c s' =>
      if Ascii.eqb c sep then EmptyString :: split sep s'
      else match split sep s' with
           | p :: ps => String c p :: ps
           | [] => [String c EmptyString]
           end
  end.

(** Truth value of a string: [if line:] *)
Definition nonempty (s : string) : bool :=
  match s with EmptyString => false | String _ _ => true end.

(** ** Digit to 7-segment mapping *)

Definition DIGITS : list Z :=
  [0x3F; 0x06; 0x5B; 0x4F; 0x66; 0x6D; 0x7D; 0x07; 0x7F; 0x6F].
Definition DEGREE : Z := 0x63.
Definition C : Z := 0x39.
Definition DASH : Z := 0x40.
Definition E : Z := 0x79.

(** ** The program: events, globals *)

(** What [print] is given.  The text of an f-string is not rendered. *)
Inductive message : Type :=
| Literal (text : string)
| Received (line : string)
| Displayed (cpu_temp gpu_temp : pyfloat)
| ErrorParsing (line : string)
| InvalidFormat (line : string)
| ExceptionMsg (ex : exn).

Inductive event : Type :=
| Write (display : TM1637.t) (segments : list Z)  (* [display.write(segments)] *)
| Sleep (seconds : Q)                             (* [time.sleep(seconds)] *)
| Print (msg : message).                          (* [print(msg)] *)

(** The pin-level meaning of a program event: the driver's [write]. *)
Definition hw_of_event (ev : event) : list hw_event :=
  match ev with
  | Write display segments => trace_of (TM1637.write segments display)
  | Sleep _ | Print _ => []
  end.

Definition hw_trace (tr : list event) : list hw_event :=
  flat_map hw_of_event tr.

Definition cpu_display : TM1637.t := TM1637.__init__ 0 1.
Definition gpu_display : TM1637.t := TM1637.__init__ 2 3.

Record globals : Type := mk_globals {
  last_data_time : Z;   (* [time.time()]: whole seconds on MicroPython *)
  error_shown : bool
}.

Definition prog (A : Type) : Type := M globals event A.

Definition display_write (display : TM1637.t) (segments : list Z) : prog unit :=
  emit (Write display segments).

Definition print (msg : message) : prog unit := emit (Print msg).

Definition sleep (seconds : Q) : prog unit := emit (Sleep seconds).

Definition set_last_data_time (now : Z) : prog unit :=
  g <- get ;; put {| last_data_time := now; error_shown := error_shown g |}.

Definition set_error_shown (b : bool) : prog unit :=
  g <- get ;; put {| last_data_time := last_data_time g; error_shown := b |}.

(** ** Rendering *)

(** [display.write([DIGITS[code], 0, 0, 0])] *)
Definition status_write (display : TM1637.t) (code : Z) : prog unit :=
  d <- getitem DIGITS code ;;
  display_write display [d; 0; 0; 0].

Definition show_status (code : Z) : prog unit :=
  if code =? 1 then
    status_write cpu_display 1 ;;
    status_write gpu_display 1
  else if code =? 2 then
    status_write cpu_display 2 ;;
    status_write gpu_display 2
  else if code =? 3 then
    status_write cpu_display 3 ;;
    status_write gpu_display 3
  else ret tt.

(** [display.write([E, DASH, DIGITS[tens], DIGITS[ones]])] *)
Definition error_write (display : TM1637.t) (tens ones : Z) : prog unit :=
  t <- getitem DIGITS tens ;;
  o <- getitem DIGITS ones ;;
  display_write display [E; DASH; t; o].

Definition show_error (error_code : Z) : prog unit :=
  let tens := error_code / 10 in
  let ones := error_code mod 10 in
  error_write cpu_display tens ones ;;
  error_write gpu_display tens ones.

Definition display_temp (display : TM1637.t) (temp : pyfloat) : prog unit :=
  if float_eq temp 0 then
    display_write display [0; DASH; DASH; 0]
  else if float_lt temp 0 || float_gt temp 999 then
    display_write display [E; DASH; DASH; DASH]
  else
    temp_int <- int_round temp ;;
    if float_ge temp 100 then
      let temp_int := if temp_int >? 999 then 999 else temp_int in
      let hundreds := temp_int / 100 in
      let tens := (temp_int mod 100) / 10 in
      let ones := temp_int mod 10 in
      h <- getitem DIGITS hundreds ;;
      t <- getitem DIGITS tens ;;
      o <- getitem DIGITS ones ;;
      display_write display [h; t; o; 0]
    else
      let tens := temp_int / 10 in
      let ones := temp_int mod 10 in
      t <- (if tens >? 0 then getitem DIGITS tens else ret 0) ;;
      o <- getitem DIGITS ones ;;
      display_write display [0; t; o; C].

(** The fields of a line: [line.split(',')[i]]. *)
Definition field (i : nat) (line : string) : string :=
  nth i (split "," line) EmptyString.

(** ** The serial input loop *)

(** What one pass of the loop gets from the board: the outcome of the
    zero-time-out [select] followed by [sys.stdin.readline().strip()], and
    the readings of [time.time()] at the two places that call it.  An
    interrupt from the console is taken where the console is read. *)
Inductive poll : Type :=
| NoLine                 (* nothing to read *)
| Line (line : string)   (* the stripped line *)
| Fails (ex : exn).      (* the console raised, or was interrupted *)

Record tick : Type := mk_tick {
  stdin : poll;
  time_at_update : Z;    (* [time.time()] after the two [display_temp] *)
  time_at_check : Z      (* [time.time()] in the time-out test *)
}.

Section Loop.

(** The builtin [float] on strings; [None] is its [ValueError]. *)
Variable float : string -> option pyfloat.

Definition py_float (s : string) : prog pyfloat :=
  match float s with
  | Some x => ret x
  | None => raise ValueError
  end.

(** The [try] block that parses and displays, with its handler. *)
Definition update_displays (tk : tick) (line : string) : prog unit :=
  let parts := split "," line in
  try_except
    (p0 <- getitem parts 0 ;;
     cpu_temp <- py_float p0 ;;
     p1 <- getitem parts 1 ;;
     gpu_temp <- py_float p1 ;;
     display_temp cpu_display cpu_temp ;;
     display_temp gpu_display gpu_temp ;;
     set_last_data_time (time_at_update tk) ;;
     set_error_shown false ;;
     print (Displayed cpu_temp gpu_temp))
    is_ValueError
    (fun _ =>
       print (ErrorParsing line) ;;
       show_error 10 ;;
       set_error_shown true).

(** [if select.select(...)[0]: ...] *)
Definition process_input (tk : tick) : prog unit :=
  match stdin tk with
  | NoLine => ret tt
  | Fails ex => raise ex
  | Line line =>
      if nonempty line then
        print (Received line) ;;
        if contains "," line then update_displays tk line
        else
          print (InvalidFormat line) ;;
          show_error 11 ;;
          set_error_shown true
      else ret tt
  end.

(** [if not error_shown and (time.time() - last_data_time) > 10: ...] *)
Definition check_timeout (tk : tick) : prog unit :=
  g <- get ;;
  if negb (error_shown g) && (time_at_check tk - last_data_time g >? 10) then
    print (Literal "Error: No data received for 10 seconds") ;;
    show_error 20 ;;
    set_error_shown true
  else ret tt.

(** The body of the outer [try]. *)
Definition loop_body (tk : tick) : prog unit :=
  process_input tk ;;
  check_timeout tk ;;
  sleep (1 # 10).

(** One pass of [while True], with the handler [except Exception as ex]
    of the outer [try]. *)
Definition loop_iteration (tk : tick) : prog unit :=
  try_except (loop_body tk) is_Exception
    (fun ex =>
       print (ExceptionMsg ex) ;;
       show_error 99 ;;
       sleep 1).

(** The passes of the loop over the first ticks of a run. *)
Definition main_loop (ticks : list tick) : prog unit :=
  for_each ticks loop_iteration.

(** The statements before the loop; [now] is the reading of
    [time.time()] that initialises [last_data_time]. *)
Definition startup (now : Z) : prog unit :=
  print (Literal "Status 1: Boot successful") ;;
  show_status 1 ;;
  sleep 2 ;;
  print (Literal "Status 2: Waiting for serial connection") ;;
  show_status 2 ;;
  sleep 1 ;;
  print (Literal "Status 3: Connected, waiting for temperature data") ;;
  show_status 3 ;;
  put {| last_data_time := now; error_shown := false |}.

(** The line of this tick parses and both [display_temp] return. *)
Definition updated (tk : tick) (g : globals) : Prop :=
  exists line cpu_temp gpu_temp,
    stdin tk = Line line
    /\ contains "," line = true
    /\ float (field 0 line) = Some cpu_temp
    /\ float (field 1 line) = Some gpu_temp
    /\ result_of (display_temp cpu_display cpu_temp g) = inr tt
    /\ result_of (display_temp gpu_display gpu_temp g) = inr tt.

End Loop.

(** *** Vocabulary for the statements about the program *)

(** The frame [show_error] writes for a code. *)
Definition error_segments (tens_pattern ones_pattern : Z) : list Z :=
  [E; DASH; tens_pattern; ones_pattern].

Fixpoint segments_eqb (l1 l2 : list Z) : bool :=
  match l1, l2 with
  | [], [] => true
  | x :: l1', y :: l2' => (x =? y) && segments_eqb l1' l2'
  | _, _ => false
  end.

Definition display_eqb (d1 d2 : TM1637.t) : bool :=
  (TM1637.clk d1 =? TM1637.clk d2) && (TM1637.dio d1 =? TM1637.dio d2)
  && (TM1637.brightness d1 =? TM1637.brightness d2).

(** Is this event the call [display.write(segments)]? *)
Definition is_write (display : TM1637.t) (segments : list Z) (ev : event) : bool :=
  match ev with
  | Write d segs => display_eqb d display && segments_eqb segs segments
  | _ => false
  end.

(** The display of error 20, as seen on the first display. *)
Definition is_error_20 (ev : event) : bool :=
  is_write cpu_display (error_segments 0x5B 0x3F) ev.

Definition count_error_20 (tr : list event) : nat :=
  List.length (filter is_error_20 tr).

(** Is this event one of the two sleeps that end a pass of the loop? *)
Definition is_sleep (ev : event) : bool :=
  match ev with Sleep _ => true | _ => false end.

Definition count_sleeps (tr : list event) : nat :=
  List.length (filter is_sleep tr).

(** A trace with no display of error 20 and no sleep. *)
Definition quiet (tr : list event) : Prop :=
  Forall (fun ev => is_error_20 ev = false /\ is_sleep ev = false) tr.

(** What the handler of the inner [try] does. *)
Definition parse_error_trace (line : string) : list event :=
  [Print (ErrorParsing line);
   Write cpu_display (error_segments 0x06 0x3F);
   Write gpu_display (error_segments 0x06 0x3F)].

(** What the handler of the outer [try] does. *)
Definition exception_trace (ex : exn) : list event :=
  [Print (ExceptionMsg ex);
   Write cpu_display (error_segments 0x6F 0x6F);
   Write gpu_display (error_segments 0x6F 0x6F);
   Sleep 1].

(** The globals once an error is on the displays. *)
Definition latched (g : globals) : globals :=
  {| last_data_time := last_data_time g; error_shown := true |}.

(** A tick on which the console raises what [except Exception] does not
    catch. *)
Definition interrupts (tk : tick) : bool :=
  match stdin tk with
  | Fails ex => negb (is_Exception ex)
  | NoLine | Line _ => false
  end.

(** The condition of the time-out test. *)
Definition fires (tk : tick) (g : globals) : bool :=
  negb (error_shown g) && (time_at_check tk - last_data_time g >? 10).

(** A tick on which nothing is read. *)
Definition idle (tk : tick) : bool :=
  match stdin tk with
  | NoLine | Line EmptyString => true
  | _ => false
  end.

(** What the time-out test does when it fires. *)
Definition timeout_trace : list event :=
  [Print (Literal "Error: No data received for 10 seconds");
   Write cpu_display (error_segments 0x5B 0x3F);
   Write gpu_display (error_segments 0x5B 0x3F)].

(** A fragment of what [float] accepts, enough for the lines the host
    sends: an optional sign, digits with an optional fraction, and the
    words [nan] and [inf]. *)
Definition digit_of (c : ascii) : option Z :=
  let n := Z.of_N (N_of_ascii c) in
  if (48 <=? n) && (n <=? 57) then Some (n - 48) else None.

Fixpoint digits_value (s : string) (acc : Z) : option Z :=
  match s with
  | EmptyString => Some acc
  | String c s' =>
      match digit_of c with
      | Some d => digits_value s' (10 * acc + d)
      | None => None
      end
  end.

Definition unsigned_decimal (s : string) : option Q :=
  match split "." s with
  | [i] =>
      if nonempty i then
        match digits_value i 0 with
        | Some n => Some (inject_Z n)
        | None => None
        end
      else None
  | [i; f] =>
      if nonempty i || nonempty f then
        match digits_value i 0, digits_value f 0 with
        | Some n, Some m =>
            let scale := 10 ^ Z.of_nat (String.length f) in
            Some (Qmake (n * scale + m) (Z.to_pos scale))
        | _, _ => None
        end
      else None
  | _ => None
  end.

Definition float_decimal (s : string) : option pyfloat :=
  if String.eqb s "nan" then Some NaN
  else if String.eqb s "inf" then Some PosInf
  else if String.eqb s "-inf" then Some NegInf
  else
    match s with
    | String "-" s' => option_map (fun q => Finite (- q)) (unsigned_decimal s')
    | String "+" s' => option_map Finite (unsigned_decimal s')
    | _ => option_map Finite (unsigned_decimal s)
    end.

(** [digit_pattern d] is the entry of [DIGITS] for the decimal digit [d]. *)
Definition digit_pattern (d : Z) : Z := nth (Z.to_nat d) DIGITS 0.

(** The 8-bit values, and the data bits [_write_byte] puts on the wire. *)
Definition all_bytes : list Z := map Z.of_nat (seq 0 256).

Definition data_bits (b : Z) : list Z :=
  map (fun i => Z.land (Z.shiftr b i) 1) range8.

Definition bytes_roundtrip : bool :=
  forallb (fun b => (TM1637.lsb_first (data_bits b) =? b)
                    && segments_eqb (data_bits b)
                         (map (fun i => Z.b2z (Z.testbit b i)) range8))
          all_bytes.

(** Distance of a rational to an integer, doubled: [2 * |q - n|] as a
    fraction over the denominator of [q]. *)
Definition twice_distance (q : Q) (n : Z) : Z :=
  2 * Z.abs (Qnum q - n * Z.pos (Qden q)).

(** ** The two lines of a display, as the controller sees them *)

(** The levels of the clock and data lines of one display. *)
Record bus : Type := mk_bus { clk_level : bool; dio_level : bool }.

(** Both lines high: the state between two transactions. *)
Definition idle_bus : bus := {| clk_level := true; dio_level := true |}.

(** The effect of one event on the lines of the display [self]. *)
Definition drive (self : TM1637.t) (b : bus) (ev : hw_event) : bus :=
  match ev with
  | PinValue p v =>
      let level := negb (v =? 0) in
      {| clk_level := if p =? TM1637.clk self then level else clk_level b;
         dio_level := if p =? TM1637.dio self then level else dio_level b |}
  | PinRead _ | SleepUs _ => b
  end.

Definition bus_after (self : TM1637.t) (b : bus) (tr : list hw_event) : bus :=
  fold_left (drive self) tr b.

(** A change of the data line while the clock stays high: falling is the
    start of a transaction, rising its end. *)
Inductive condition : Type :=
| StartCondition
| StopCondition.

Fixpoint conditions (self : TM1637.t) (b : bus) (tr : list hw_event)
    : list condition :=
  match tr with
  | [] => []
  | ev :: tr' =>
      let b' := drive self b ev in
      let rest := conditions self b' tr' in
      if clk_level b && clk_level b' then
        if dio_level b && negb (dio_level b') then StartCondition :: rest
        else if negb (dio_level b) && dio_level b' then StopCondition :: rest
        else rest
      else rest
  end.

(** The level of the data line at each rising edge of the clock: what the
    controller reads. *)
Fixpoint samples (self : TM1637.t) (b : bus) (tr : list hw_event) : list bool :=
  match tr with
  | [] => []
  | ev :: tr' =>
      let b' := drive self b ev in
      if negb (clk_level b) && clk_level b'
      then dio_level b' :: samples self b' tr'
      else samples self b' tr'
  end.

(** The microseconds a trace spends in [time.sleep_us]. *)
Fixpoint total_sleep_us (tr : list hw_event) : Z :=
  match tr with
  | [] => 0
  | SleepUs n :: tr' => n + total_sleep_us tr'
  | _ :: tr' => total_sleep_us tr'
  end.

(** Is this event a write of 0 or 1 to one of the two pins of [self], or a
    delay? *)
Definition own_pin_event (self : TM1637.t) (ev : hw_event) : bool :=
  match ev with
  | PinValue p v =>
      ((p =? TM1637.clk self) || (p =? TM1637.dio self))
      && ((v =? 0) || (v =? 1))
  | PinRead _ => false
  | SleepUs n => n =? 2
  end.

(** ** Frames and events of the program *)

(** A frame of four 8-bit segment patterns. *)
Definition is_byte (v : Z) : bool := (0 <=? v) && (v <? 256).

Definition is_frame (segments : list Z) : bool :=
  (List.length segments =? 4)%nat && forallb is_byte segments.

(** A write of a frame to one of the two displays of the program; prints
    and sleeps pass. *)
Definition well_formed_event (ev : event) : bool :=
  match ev with
  | Write display segments =>
      (display_eqb display cpu_display || display_eqb display gpu_display)
      && is_frame segments
  | Sleep _ | Print _ => true
  end.

Definition is_print (ev : event) : bool :=
  match ev with Print _ => true | _ => false end.

(** A trace without what it prints. *)
Definition without_prints (tr : list event) : list event :=
  filter (fun ev => negb (is_print ev)) tr.

(** The message of a completed update. *)
Definition is_displayed (ev : event) : bool :=
  match ev with Print (Displayed _ _) => true | _ => false end.

Definition count_displayed (tr : list event) : nat :=
  List.length (filter is_displayed tr).

(** The frames [display_temp] can write. *)
Inductive temperature_frame : list Z -> Prop :=
| NoReading : temperature_frame [0; DASH; DASH; 0]
| OutOfRange : temperature_frame [E; DASH; DASH; DASH]
| ThreeDigits (h t o : Z) :
    In h DIGITS -> In t DIGITS -> In o DIGITS ->
    temperature_frame [h; t; o; 0]
| TwoDigits (t o : Z) :
    t = 0 \/ In t DIGITS -> In o DIGITS ->
    temperature_frame [0; t; o; C].

(** A float from 99.5 to below 100: its rounded value is 100. *)
Definition rounds_to_100 (temp : pyfloat) : Prop :=
  exists q, temp = Finite q /\ (199 # 2 <= q)%Q /\ (q < 100)%Q.

(** The whole script: the start-up sequence, then the loop. *)
Definition main (float : string -> option pyfloat) (now : Z)
    (ticks : list tick) : prog unit :=
  startup now ;;
  main_loop float ticks.

(** The conditions the controller of [display] sees during the writes of
    a program trace: a start and a stop for each of the three transactions
    of every write to this display, nothing for any other event. *)
Definition transaction_conditions : list condition :=
  [StartCondition; StopCondition;
   StartCondition; StopCondition;
   StartCondition; StopCondition].

Definition expected_conditions (display : TM1637.t) (tr : list event)
    : list condition :=
  flat_map
    (fun ev =>
       match ev with
       | Write d _ => if display_eqb d display then transaction_conditions else []
       | Sleep _ | Print _ => []
       end)
    tr.

(** * Properties *)

(** ** The driver *)

Lemma byte_in_all_bytes (b : Z) : 0 <= b < 256 -> In b all_bytes.
Proof.
  intros Hb. unfold all_bytes.
  apply in_map_iff. exists (Z.to_nat b). split.
  - apply Z2Nat.id. lia.
  - apply in_seq. lia.
Qed.

Lemma bytes_roundtrip_true : bytes_roundtrip = true.
Proof. vm_compute. reflexivity. Qed.

(** The eight data bits are the binary digits of the byte, least
    significant first. *)
Lemma data_bits_lsb_first (b : Z) :
  0 <= b < 256 ->
  TM1637.lsb_first (data_bits b) = b
  /\ data_bits b = map (fun i => Z.b2z (Z.testbit b i)) range8.
Proof.
  intros Hb.
  pose proof bytes_roundtrip_true as H. unfold bytes_roundtrip in H.
  rewrite forallb_forall in H.
  specialize (H b (byte_in_all_bytes b Hb)).
  apply andb_true_iff in H. destruct H as [H1 H2].
  split.
  - now apply Z.eqb_eq.
  - revert H2. generalize (data_bits b).
    generalize (map (fun i => Z.b2z (Z.testbit b i)) range8).
    intros l2 l1. revert l2.
    induction l1 as [|x l1 IH]; intros [|y l2]; simpl; try discriminate; auto.
    intros H. apply andb_true_iff in H. destruct H as [Hx Hl].
    apply Z.eqb_eq in Hx. subst y. f_equal. now apply IH.
Qed.

Lemma bit_value (v i : Z) :
  0 <= i -> Z.land (Z.shiftr v i) 1 = Z.b2z (Z.testbit v i).
Proof.
  intros Hi. change 1 with (Z.ones 1). rewrite Z.land_ones by lia.
  change (2 ^ 1) with 2. rewrite <- Z.bit0_mod, Z.shiftr_spec by lia.
  reflexivity.
Qed.

Lemma data_bits_testbit (v : Z) :
  data_bits v = map (fun i => Z.b2z (Z.testbit v i)) range8.
Proof.
  unfold data_bits. apply map_ext_in. intros i Hi. apply bit_value.
  unfold range8 in Hi. cbn [In] in Hi. lia.
Qed.

Lemma write_byte_run (self : TM1637.t) (b : Z) :
  TM1637._write_byte b self =
  (flat_map (TM1637.bit_cycle self) (data_bits b) ++ TM1637.ack_pulse self,
   self, inr tt).
Proof. cbv -[Z.land Z.shiftr]. reflexivity. Qed.

Lemma rising_edges_clk_low (pin : Z) (level : bool) (tr : list hw_event) :
  rising_edges pin level (PinValue pin 0 :: tr) = rising_edges pin false tr.
Proof.
  unfold rising_edges at 1; fold rising_edges.
  rewrite Z.eqb_refl. change (negb (0 =? 0)) with false.
  now rewrite andb_false_r.
Qed.

Lemma rising_edges_clk_high (pin : Z) (tr : list hw_event) :
  rising_edges pin false (PinValue pin 1 :: tr) = S (rising_edges pin true tr).
Proof.
  unfold rising_edges at 1; fold rising_edges.
  rewrite Z.eqb_refl. reflexivity.
Qed.

Lemma rising_edges_other_pin (pin p v : Z) (level : bool) (tr : list hw_event) :
  p <> pin ->
  rising_edges pin level (PinValue p v :: tr) = rising_edges pin level tr.
Proof.
  intros H. unfold rising_edges at 1; fold rising_edges.
  apply Z.eqb_neq in H. now rewrite H.
Qed.

Lemma rising_edges_sleep (pin n : Z) (level : bool) (tr : list hw_event) :
  rising_edges pin level (SleepUs n :: tr) = rising_edges pin level tr.
Proof. reflexivity. Qed.

Lemma rising_edges_bit_cycles (self : TM1637.t) (bits : list Z) (level : bool) :
  TM1637.clk self <> TM1637.dio self ->
  rising_edges (TM1637.clk self) level
    (flat_map (TM1637.bit_cycle self) bits ++ TM1637.ack_pulse self)
  = S (List.length bits).
Proof.
  intros Hpins. revert level.
  induction bits as [|v bits IH]; intros level.
  - unfold flat_map, TM1637.ack_pulse, app.
    rewrite rising_edges_clk_low, rising_edges_sleep, rising_edges_clk_high,
      rising_edges_sleep, rising_edges_clk_low, rising_edges_sleep.
    reflexivity.
  - change (flat_map (TM1637.bit_cycle self) (v :: bits))
      with (TM1637.bit_cycle self v ++ flat_map (TM1637.bit_cycle self) bits).
    rewrite <- app_assoc. unfold TM1637.bit_cycle at 1.
    rewrite <- !app_comm_cons, app_nil_l.
    rewrite rising_edges_clk_low, rising_edges_sleep,
      rising_edges_other_pin, rising_edges_sleep, rising_edges_clk_high,
      rising_edges_sleep by congruence.
    rewrite IH. reflexivity.
Qed.

Lemma before_first_rise_bit_cycle (self : TM1637.t) (v : Z) (level : bool)
    (tr : list hw_event) :
  TM1637.clk self <> TM1637.dio self ->
  before_first_rise (TM1637.clk self) level (TM1637.bit_cycle self v ++ tr)
  = [PinValue (TM1637.clk self) 0; SleepUs 2;
     PinValue (TM1637.dio self) v; SleepUs 2].
Proof.
  intros Hpins.
  assert (Hdc : (TM1637.dio self =? TM1637.clk self) = false)
    by (apply Z.eqb_neq; congruence).
  unfold TM1637.bit_cycle. rewrite <- !app_comm_cons, app_nil_l.
  unfold before_first_rise; fold before_first_rise.
  rewrite Z.eqb_refl, Hdc.
  change (negb (0 =? 0)) with false. change (negb (1 =? 0)) with true.
  rewrite andb_false_r. reflexivity.
Qed.

Lemma no_sample_bit_cycles (self : TM1637.t) (bits : list Z) :
  forallb (fun ev => negb (is_sample ev))
    (flat_map (TM1637.bit_cycle self) bits ++ TM1637.ack_pulse self) = true.
Proof.
  rewrite forallb_app. apply andb_true_iff. split; [|reflexivity].
  induction bits as [|v bits IH]; [reflexivity|].
  change (flat_map (TM1637.bit_cycle self) (v :: bits))
    with (TM1637.bit_cycle self v ++ flat_map (TM1637.bit_cycle self) bits).
  rewrite forallb_app, IH. reflexivity.
Qed.

(** C1: [_write_byte(b)] sends the eight bits of [b] least significant
    first, each as: clock low, 2 us, data to the bit, 2 us, clock high,
    2 us; then one more clock pulse (low, 2 us, high, 2 us, low, 2 us)
    during which no pin is sampled.  The clock rises nine times, and the
    first rise comes after the data line took bit 0 of [b]: after it was
    set to 1 when [b] is 0x01. *)
Theorem write_byte_protocol (self : TM1637.t) (b : Z) (level : bool) :
  0 <= b < 256 ->
  TM1637.clk self <> TM1637.dio self ->
  let r := TM1637._write_byte b self in
  trace_of r
    = flat_map (TM1637.bit_cycle self) (data_bits b) ++ TM1637.ack_pulse self
  /\ state_of r = self
  /\ result_of r = inr tt
  /\ data_bits b = map (fun i => Z.b2z (Z.testbit b i)) range8
  /\ TM1637.lsb_first (data_bits b) = b
  /\ forallb (fun ev => negb (is_sample ev)) (trace_of r) = true
  /\ rising_edges (TM1637.clk self) level (trace_of r) = 9%nat
  /\ before_first_rise (TM1637.clk self) level (trace_of r)
     = [PinValue (TM1637.clk self) 0; SleepUs 2;
        PinValue (TM1637.dio self) (Z.b2z (Z.testbit b 0)); SleepUs 2]
  /\ (b = 0x01 ->
      In (PinValue (TM1637.dio self) 1)
         (before_first_rise (TM1637.clk self) level (trace_of r))).
Proof.
  intros Hb Hpins r.
  destruct (data_bits_lsb_first b Hb) as [Hval Hbits].
  assert (Hrun : r = (flat_map (TM1637.bit_cycle self) (data_bits b)
                        ++ TM1637.ack_pulse self, self, inr tt))
    by (subst r; apply write_byte_run).
  clearbody r. subst r. unfold trace_of, state_of, result_of, fst, snd.
  assert (Hfirst :
    before_first_rise (TM1637.clk self) level
      (flat_map (TM1637.bit_cycle self) (data_bits b) ++ TM1637.ack_pulse self)
    = [PinValue (TM1637.clk self) 0; SleepUs 2;
       PinValue (TM1637.dio self) (Z.b2z (Z.testbit b 0)); SleepUs 2]).
  { rewrite Hbits.
    change (map (fun i => Z.b2z (Z.testbit b i)) range8)
      with (Z.b2z (Z.testbit b 0)
              :: map (fun i => Z.b2z (Z.testbit b i)) [1; 2; 3; 4; 5; 6; 7]).
    change (flat_map (TM1637.bit_cycle self) (?v :: ?l))
      with (TM1637.bit_cycle self v ++ flat_map (TM1637.bit_cycle self) l).
    rewrite <- app_assoc.
    now apply before_first_rise_bit_cycle. }
  split; [reflexivity|].
  split; [reflexivity|].
  split; [reflexivity|].
  split; [exact Hbits|].
  split; [exact Hval|].
  split; [apply no_sample_bit_cycles|].
  split.
  { rewrite rising_edges_bit_cycles by assumption.
    rewrite Hbits. reflexivity. }
  split; [exact Hfirst|].
  intros ->. rewrite Hfirst. right. right. left. reflexivity.
Qed.

Lemma write_byte_protocol_witness :
  0 <= 0x01 < 256
  /\ TM1637.clk cpu_display <> TM1637.dio cpu_display
  /\ rising_edges 0 true (trace_of (TM1637._write_byte 0x01 cpu_display)) = 9%nat
  /\ In (PinValue 1 1)
        (before_first_rise 0 true
           (trace_of (TM1637._write_byte 0x01 cpu_display))).
Proof.
  assert (Hb : 0 <= 0x01 < 256) by lia.
  assert (Hp : TM1637.clk cpu_display <> TM1637.dio cpu_display)
    by discriminate.
  pose proof (write_byte_protocol cpu_display 0x01 true Hb Hp) as H.
  cbv zeta in H.
  destruct H as (_ & _ & _ & _ & _ & _ & Hedges & _ & Hdata).
  split; [exact Hb|].
  split; [exact Hp|].
  split; [exact Hedges|].
  exact (Hdata eq_refl).
Defined.

(** Running a sequence: the traces are appended and the state is threaded. *)
Lemma bind_run {S E A B} (m : M S E A) (k : A -> M S E B) (s s1 s2 : S)
    (tr tr' : list E) (a : A) (r : exn + B) :
  m s = (tr, s1, inr a) ->
  k a s1 = (tr', s2, r) ->
  bind m k s = (tr ++ tr', s2, r).
Proof. intros Hm Hk. unfold bind. now rewrite Hm, Hk. Qed.

(** One statement of a sequence, run with the equation [lem]. *)
Ltac run_step lem := eapply bind_run; [apply lem | cbv beta].

Lemma start_run (self : TM1637.t) :
  TM1637._start self
  = ([PinValue (TM1637.dio self) 0; SleepUs 2], self, inr tt).
Proof. reflexivity. Qed.

Lemma stop_run (self : TM1637.t) :
  TM1637._stop self
  = ([PinValue (TM1637.dio self) 0; SleepUs 2;
      PinValue (TM1637.clk self) 1; SleepUs 2;
      PinValue (TM1637.dio self) 1], self, inr tt).
Proof. reflexivity. Qed.

Lemma bus_method_run (self : TM1637.t) (op : TM1637.bus_op) :
  TM1637.bus_method op self
  = (trace_of (TM1637.bus_method op self), self, inr tt).
Proof.
  destruct op; cbn [TM1637.bus_method].
  - now rewrite start_run.
  - now rewrite write_byte_run.
  - now rewrite stop_run.
Qed.

Lemma bus_trace_app (self : TM1637.t) (ops1 ops2 : list TM1637.bus_op) :
  TM1637.bus_trace self (ops1 ++ ops2)
  = TM1637.bus_trace self ops1 ++ TM1637.bus_trace self ops2.
Proof. unfold TM1637.bus_trace. apply flat_map_app. Qed.

Lemma bus_trace_cons (self : TM1637.t) (op : TM1637.bus_op)
    (ops : list TM1637.bus_op) :
  TM1637.bus_trace self (op :: ops)
  = trace_of (TM1637.bus_method op self) ++ TM1637.bus_trace self ops.
Proof. reflexivity. Qed.

(** The loop over the segments writes one byte per segment, in order. *)
Lemma write_segments_run (self : TM1637.t) (segments : list Z) :
  for_each segments (fun seg => TM1637._write_byte seg) self
  = (TM1637.bus_trace self (map TM1637.Byte segments), self, inr tt).
Proof.
  induction segments as [|seg segments IH]; [reflexivity|].
  cbn [for_each map]. rewrite bus_trace_cons.
  eapply bind_run; [apply (bus_method_run self (TM1637.Byte seg)) | apply IH].
Qed.

(** [write] on a frame of any length. *)
Lemma write_run (self : TM1637.t) (segments : list Z) :
  TM1637.write segments self
  = (TM1637.bus_trace self
       ([TM1637.Start; TM1637.Byte 0x40; TM1637.Stop;
         TM1637.Start; TM1637.Byte 0xC0]
        ++ map TM1637.Byte segments
        ++ [TM1637.Stop;
            TM1637.Start;
            TM1637.Byte (Z.lor 0x88 (TM1637.brightness self));
            TM1637.Stop]),
     self, inr tt).
Proof.
  unfold TM1637.write.
  etransitivity.
  { run_step (bus_method_run self TM1637.Start).
    run_step (bus_method_run self (TM1637.Byte 0x40)).
    run_step (bus_method_run self TM1637.Stop).
    run_step (bus_method_run self TM1637.Start).
    run_step (bus_method_run self (TM1637.Byte 0xC0)).
    run_step (write_segments_run self segments).
    run_step (bus_method_run self TM1637.Stop).
    run_step (bus_method_run self TM1637.Start).
    eapply bind_run; [reflexivity | cbv beta].
    run_step (bus_method_run self
                (TM1637.Byte (Z.lor 0x88 (TM1637.brightness self)))).
    apply (bus_method_run self TM1637.Stop). }
  repeat (rewrite <- app_comm_cons || rewrite app_nil_l).
  rewrite !bus_trace_cons, bus_trace_app, !bus_trace_cons.
  cbn [TM1637.bus_trace flat_map]. rewrite !app_nil_r.
  reflexivity.
Qed.

(** [_write_byte] on any integer, with the bits read off [b]. *)
Lemma write_byte_events (self : TM1637.t) (b : Z) :
  TM1637._write_byte b self = (TM1637.byte_events self b, self, inr tt).
Proof.
  rewrite write_byte_run. unfold TM1637.byte_events.
  now rewrite data_bits_testbit.
Qed.

(** C4: [write] on a frame of four entries puts three transactions on the
    pins, in this order: begin, 0x40, end; begin, 0xC0, the four segment
    bytes from left to right with no begin or end between them, end; begin,
    0x88 | brightness, end.  A begin is the data line driven low and 2 us;
    an end is data low, 2 us, clock high, 2 us, data high; a byte is its
    eight bits, least significant first, one bit cycle each, and the
    acknowledge pulse.  Nothing else is put on the pins, and the object,
    its brightness included, is left as it was. *)
Theorem write_three_transactions (self : TM1637.t) (s0 s1 s2 s3 : Z) :
  let r := TM1637.write [s0; s1; s2; s3] self in
  trace_of r
  = (TM1637.start_events self
       ++ TM1637.byte_events self 0x40
       ++ TM1637.stop_events self)
    ++ (TM1637.start_events self
          ++ TM1637.byte_events self 0xC0
          ++ TM1637.byte_events self s0
          ++ TM1637.byte_events self s1
          ++ TM1637.byte_events self s2
          ++ TM1637.byte_events self s3
          ++ TM1637.stop_events self)
    ++ (TM1637.start_events self
          ++ TM1637.byte_events self (Z.lor 0x88 (TM1637.brightness self))
          ++ TM1637.stop_events self)
  /\ TM1637.byte_events self 0x40
     = flat_map (TM1637.bit_cycle self) [0; 0; 0; 0; 0; 0; 1; 0]
       ++ TM1637.ack_pulse self
  /\ TM1637.byte_events self 0xC0
     = flat_map (TM1637.bit_cycle self) [0; 0; 0; 0; 0; 0; 1; 1]
       ++ TM1637.ack_pulse self
  /\ state_of r = self
  /\ TM1637.brightness (state_of r) = TM1637.brightness self
  /\ result_of r = inr tt.
Proof.
  intros r. subst r. rewrite write_run.
  cbn [trace_of state_of result_of fst snd].
  split; [|repeat split].
  cbn [map app]. rewrite !bus_trace_cons. cbn [TM1637.bus_method].
  rewrite !write_byte_events, start_run, stop_run.
  cbn [trace_of fst TM1637.bus_trace flat_map].
  rewrite app_nil_r, <- !app_assoc.
  reflexivity.
Qed.

(** The pins see a call [display.write(segments)] of the program as these
    three transactions. *)
Lemma hw_of_write (display : TM1637.t) (segments : list Z) :
  hw_of_event (Write display segments)
  = TM1637.bus_trace display
      ([TM1637.Start; TM1637.Byte 0x40; TM1637.Stop;
        TM1637.Start; TM1637.Byte 0xC0]
       ++ map TM1637.Byte segments
       ++ [TM1637.Stop;
           TM1637.Start;
           TM1637.Byte (Z.lor 0x88 (TM1637.brightness display));
           TM1637.Stop]).
Proof. cbn [hw_of_event]. now rewrite write_run. Qed.

(** With the brightness [__init__] sets, the third command is 0x8F. *)
Lemma display_control_byte :
  Z.lor 0x88 (TM1637.brightness cpu_display) = 0x8F
  /\ Z.lor 0x88 (TM1637.brightness gpu_display) = 0x8F.
Proof. split; reflexivity. Qed.

(** ** Rounding *)

(** The rounded value in terms of quotient and remainder. *)
Lemma round_half_even_cases (q : Q) :
  let a := Qnum q in
  let b := Z.pos (Qden q) in
  exists f r,
    a = b * f + r /\ 0 <= r < b
    /\ ((2 * r < b /\ round_half_even q = f)
        \/ (2 * r > b /\ round_half_even q = f + 1)
        \/ (2 * r = b /\ Z.even f = true /\ round_half_even q = f)
        \/ (2 * r = b /\ Z.even f = false /\ round_half_even q = f + 1)).
Proof.
  intros a b. exists (a / b), (a mod b).
  assert (Hb : 0 < b) by (subst b; lia).
  split; [apply Z.div_mod; lia|].
  split; [apply Z.mod_pos_bound; lia|].
  unfold round_half_even. fold a b.
  destruct (Z.compare_spec (2 * (a mod b)) b) as [H|H|H].
  - destruct (Z.even (a / b)) eqn:He; [right; right; left | right; right; right]; auto.
  - left; auto.
  - right; left; split; [lia | reflexivity].
Qed.

(** Rounding goes to a nearest integer: the distance is at most one half. *)
Lemma round_half_even_nearest (q : Q) :
  twice_distance q (round_half_even q) <= Z.pos (Qden q).
Proof.
  destruct (round_half_even_cases q) as (f & r & Ha & Hr & H).
  unfold twice_distance. rewrite Ha.
  destruct H as [[H ->]|[[H ->]|[(H & _ & ->)|(H & _ & ->)]]]; lia.
Qed.

(** On a tie the even neighbour is taken. *)
Lemma round_half_even_tie (q : Q) :
  twice_distance q (round_half_even q) = Z.pos (Qden q) ->
  Z.even (round_half_even q) = true.
Proof.
  destruct (round_half_even_cases q) as (f & r & Ha & Hr & H).
  unfold twice_distance. rewrite Ha.
  destruct H as [[H ->]|[[H ->]|[(H & He & ->)|(H & He & ->)]]]; intros Hd;
    try lia; try assumption.
  change (f + 1) with (Z.succ f).
  rewrite Z.even_succ, <- Z.negb_even. now rewrite He.
Qed.

(** Rounding stays between integer bounds. *)
Lemma round_half_even_bounds (q : Q) (lo hi : Z) :
  (inject_Z lo <= q)%Q -> (q <= inject_Z hi)%Q ->
  lo <= round_half_even q <= hi.
Proof.
  unfold Qle. cbn [Qnum Qden inject_Z]. intros Hlo Hhi.
  destruct (round_half_even_cases q) as (f & r & Ha & Hr & H).
  rewrite Ha in Hlo, Hhi.
  destruct H as [[H ->]|[[H ->]|[(H & _ & ->)|(H & _ & ->)]]]; nia.
Qed.

(** Below [hi + 1/2] the rounded value is at most [hi]. *)
Lemma round_half_even_below_half (q : Q) (hi : Z) :
  (q < Qmake (2 * hi + 1) 2)%Q -> round_half_even q <= hi.
Proof.
  unfold Qlt. cbn [Qnum Qden]. intros Hhi.
  destruct (round_half_even_cases q) as (f & r & Ha & Hr & H).
  rewrite Ha in Hhi.
  destruct H as [[H ->]|[[H ->]|[(H & _ & ->)|(H & _ & ->)]]]; nia.
Qed.

(** From [lo - 1/2] on, strictly below [lo], and with [lo] even, the rounded
    value is [lo]. *)
Lemma round_half_even_up (q : Q) (lo : Z) :
  Z.even lo = true ->
  (Qmake (2 * lo - 1) 2 <= q)%Q -> (q < inject_Z lo)%Q ->
  round_half_even q = lo.
Proof.
  unfold Qlt, Qle. cbn [Qnum Qden inject_Z]. intros Hev Hlo Hhi.
  destruct (round_half_even_cases q) as (f & r & Ha & Hr & H).
  rewrite Ha in Hlo, Hhi.
  assert (Hf : f = lo - 1) by nia.
  subst f.
  destruct H as [[H ->]|[[H ->]|[(H & He & ->)|(H & He & ->)]]]; try nia.
  replace lo with (Z.succ (lo - 1)) in Hev by lia.
  rewrite Z.even_succ, <- Z.negb_even, He in Hev. discriminate.
Qed.

(** ** The digit table *)

Lemma digit_pattern_table :
  map digit_pattern [0; 1; 2; 3; 4; 5; 6; 7; 8; 9] = DIGITS.
Proof. reflexivity. Qed.

Lemma getitem_digit (d : Z) :
  0 <= d <= 9 -> py_getitem DIGITS d = Some (digit_pattern d).
Proof.
  intros Hd.
  assert (H : d = 0 \/ d = 1 \/ d = 2 \/ d = 3 \/ d = 4 \/ d = 5 \/ d = 6
              \/ d = 7 \/ d = 8 \/ d = 9) by lia.
  repeat (destruct H as [-> | H]; [reflexivity|]). now subst d.
Qed.

Lemma getitem_above (d : Z) : 10 <= d -> py_getitem DIGITS d = None.
Proof.
  intros Hd. unfold py_getitem.
  change (Z.of_nat (List.length DIGITS)) with 10.
  destruct (Z.ltb_spec d 10); [lia|].
  destruct (Z.ltb_spec d 0); [lia|].
  rewrite !andb_false_r. reflexivity.
Qed.

(** What a lookup in the table yields is one of its ten patterns. *)
Lemma getitem_in (d p : Z) : py_getitem DIGITS d = Some p -> In p DIGITS.
Proof.
  unfold py_getitem.
  destruct ((0 <=? d) && (d <? Z.of_nat (List.length DIGITS))).
  { intros H. eapply nth_error_In, H. }
  destruct ((- Z.of_nat (List.length DIGITS) <=? d) && (d <? 0)).
  { intros H. eapply nth_error_In, H. }
  discriminate.
Qed.

Lemma digit_nonzero (p : Z) : In p DIGITS -> p <> 0 /\ p <> DASH /\ p <> E.
Proof.
  intros H. unfold DIGITS in H. cbn [In] in H. unfold DASH, E.
  repeat (destruct H as [<- | H]; [repeat split; discriminate|]).
  contradiction.
Qed.

Ltac div_lia := Z.div_mod_to_equations; lia.

Ltac run_prog :=
  cbv beta iota delta [bind ret raise getitem int_round display_write emit
                       print sleep fst snd app].

(** ** [show_status] and [show_error] *)

Lemma error_write_run (display : TM1637.t) (tens ones : Z) (g : globals) :
  0 <= tens <= 9 -> 0 <= ones <= 9 ->
  error_write display tens ones g
  = ([Write display [E; DASH; digit_pattern tens; digit_pattern ones]],
     g, inr tt).
Proof.
  intros Ht Ho. unfold error_write. run_prog.
  rewrite (getitem_digit tens Ht), (getitem_digit ones Ho). reflexivity.
Qed.

Lemma show_error_run (error_code : Z) (g : globals) :
  0 <= error_code <= 99 ->
  show_error error_code g
  = ([Write cpu_display
        [E; DASH; digit_pattern (error_code / 10);
         digit_pattern (error_code mod 10)];
      Write gpu_display
        [E; DASH; digit_pattern (error_code / 10);
         digit_pattern (error_code mod 10)]],
     g, inr tt).
Proof.
  intros Hc. unfold show_error.
  assert (Ht : 0 <= error_code / 10 <= 9) by div_lia.
  assert (Ho : 0 <= error_code mod 10 <= 9) by div_lia.
  unfold bind. rewrite !error_write_run by assumption. reflexivity.
Qed.

(** ** [display_temp] *)

Lemma float_eq_spec (q : Q) (n : Z) :
  float_eq (Finite q) n = true <-> (q == inject_Z n)%Q.
Proof. apply Qeq_bool_iff. Qed.

Lemma float_lt_spec (q : Q) (n : Z) :
  float_lt (Finite q) n = true <-> (q < inject_Z n)%Q.
Proof.
  cbn [float_lt]. rewrite negb_true_iff, <- not_true_iff_false, Qle_bool_iff.
  split; [apply Qnot_le_lt | apply Qlt_not_le].
Qed.

Lemma float_gt_spec (q : Q) (n : Z) :
  float_gt (Finite q) n = true <-> (inject_Z n < q)%Q.
Proof.
  cbn [float_gt]. rewrite negb_true_iff, <- not_true_iff_false, Qle_bool_iff.
  split; [apply Qnot_le_lt | apply Qlt_not_le].
Qed.

Lemma float_ge_spec (q : Q) (n : Z) :
  float_ge (Finite q) n = true <-> (inject_Z n <= q)%Q.
Proof. apply Qle_bool_iff. Qed.

Lemma float_eq_false (q : Q) (n : Z) :
  ~ (q == inject_Z n)%Q -> float_eq (Finite q) n = false.
Proof. intros H. apply not_true_iff_false. now rewrite float_eq_spec. Qed.

Lemma float_lt_false (q : Q) (n : Z) :
  (inject_Z n <= q)%Q -> float_lt (Finite q) n = false.
Proof.
  intros H. apply not_true_iff_false. rewrite float_lt_spec.
  now apply Qle_not_lt.
Qed.

Lemma float_gt_false (q : Q) (n : Z) :
  (q <= inject_Z n)%Q -> float_gt (Finite q) n = false.
Proof.
  intros H. apply not_true_iff_false. rewrite float_gt_spec.
  now apply Qle_not_lt.
Qed.

Lemma float_ge_false (q : Q) (n : Z) :
  (q < inject_Z n)%Q -> float_ge (Finite q) n = false.
Proof.
  intros H. apply not_true_iff_false. rewrite float_ge_spec.
  now apply Qlt_not_le.
Qed.

Lemma display_temp_zero (display : TM1637.t) (temp : pyfloat) (g : globals) :
  float_eq temp 0 = true ->
  display_temp display temp g = ([Write display [0; DASH; DASH; 0]], g, inr tt).
Proof. intros H. unfold display_temp. now rewrite H. Qed.

Lemma display_temp_out_of_range (display : TM1637.t) (temp : pyfloat)
    (g : globals) :
  float_eq temp 0 = false ->
  float_lt temp 0 = true \/ float_gt temp 999 = true ->
  display_temp display temp g
  = ([Write display [E; DASH; DASH; DASH]], g, inr tt).
Proof.
  intros H0 H. unfold display_temp. rewrite H0.
  apply orb_true_iff in H. now rewrite H.
Qed.

(** From 100 to 999: three digits and no unit. *)
Lemma display_temp_three_digits_run (display : TM1637.t) (q : Q) (g : globals) :
  (100 <= q)%Q -> (q <= 999)%Q ->
  let n := round_half_even q in
  display_temp display (Finite q) g
  = ([Write display
        [digit_pattern (n / 100); digit_pattern ((n mod 100) / 10);
         digit_pattern (n mod 10); 0]],
     g, inr tt).
Proof.
  intros Hlo Hhi n.
  assert (Hn : 100 <= n <= 999)
    by (apply (round_half_even_bounds q 100 999); assumption).
  unfold display_temp.
  rewrite float_eq_false.
  2:{ intros H. rewrite H in Hlo. revert Hlo. apply Qlt_not_le. reflexivity. }
  rewrite float_lt_false.
  2:{ apply Qle_trans with (2 := Hlo). discriminate. }
  rewrite float_gt_false by exact Hhi.
  cbn [orb]. run_prog. fold n.
  rewrite (proj2 (float_ge_spec q 100) Hlo).
  destruct (Z.gtb_spec n 999) as [H|_]; [lia|].
  rewrite !getitem_digit by div_lia. reflexivity.
Qed.

(** Above 0 and below 99.5: two digits and the letter C. *)
Lemma display_temp_two_digits_run (display : TM1637.t) (q : Q) (g : globals) :
  (0 < q)%Q -> (q < 199 # 2)%Q ->
  let n := round_half_even q in
  0 <= n <= 99
  /\ display_temp display (Finite q) g
     = ([Write display
           [0; if n / 10 >? 0 then digit_pattern (n / 10) else 0;
            digit_pattern (n mod 10); C]],
        g, inr tt).
Proof.
  intros Hlo Hhi n.
  assert (Hn : 0 <= n <= 99).
  { split.
    - apply (round_half_even_bounds q 0 100).
      + now apply Qlt_le_weak.
      + apply Qlt_le_weak, Qlt_trans with (1 := Hhi). reflexivity.
    - now apply (round_half_even_below_half q 99). }
  split; [exact Hn|].
  unfold display_temp.
  rewrite float_eq_false.
  2:{ intros H. rewrite H in Hlo. revert Hlo. apply Qlt_irrefl. }
  rewrite float_lt_false by now apply Qlt_le_weak.
  rewrite float_gt_false.
  2:{ apply Qlt_le_weak, Qlt_trans with (1 := Hhi). reflexivity. }
  cbn [orb]. run_prog. fold n.
  rewrite float_ge_false.
  2:{ apply Qlt_trans with (1 := Hhi). reflexivity. }
  assert (Ht : 0 <= n / 10 <= 9) by div_lia.
  assert (Ho : 0 <= n mod 10 <= 9) by div_lia.
  destruct (n / 10 >? 0); rewrite ?getitem_digit by assumption; reflexivity.
Qed.

(** From 99.5 and below 100 the rounded value is 100, the branch for two
    digits is taken, and the lookup of [DIGITS[10]] fails. *)
Lemma display_temp_rounds_to_100 (display : TM1637.t) (q : Q) (g : globals) :
  (199 # 2 <= q)%Q -> (q < 100)%Q ->
  round_half_even q = 100
  /\ display_temp display (Finite q) g = ([], g, inl IndexError).
Proof.
  intros Hlo Hhi.
  assert (Hn : round_half_even q = 100)
    by (apply round_half_even_up; [reflexivity | exact Hlo | exact Hhi]).
  split; [exact Hn|].
  unfold display_temp.
  rewrite float_eq_false.
  2:{ intros H. rewrite H in Hlo. revert Hlo. apply Qlt_not_le. reflexivity. }
  rewrite float_lt_false.
  2:{ apply Qle_trans with (2 := Hlo). discriminate. }
  rewrite float_gt_false.
  2:{ apply Qlt_le_weak, Qlt_trans with (1 := Hhi). reflexivity. }
  cbn [orb]. run_prog. rewrite Hn.
  rewrite float_ge_false by exact Hhi.
  reflexivity.
Qed.

(** Within the range, [display_temp] raises, or writes three digits, or
    writes two digits and the letter C. *)
Lemma display_temp_in_range_cases (display : TM1637.t) (temp : pyfloat)
    (g : globals) :
  float_eq temp 0 = false ->
  float_lt temp 0 = false ->
  float_gt temp 999 = false ->
  (exists e, display_temp display temp g = ([], g, inl e))
  \/ (exists h t o,
        In h DIGITS
        /\ display_temp display temp g
           = ([Write display [h; t; o; 0]], g, inr tt))
  \/ (exists t o,
        display_temp display temp g
        = ([Write display [0; t; o; C]], g, inr tt)).
Proof.
  intros H0 Hlt Hgt. unfold display_temp. rewrite H0, Hlt, Hgt. cbn [orb].
  destruct temp as [q| | |]; run_prog;
    try (left; eexists; reflexivity).
  destruct (float_ge (Finite q) 100).
  - destruct (py_getitem DIGITS _) as [h|] eqn:Hh;
      [|left; eexists; reflexivity].
    destruct (py_getitem DIGITS _) as [t|] eqn:Ht in |- *;
      [|left; eexists; reflexivity].
    destruct (py_getitem DIGITS _) as [o|] eqn:Ho in |- *;
      [|left; eexists; reflexivity].
    right; left. exists h, t, o. split; [|reflexivity].
    eapply getitem_in, Hh.
  - destruct (round_half_even q / 10 >? 0).
    + destruct (py_getitem DIGITS _) as [t|] eqn:Ht;
        [|left; eexists; reflexivity].
      destruct (py_getitem DIGITS _) as [o|] eqn:Ho in |- *;
        [|left; eexists; reflexivity].
      right; right. exists t, o. reflexivity.
    + destruct (py_getitem DIGITS _) as [o|] eqn:Ho;
        [|left; eexists; reflexivity].
      right; right. exists 0, o. reflexivity.
Qed.

(** A float equal to 0 is neither below 0 nor above 999. *)
Lemma float_zero_in_range (temp : pyfloat) :
  float_eq temp 0 = true ->
  float_lt temp 0 = false /\ float_gt temp 999 = false.
Proof.
  destruct temp as [q| | |]; try discriminate.
  rewrite float_eq_spec. intros H. split.
  - apply float_lt_false. rewrite H. apply Qle_refl.
  - apply float_gt_false. rewrite H. discriminate.
Qed.

(** C7: for a code from 0 to 99, [show_error] writes to both displays the
    frame letter E, dash, pattern of [code // 10], pattern of [code % 10];
    the two digits are between 0 and 9 and [code = tens * 10 + ones]. *)
Theorem show_error_frame (error_code : Z) (g : globals) :
  0 <= error_code <= 99 ->
  let tens := error_code / 10 in
  let ones := error_code mod 10 in
  0 <= tens <= 9
  /\ 0 <= ones <= 9
  /\ error_code = tens * 10 + ones
  /\ py_getitem DIGITS tens = Some (digit_pattern tens)
  /\ py_getitem DIGITS ones = Some (digit_pattern ones)
  /\ show_error error_code g
     = ([Write cpu_display
           (error_segments (digit_pattern tens) (digit_pattern ones));
         Write gpu_display
           (error_segments (digit_pattern tens) (digit_pattern ones))],
        g, inr tt)
  /\ firstn 2 (error_segments (digit_pattern tens) (digit_pattern ones))
     = [E; DASH].
Proof.
  intros Hc tens ones.
  assert (Ht : 0 <= tens <= 9) by (subst tens; div_lia).
  assert (Ho : 0 <= ones <= 9) by (subst ones; div_lia).
  split; [exact Ht|]. split; [exact Ho|].
  split; [subst tens ones; div_lia|].
  split; [now apply getitem_digit|].
  split; [now apply getitem_digit|].
  split; [|reflexivity].
  now apply show_error_run.
Qed.

Lemma show_error_frame_witness :
  0 <= 20 <= 99
  /\ show_error 20 (mk_globals 0 false)
     = ([Write cpu_display [E; DASH; 0x5B; 0x3F];
         Write gpu_display [E; DASH; 0x5B; 0x3F]],
        mk_globals 0 false, inr tt).
Proof.
  assert (Hc : 0 <= 20 <= 99) by lia.
  split; [exact Hc|].
  exact (proj1 (proj2 (proj2 (proj2 (proj2 (proj2
           (show_error_frame 20 (mk_globals 0 false) Hc))))))).
Defined.

(** C10: for a code other than 1, 2 and 3, [show_status] writes to no
    display: it returns normally, with no event, no pin activity and the
    globals as they were. *)
Theorem show_status_other_codes (code : Z) (g : globals) :
  code <> 1 -> code <> 2 -> code <> 3 ->
  show_status code g = ([], g, inr tt)
  /\ hw_trace (trace_of (show_status code g)) = [].
Proof.
  intros H1 H2 H3.
  assert (H : show_status code g = ([], g, inr tt)).
  { unfold show_status.
    destruct (Z.eqb_spec code 1); [contradiction|].
    destruct (Z.eqb_spec code 2); [contradiction|].
    destruct (Z.eqb_spec code 3); [contradiction|].
    reflexivity. }
  split; [exact H|]. now rewrite H.
Qed.

Lemma show_status_other_codes_witness :
  4 <> 1 /\ 4 <> 2 /\ 4 <> 3
  /\ show_status 4 (mk_globals 0 false) = ([], mk_globals 0 false, inr tt).
Proof.
  assert (H1 : 4 <> 1) by discriminate.
  assert (H2 : 4 <> 2) by discriminate.
  assert (H3 : 4 <> 3) by discriminate.
  split; [exact H1|]. split; [exact H2|]. split; [exact H3|].
  exact (proj1 (show_status_other_codes 4 (mk_globals 0 false) H1 H2 H3)).
Defined.

(** The three codes that are shown. *)
Lemma show_status_run (code : Z) (g : globals) :
  code = 1 \/ code = 2 \/ code = 3 ->
  show_status code g
  = ([Write cpu_display [digit_pattern code; 0; 0; 0];
      Write gpu_display [digit_pattern code; 0; 0; 0]], g, inr tt).
Proof. intros [-> | [-> | ->]]; reflexivity. Qed.

(** C8: [display_temp] writes the frame blank, dash, dash, blank exactly
    when [temp == 0], and the frame letter E, dash, dash, dash exactly when
    [temp < 0 or temp > 999].  The test for zero comes first (and a zero is
    never out of range), and no entry of these two frames is a digit
    pattern.  [float_eq_spec], [float_lt_spec] and [float_gt_spec] read the
    three tests on a finite float. *)
Theorem display_temp_sentinels (display : TM1637.t) (temp : pyfloat)
    (g : globals) :
  let tr := trace_of (display_temp display temp g) in
  (tr = [Write display [0; DASH; DASH; 0]] <-> float_eq temp 0 = true)
  /\ (tr = [Write display [E; DASH; DASH; DASH]]
      <-> float_lt temp 0 = true \/ float_gt temp 999 = true)
  /\ (float_eq temp 0 = true ->
      float_lt temp 0 = false /\ float_gt temp 999 = false)
  /\ (forall seg,
        In seg [0; DASH; DASH; 0] \/ In seg [E; DASH; DASH; DASH] ->
        ~ In seg DIGITS).
Proof.
  intros tr.
  assert (Hcases :
    (float_eq temp 0 = true /\ tr = [Write display [0; DASH; DASH; 0]])
    \/ (float_eq temp 0 = false
        /\ (float_lt temp 0 = true \/ float_gt temp 999 = true)
        /\ tr = [Write display [E; DASH; DASH; DASH]])
    \/ (float_eq temp 0 = false /\ float_lt temp 0 = false
        /\ float_gt temp 999 = false
        /\ tr <> [Write display [0; DASH; DASH; 0]]
        /\ tr <> [Write display [E; DASH; DASH; DASH]])).
  { subst tr.
    destruct (float_eq temp 0) eqn:H0.
    { left. split; [reflexivity|]. now rewrite display_temp_zero. }
    right.
    destruct (float_lt temp 0) eqn:Hlt.
    { left. split; [reflexivity|]. split; [now left|].
      rewrite display_temp_out_of_range; auto. }
    destruct (float_gt temp 999) eqn:Hgt.
    { left. split; [reflexivity|]. split; [now right|].
      rewrite display_temp_out_of_range; auto. }
    right. repeat (split; [reflexivity|]).
    destruct (display_temp_in_range_cases display temp g H0 Hlt Hgt)
      as [[e ->] | [(h & t & o & Hh & ->) | (t & o & ->)]];
      cbn [trace_of fst].
    - split; discriminate.
    - destruct (digit_nonzero h Hh) as (Hz & _ & He).
      split; intros H; injection H; intros; congruence.
    - split; intros H; discriminate H. }
  split; [|split; [|split]].
  - split.
    + intros Htr.
      destruct Hcases as [[H _] | [(_ & _ & H) | (_ & _ & _ & H & _)]];
        [exact H | rewrite H in Htr; discriminate Htr | contradiction].
    + intros H0.
      destruct Hcases as [[_ H] | [(H & _) | (H & _)]];
        [exact H | congruence | congruence].
  - split.
    + intros Htr.
      destruct Hcases as [[_ H] | [(_ & H & _) | (_ & _ & _ & _ & H)]];
        [rewrite H in Htr; discriminate Htr | exact H | contradiction].
    + intros Hout.
      destruct Hcases as [[H _] | [(_ & _ & H) | (_ & Hlt & Hgt & _)]].
      * destruct (float_zero_in_range temp H) as [Hlt Hgt].
        destruct Hout; congruence.
      * exact H.
      * destruct Hout; congruence.
  - apply float_zero_in_range.
  - intros seg Hseg Hin.
    destruct (digit_nonzero seg Hin) as (Hz & Hd & He).
    cbn [In] in Hseg.
    destruct Hseg as [[H | [H | [H | [H | []]]]] | [H | [H | [H | [H | []]]]]];
      congruence.
Qed.

(** C3, as the code has it: from 100 to 999, [display_temp] rounds to the
    nearest integer, which is again between 100 and 999 (the cap at 999
    has nothing to cap), and writes hundreds, tens, ones and a blank.
    Above 999, and so at 999.9, the test for the range has already
    answered with the frame letter E, dash, dash, dash. *)
Theorem display_temp_three_digits (display : TM1637.t) (q : Q) (g : globals) :
  (100 <= q)%Q ->
  let n := round_half_even q in
  ((q <= 999)%Q ->
     100 <= n <= 999
     /\ twice_distance q n <= Z.pos (Qden q)
     /\ display_temp display (Finite q) g
        = ([Write display
              [digit_pattern (n / 100); digit_pattern ((n mod 100) / 10);
               digit_pattern (n mod 10); 0]],
           g, inr tt))
  /\ ((999 < q)%Q ->
        display_temp display (Finite q) g
        = ([Write display [E; DASH; DASH; DASH]], g, inr tt)).
Proof.
  intros Hlo n. split.
  - intros Hhi.
    split; [apply (round_half_even_bounds q 100 999); assumption|].
    split; [apply round_half_even_nearest|].
    now apply display_temp_three_digits_run.
  - intros Hhi. apply display_temp_out_of_range.
    + apply float_eq_false. intros H. rewrite H in Hhi.
      revert Hhi. apply Qle_not_lt. discriminate.
    + right. now apply float_gt_spec.
Qed.

Lemma display_temp_three_digits_witness :
  (100 <= 1056 # 10)%Q
  /\ display_temp cpu_display (Finite (1056 # 10)) (mk_globals 0 false)
     = ([Write cpu_display [digit_pattern 1; digit_pattern 0; digit_pattern 6; 0]],
        mk_globals 0 false, inr tt).
Proof.
  assert (Hlo : (100 <= 1056 # 10)%Q) by discriminate.
  assert (Hhi : (1056 # 10 <= 999)%Q) by discriminate.
  split; [exact Hlo|].
  exact (proj2 (proj2 (proj1
           (display_temp_three_digits cpu_display (1056 # 10)
              (mk_globals 0 false) Hlo) Hhi))).
Defined.

(** At 999.9 the frame is not nine, nine, nine, blank. *)
Lemma display_temp_999_9_is_out_of_range :
  trace_of (display_temp cpu_display (Finite (9999 # 10)) (mk_globals 0 false))
    = [Write cpu_display [E; DASH; DASH; DASH]]
  /\ trace_of (display_temp cpu_display (Finite (9999 # 10))
                 (mk_globals 0 false))
     <> [Write cpu_display
           [digit_pattern 9; digit_pattern 9; digit_pattern 9; 0]].
Proof. split; [reflexivity | discriminate]. Qed.

(** C2, where the code fails: 99.5 is above 0 and below 100, its rounded
    value is 100, the test [temp >= 100] on the float sends it to the
    branch for two digits, and [DIGITS[10]] raises [IndexError] before
    anything is written. *)
Theorem display_temp_99_5_raises (display : TM1637.t) (g : globals) :
  (0 < 199 # 2)%Q /\ (199 # 2 < 100)%Q
  /\ round_half_even (199 # 2) = 100
  /\ display_temp display (Finite (199 # 2)) g = ([], g, inl IndexError).
Proof.
  split; [reflexivity|]. split; [reflexivity|].
  apply display_temp_rounds_to_100; [discriminate | reflexivity].
Qed.

(** Below 99.5 the claim holds: 72.4, and every float that rounds to 72,
    is shown as blank, 7, 2, C. *)
Lemma display_temp_rounds_to_72 (display : TM1637.t) (q : Q) (g : globals) :
  (143 # 2 < q)%Q -> (q < 145 # 2)%Q ->
  display_temp display (Finite q) g
  = ([Write display [0; digit_pattern 7; digit_pattern 2; C]], g, inr tt).
Proof.
  intros Hlo Hhi.
  assert (Hn : round_half_even q = 72).
  { assert (H1 : round_half_even q <= 72)
      by now apply (round_half_even_below_half q 72).
    assert (H2 : 72 <= round_half_even q).
    { revert Hlo. unfold Qlt. cbn [Qnum Qden]. intros Hlo.
      destruct (round_half_even_cases q) as (f & r & Ha & Hr & H).
      rewrite Ha in Hlo.
      destruct H as [[H ->]|[[H ->]|[(H & _ & ->)|(H & _ & ->)]]]; nia. }
    lia. }
  destruct (display_temp_two_digits_run display q g) as [_ H].
  - apply Qlt_trans with (2 := Hlo). reflexivity.
  - apply Qlt_trans with (1 := Hhi). reflexivity.
  - rewrite H, Hn. reflexivity.
Qed.

Lemma display_temp_72_4 (display : TM1637.t) (g : globals) :
  display_temp display (Finite (724 # 10)) g
  = ([Write display [0; digit_pattern 7; digit_pattern 2; C]], g, inr tt).
Proof. apply display_temp_rounds_to_72; reflexivity. Qed.

(** ** Traces without error 20 and without sleep *)

Lemma quiet_nil : quiet [].
Proof. constructor. Qed.

Lemma quiet_app (tr1 tr2 : list event) :
  quiet tr1 -> quiet tr2 -> quiet (tr1 ++ tr2).
Proof. intros H1 H2. apply Forall_app. now split. Qed.

Lemma quiet_print (msg : message) : quiet [Print msg].
Proof. repeat constructor. Qed.

Lemma is_error_20_inv (ev : event) :
  is_error_20 ev = true ->
  exists display, ev = Write display [E; DASH; 0x5B; 0x3F].
Proof.
  destruct ev as [display segments| |]; try discriminate.
  unfold is_error_20, is_write. intros H.
  apply andb_true_iff in H. destruct H as [_ H].
  exists display. f_equal.
  unfold error_segments in H.
  repeat (destruct segments as [|? segments]; try discriminate H;
          cbn [segments_eqb] in H;
          try (apply andb_true_iff in H; destruct H as [?%Z.eqb_eq H])).
  now subst.
Qed.

Lemma quiet_write (display : TM1637.t) (segments : list Z) :
  segments <> [E; DASH; 0x5B; 0x3F] -> quiet [Write display segments].
Proof.
  intros H. constructor; [|constructor]. split; [|reflexivity].
  destruct (is_error_20 (Write display segments)) eqn:He; [|reflexivity].
  apply is_error_20_inv in He. destruct He as [d He].
  injection He as _ He. contradiction.
Qed.

Lemma count_error_20_app (tr1 tr2 : list event) :
  count_error_20 (tr1 ++ tr2)
  = (count_error_20 tr1 + count_error_20 tr2)%nat.
Proof. unfold count_error_20. now rewrite filter_app, length_app. Qed.

Lemma count_sleeps_app (tr1 tr2 : list event) :
  count_sleeps (tr1 ++ tr2) = (count_sleeps tr1 + count_sleeps tr2)%nat.
Proof. unfold count_sleeps. now rewrite filter_app, length_app. Qed.

Lemma quiet_counts (tr : list event) :
  quiet tr -> count_error_20 tr = 0%nat /\ count_sleeps tr = 0%nat.
Proof.
  unfold count_error_20, count_sleeps.
  induction 1 as [|ev tr [He Hs] _ [IH1 IH2]]; [now split|].
  cbn [filter]. now rewrite He, Hs.
Qed.

(** [display_temp] leaves the globals alone and shows no error 20. *)
Lemma display_temp_quiet (display : TM1637.t) (temp : pyfloat) (g : globals) :
  exists tr r, display_temp display temp g = (tr, g, r) /\ quiet tr.
Proof.
  destruct (float_eq temp 0) eqn:H0.
  { rewrite display_temp_zero by assumption. do 2 eexists.
    split; [reflexivity|]. apply quiet_write. discriminate. }
  destruct (float_lt temp 0 || float_gt temp 999) eqn:Hout.
  { apply orb_true_iff in Hout.
    rewrite display_temp_out_of_range by assumption. do 2 eexists.
    split; [reflexivity|]. apply quiet_write. discriminate. }
  apply orb_false_iff in Hout. destruct Hout as [Hlt Hgt].
  destruct (display_temp_in_range_cases display temp g H0 Hlt Hgt)
    as [[e ->] | [(h & t & o & Hh & ->) | (t & o & ->)]];
    do 2 eexists; (split; [reflexivity|]).
  - apply quiet_nil.
  - apply quiet_write. destruct (digit_nonzero h Hh) as (_ & _ & He).
    intros H. injection H as H. contradiction.
  - apply quiet_write. discriminate.
Qed.

Lemma show_error_10_run (g : globals) :
  show_error 10 g
  = ([Write cpu_display [E; DASH; 0x06; 0x3F];
      Write gpu_display [E; DASH; 0x06; 0x3F]], g, inr tt).
Proof. reflexivity. Qed.

Lemma show_error_11_run (g : globals) :
  show_error 11 g
  = ([Write cpu_display [E; DASH; 0x06; 0x06];
      Write gpu_display [E; DASH; 0x06; 0x06]], g, inr tt).
Proof. reflexivity. Qed.

Lemma show_error_20_run (g : globals) :
  show_error 20 g
  = ([Write cpu_display [E; DASH; 0x5B; 0x3F];
      Write gpu_display [E; DASH; 0x5B; 0x3F]], g, inr tt).
Proof. reflexivity. Qed.

Lemma show_error_99_run (g : globals) :
  show_error 99 g
  = ([Write cpu_display [E; DASH; 0x6F; 0x6F];
      Write gpu_display [E; DASH; 0x6F; 0x6F]], g, inr tt).
Proof. reflexivity. Qed.

(** ** Splitting a line *)

Lemma split_not_nil (sep : ascii) (s : string) : split sep s <> [].
Proof.
  destruct s as [|c s]; cbn [split]; [discriminate|].
  destruct (Ascii.eqb c sep); [discriminate|].
  destruct (split sep s); discriminate.
Qed.

Lemma split_contains (sep : ascii) (s : string) :
  contains sep s = true ->
  exists p0 p1 rest, split sep s = p0 :: p1 :: rest.
Proof.
  induction s as [|c s IH]; cbn [contains split]; [discriminate|].
  destruct (Ascii.eqb c sep); cbn [orb].
  - intros _. destruct (split sep s) as [|p ps] eqn:Hs.
    + now apply split_not_nil in Hs.
    + now exists EmptyString, p, ps.
  - intros H. destruct (IH H) as (p0 & p1 & rest & ->).
    now exists (String c p0), p1, rest.
Qed.

Lemma getitem_fields (line : string) :
  contains "," line = true ->
  py_getitem (split "," line) 0 = Some (field 0 line)
  /\ py_getitem (split "," line) 1 = Some (field 1 line).
Proof.
  intros H. unfold field.
  destruct (split_contains _ _ H) as (p0 & p1 & rest & ->).
  unfold py_getitem. cbn [List.length].
  rewrite !Nat2Z.inj_succ.
  split.
  - destruct (Z.ltb_spec 0 (Z.succ (Z.succ (Z.of_nat (List.length rest)))));
      [reflexivity | lia].
  - destruct (Z.ltb_spec 1 (Z.succ (Z.succ (Z.of_nat (List.length rest)))));
      [reflexivity | lia].
Qed.

(** ** The loop *)

Ltac run_loop :=
  cbv beta iota delta [try_except bind getitem py_float ret raise print sleep
                       emit get put set_last_data_time set_error_shown
                       last_data_time error_shown is_ValueError].

Section LoopProperties.

Variable float : string -> option pyfloat.

Lemma check_timeout_run (tk : tick) (g : globals) :
  check_timeout tk g
  = if negb (error_shown g) && (time_at_check tk - last_data_time g >? 10)
    then (timeout_trace, latched g, inr tt)
    else ([], g, inr tt).
Proof.
  unfold check_timeout, bind, get.
  destruct (negb (error_shown g) && (time_at_check tk - last_data_time g >? 10));
    reflexivity.
Qed.

Lemma update_displays_parse_error (tk : tick) (line : string) (g : globals) :
  contains "," line = true ->
  float (field 0 line) = None \/ float (field 1 line) = None ->
  update_displays float tk line g
  = (parse_error_trace line, latched g, inr tt).
Proof.
  intros Hc Hf. destruct (getitem_fields line Hc) as [H0 H1].
  unfold update_displays. run_loop. rewrite H0.
  destruct (float (field 0 line)) as [cpu|] eqn:Hcpu; [|reflexivity].
  rewrite H1.
  destruct Hf as [Hf|Hf]; [discriminate|]. rewrite Hf. reflexivity.
Qed.

Lemma update_displays_parsed (tk : tick) (line : string) (g : globals)
    (cpu_temp gpu_temp : pyfloat) :
  contains "," line = true ->
  float (field 0 line) = Some cpu_temp ->
  float (field 1 line) = Some gpu_temp ->
  exists trc rc trg rg,
    display_temp cpu_display cpu_temp g = (trc, g, rc)
    /\ display_temp gpu_display gpu_temp g = (trg, g, rg)
    /\ quiet trc /\ quiet trg
    /\ update_displays float tk line g
       = match rc, rg with
         | inr _, inr _ =>
             (trc ++ trg ++ [Print (Displayed cpu_temp gpu_temp)],
              mk_globals (time_at_update tk) false, inr tt)
         | inr _, inl e =>
             if is_ValueError e
             then ((trc ++ trg) ++ parse_error_trace line, latched g, inr tt)
             else (trc ++ trg, g, inl e)
         | inl e, _ =>
             if is_ValueError e
             then (trc ++ parse_error_trace line, latched g, inr tt)
             else (trc, g, inl e)
         end.
Proof.
  intros Hc Hcpu Hgpu. destruct (getitem_fields line Hc) as [H0 H1].
  destruct (display_temp_quiet cpu_display cpu_temp g) as (trc & rc & Hdc & Hqc).
  destruct (display_temp_quiet gpu_display gpu_temp g) as (trg & rg & Hdg & Hqg).
  exists trc, rc, trg, rg.
  repeat (split; [assumption|]).
  unfold update_displays. run_loop.
  rewrite H0, Hcpu, H1, Hgpu, Hdc.
  destruct rc as [e|[]].
  - destruct e; cbn [app]; rewrite ?app_nil_r; reflexivity.
  - rewrite Hdg. destruct rg as [e|[]].
    + destruct e; cbn [app]; rewrite ?app_nil_r; reflexivity.
    + cbn [app]. rewrite ?app_nil_r. reflexivity.
Qed.

Lemma process_input_outcome (tk : tick) (g : globals) :
  exists tr g1 r,
    process_input float tk g = (tr, g1, r)
    /\ quiet tr
    /\ (g1 = g
        \/ (g1 = latched g /\ r = inr tt)
        \/ (g1 = mk_globals (time_at_update tk) false /\ r = inr tt
            /\ updated float tk g)).
Proof.
  unfold process_input.
  destruct (stdin tk) as [|line|ex] eqn:Hin.
  - exists [], g, (inr tt). split; [reflexivity|]. split; [constructor|now left].
  - destruct (nonempty line) eqn:Hne.
    2:{ exists [], g, (inr tt).
        split; [reflexivity|]. split; [constructor|now left]. }
    destruct (contains "," line) eqn:Hc.
    + destruct (float (field 0 line)) as [cpu_temp|] eqn:Hcpu.
      2:{ exists ([Print (Received line)] ++ parse_error_trace line),
                 (latched g), (inr tt).
          split.
          - run_loop. now rewrite update_displays_parse_error by auto.
          - split; [|right; left; now split].
            repeat constructor. }
      destruct (float (field 1 line)) as [gpu_temp|] eqn:Hgpu.
      2:{ exists ([Print (Received line)] ++ parse_error_trace line),
                 (latched g), (inr tt).
          split.
          - run_loop. now rewrite update_displays_parse_error by auto.
          - split; [|right; left; now split].
            repeat constructor. }
      destruct (update_displays_parsed tk line g cpu_temp gpu_temp Hc Hcpu Hgpu)
        as (trc & rc & trg & rg & Hdc & Hdg & Hqc & Hqg & Hup).
      assert (Hqe : quiet (parse_error_trace line)) by repeat constructor.
      run_loop. rewrite Hup.
      destruct rc as [e|[]]; [|destruct rg as [e|[]]];
        try destruct (is_ValueError e); do 3 eexists;
        (split; [reflexivity|]); (split; [|auto]);
        repeat (apply quiet_app || apply quiet_print || assumption).
      right; right. split; [reflexivity|]. split; [reflexivity|].
      exists line, cpu_temp, gpu_temp.
      rewrite Hdc, Hdg. repeat split; assumption.
    + do 3 eexists. split; [reflexivity|].
      split; [repeat constructor | right; left; now split].
  - exists [], g, (inl ex). split; [reflexivity|]. split; [constructor|now left].
Qed.

(** What [display_temp] raises is an instance of [Exception]. *)
Lemma display_temp_raises_exception (display : TM1637.t) (temp : pyfloat)
    (g g1 : globals) (tr : list event) (e : exn) :
  display_temp display temp g = (tr, g1, inl e) -> is_Exception e = true.
Proof.
  unfold display_temp.
  destruct (float_eq temp 0); [discriminate|].
  destruct (float_lt temp 0 || float_gt temp 999); [discriminate|].
  destruct temp as [q| | |]; run_prog;
    try (intros H; injection H as _ _ <-; reflexivity).
  destruct (float_ge (Finite q) 100).
  - destruct (py_getitem DIGITS _) as [h|];
      [|intros H; injection H as _ _ <-; reflexivity].
    destruct (py_getitem DIGITS _) as [t|];
      [|intros H; injection H as _ _ <-; reflexivity].
    destruct (py_getitem DIGITS _) as [o|];
      [discriminate|intros H; injection H as _ _ <-; reflexivity].
  - destruct (round_half_even q / 10 >? 0).
    + destruct (py_getitem DIGITS _) as [t|];
        [|intros H; injection H as _ _ <-; reflexivity].
      destruct (py_getitem DIGITS _) as [o|];
        [discriminate|intros H; injection H as _ _ <-; reflexivity].
    + destruct (py_getitem DIGITS _) as [o|];
        [discriminate|intros H; injection H as _ _ <-; reflexivity].
Qed.

(** An exception that leaves the reading of the console was raised by the
    console itself, or is an instance of [Exception]. *)
Lemma process_input_raises (tk : tick) (g g1 : globals) (tr : list event)
    (ex : exn) :
  process_input float tk g = (tr, g1, inl ex) ->
  stdin tk = Fails ex \/ is_Exception ex = true.
Proof.
  unfold process_input.
  destruct (stdin tk) as [|line|ex'] eqn:Hin; [discriminate| |].
  - destruct (nonempty line) eqn:Hne; [|discriminate].
    destruct (contains "," line) eqn:Hc; [|discriminate].
    destruct (float (field 0 line)) as [cpu_temp|] eqn:Hcpu.
    2:{ run_loop. rewrite update_displays_parse_error by auto. discriminate. }
    destruct (float (field 1 line)) as [gpu_temp|] eqn:Hgpu.
    2:{ run_loop. rewrite update_displays_parse_error by auto. discriminate. }
    destruct (update_displays_parsed tk line g cpu_temp gpu_temp Hc Hcpu Hgpu)
      as (trc & rc & trg & rg & Hdc & Hdg & _ & _ & Hup).
    run_loop. rewrite Hup.
    destruct rc as [e|[]]; [|destruct rg as [e|[]]]; try discriminate.
    + pose proof (display_temp_raises_exception _ _ _ _ _ _ Hdc) as He.
      destruct (is_ValueError e); [discriminate|].
      intros H. injection H as _ _ <-. now right.
    + pose proof (display_temp_raises_exception _ _ _ _ _ _ Hdg) as He.
      destruct (is_ValueError e); [discriminate|].
      intros H. injection H as _ _ <-. now right.
  - intros H. injection H as _ _ <-. now left.
Qed.

(** A pass of the loop: after the input either the time-out test and the
    short sleep, or the handler of the outer [try]. *)
Lemma loop_iteration_run (tk : tick) (g : globals) :
  loop_iteration float tk g
  = match process_input float tk g with
    | (tr, g1, inr _) =>
        (tr ++ trace_of (check_timeout tk g1) ++ [Sleep (1 # 10)],
         state_of (check_timeout tk g1), inr tt)
    | (tr, g1, inl ex) =>
        if is_Exception ex then (tr ++ exception_trace ex, g1, inr tt)
        else (tr, g1, inl ex)
    end.
Proof.
  unfold loop_iteration, loop_body, try_except, bind.
  destruct (process_input float tk g) as [[tr g1] [ex|[]]].
  - destruct (is_Exception ex); reflexivity.
  - rewrite check_timeout_run.
    destruct (negb (error_shown g1)
              && (time_at_check tk - last_data_time g1 >? 10)); reflexivity.
Qed.

Lemma process_input_no_separator (tk : tick) (line : string) (g : globals) :
  stdin tk = Line line -> nonempty line = true ->
  contains "," line = false ->
  process_input float tk g
  = ([Print (Received line); Print (InvalidFormat line);
      Write cpu_display (error_segments 0x06 0x06);
      Write gpu_display (error_segments 0x06 0x06)],
     latched g, inr tt).
Proof.
  intros Hin Hne Hc. unfold process_input. now rewrite Hin, Hne, Hc.
Qed.

Lemma process_input_parse_error (tk : tick) (line : string) (g : globals) :
  stdin tk = Line line -> nonempty line = true ->
  contains "," line = true ->
  float (field 0 line) = None \/ float (field 1 line) = None ->
  process_input float tk g
  = (Print (Received line) :: parse_error_trace line, latched g, inr tt).
Proof.
  intros Hin Hne Hc Hf. unfold process_input. rewrite Hin, Hne, Hc.
  run_loop. now rewrite update_displays_parse_error.
Qed.

(** Does the time-out test fire on these globals? *)
Lemma fires_iff (tk : tick) (g : globals) :
  fires tk g = true
  <-> error_shown g = false /\ time_at_check tk - last_data_time g > 10.
Proof.
  unfold fires. rewrite andb_true_iff, negb_true_iff, Z.gtb_gt. reflexivity.
Qed.

Lemma check_timeout_counts (tk : tick) (g : globals) :
  count_error_20 (trace_of (check_timeout tk g))
    = (if fires tk g then 1 else 0)%nat
  /\ count_sleeps (trace_of (check_timeout tk g)) = 0%nat
  /\ state_of (check_timeout tk g) = (if fires tk g then latched g else g).
Proof.
  rewrite check_timeout_run. fold (fires tk g).
  destruct (fires tk g); repeat split.
Qed.

(** One pass of the loop, summarised. *)
Lemma loop_iteration_summary (tk : tick) (g : globals) :
  exists tr1 g1 r1,
    process_input float tk g = (tr1, g1, r1)
    /\ (g1 = g
        \/ (g1 = latched g /\ r1 = inr tt)
        \/ (g1 = mk_globals (time_at_update tk) false /\ r1 = inr tt
            /\ updated float tk g))
    /\ (interrupts tk = false ->
        result_of (loop_iteration float tk g) = inr tt)
    /\ (interrupts tk = false ->
        count_sleeps (trace_of (loop_iteration float tk g)) = 1%nat)
    /\ match r1 with
       | inr _ =>
           count_error_20 (trace_of (loop_iteration float tk g))
             = (if fires tk g1 then 1 else 0)%nat
           /\ state_of (loop_iteration float tk g)
              = (if fires tk g1 then latched g1 else g1)
       | inl ex =>
           count_error_20 (trace_of (loop_iteration float tk g)) = 0%nat
           /\ state_of (loop_iteration float tk g) = g1
           /\ loop_iteration float tk g
              = (if is_Exception ex
                 then (tr1 ++ exception_trace ex, g1, inr tt)
                 else (tr1, g1, inl ex))
       end.
Proof.
  destruct (process_input_outcome tk g) as (tr1 & g1 & r1 & Hp & Hq & Hg).
  exists tr1, g1, r1.
  split; [exact Hp|]. split; [exact Hg|].
  destruct (quiet_counts tr1 Hq) as [Hq20 Hqs].
  destruct (check_timeout_counts tk g1) as (Hc20 & Hcs & Hcg).
  rewrite loop_iteration_run, Hp.
  destruct r1 as [ex|[]].
  - assert (Hcaught : interrupts tk = false -> is_Exception ex = true).
    { intros Hint. destruct (process_input_raises tk g g1 tr1 ex Hp) as [Hf|He];
        [|exact He].
      unfold interrupts in Hint. rewrite Hf in Hint.
      now apply negb_false_iff in Hint. }
    split; [intros Hint; now rewrite (Hcaught Hint)|].
    split.
    { intros Hint. rewrite (Hcaught Hint). cbn [trace_of fst].
      now rewrite count_sleeps_app, Hqs. }
    destruct (is_Exception ex); cbn [trace_of state_of fst snd];
      rewrite ?count_error_20_app, ?Hq20; repeat split.
  - cbn [trace_of state_of result_of fst snd].
    split; [reflexivity|].
    rewrite !count_sleeps_app, !count_error_20_app, Hq20, Hqs, Hc20, Hcs.
    split; [reflexivity|]. split; [|exact Hcg].
    cbn. lia.
Qed.

Lemma main_loop_cons (tk : tick) (ticks : list tick) (g : globals) :
  main_loop float (tk :: ticks) g
  = match loop_iteration float tk g with
    | (tr, g1, inr _) =>
        match main_loop float ticks g1 with
        | (tr', g2, r) => (tr ++ tr', g2, r)
        end
    | (tr, g1, inl e) => (tr, g1, inl e)
    end.
Proof. reflexivity. Qed.

(** While nothing is read, error 20 is shown once if the latch is open
    and the time-out is reached on one of the ticks, and not otherwise. *)
Lemma idle_run_count (ticks : list tick) (g : globals) :
  forallb idle ticks = true ->
  count_error_20 (trace_of (main_loop float ticks g))
  = if error_shown g then 0%nat
    else if existsb (fun tk => time_at_check tk - last_data_time g >? 10) ticks
         then 1%nat else 0%nat.
Proof.
  revert g. induction ticks as [|tk ticks IH]; intros g Hidle.
  - cbn. now destruct (error_shown g).
  - cbn [forallb] in Hidle. apply andb_true_iff in Hidle.
    destruct Hidle as [Htk Hidle].
    assert (Hp : process_input float tk g = ([], g, inr tt)).
    { unfold process_input. unfold idle in Htk.
      destruct (stdin tk) as [|[|c line]|ex]; try discriminate; reflexivity. }
    rewrite main_loop_cons, loop_iteration_run, Hp.
    destruct (check_timeout_counts tk g) as (Hc20 & _ & Hcg).
    rewrite Hcg.
    specialize (IH (if fires tk g then latched g else g) Hidle).
    destruct (main_loop float ticks (if fires tk g then latched g else g))
      as [[tr' g2] r] eqn:Hrest.
    cbn [trace_of fst] in IH |- *.
    rewrite !count_error_20_app, Hc20, IH. cbn [existsb].
    unfold fires.
    destruct (error_shown g) eqn:Hes; cbn [negb andb].
    + rewrite Hes. reflexivity.
    + destruct (time_at_check tk - last_data_time g >? 10); cbn [orb].
      * reflexivity.
      * rewrite Hes. cbn [count_error_20 filter List.length].
        reflexivity.
Qed.

Lemma main_loop_runs (ticks : list tick) (g : globals) :
  forallb (fun tk => negb (interrupts tk)) ticks = true ->
  result_of (main_loop float ticks g) = inr tt
  /\ count_sleeps (trace_of (main_loop float ticks g)) = List.length ticks.
Proof.
  revert g. induction ticks as [|tk ticks IH]; intros g Hint; [now split|].
  cbn [forallb] in Hint. apply andb_true_iff in Hint.
  destruct Hint as [Htk Hint]. apply negb_true_iff in Htk.
  rewrite main_loop_cons.
  destruct (loop_iteration_summary tk g)
    as (tr1 & g1 & r1 & _ & _ & Hres & Hsl & _).
  specialize (Hres Htk). specialize (Hsl Htk).
  destruct (loop_iteration float tk g) as [[tr g'] r].
  cbn [result_of trace_of fst snd] in Hres, Hsl. subst r.
  specialize (IH g' Hint).
  destruct (main_loop float ticks g') as [[tr' g2] r].
  cbn [result_of trace_of fst snd] in IH |- *.
  destruct IH as [-> IH]. split; [reflexivity|].
  rewrite count_sleeps_app, Hsl, IH. reflexivity.
Qed.

(** C5, as the code has it: a pass of the loop shows error 20 if and only
    if reading the console ended without an exception and, at the
    time-out test that follows, the latch is open and more than 10
    seconds have passed since [last_data_time].  It is shown at most once
    in a pass and closes the latch; the latch opens, and [last_data_time]
    changes, only in a pass that parsed a line and displayed both
    temperatures; while nothing is read, error 20 is shown once and not
    again.  The last part gives the pass in full when reading the console
    ends normally. *)
Theorem timeout_error_20 (tk : tick) (g : globals) :
  let r := loop_iteration float tk g in
  ((0 < count_error_20 (trace_of r))%nat
   <-> exists tr1 g1,
         process_input float tk g = (tr1, g1, inr tt)
         /\ error_shown g1 = false
         /\ time_at_check tk - last_data_time g1 > 10)
  /\ (count_error_20 (trace_of r) <= 1)%nat
  /\ ((0 < count_error_20 (trace_of r))%nat ->
      error_shown (state_of r) = true)
  /\ ((last_data_time (state_of r) = last_data_time g
       /\ (error_shown g = true -> error_shown (state_of r) = true))
      \/ (updated float tk g
          /\ last_data_time (state_of r) = time_at_update tk))
  /\ (forall ticks,
        forallb idle ticks = true ->
        count_error_20 (trace_of (main_loop float ticks g))
        = if error_shown g then 0%nat
          else if existsb
                    (fun tk' => time_at_check tk' - last_data_time g >? 10)
                    ticks
               then 1%nat else 0%nat)
  /\ (forall tr1 g1,
        process_input float tk g = (tr1, g1, inr tt) ->
        count_error_20 tr1 = 0%nat
        /\ r = if fires tk g1
               then (tr1 ++ timeout_trace ++ [Sleep (1 # 10)],
                     latched g1, inr tt)
               else (tr1 ++ [Sleep (1 # 10)], g1, inr tt)).
Proof.
  intros r. subst r.
  destruct (loop_iteration_summary tk g)
    as (tr1 & g1 & r1 & Hp & Hg & _ & _ & Hr).
  split; [|split; [|split; [|split; [|split]]]].
  - split.
    + intros Hcount. destruct r1 as [ex|[]].
      * destruct Hr as (H0 & _). rewrite H0 in Hcount. lia.
      * destruct Hr as (H0 & _). rewrite H0 in Hcount.
        destruct (fires tk g1) eqn:Hf; [|lia].
        apply fires_iff in Hf. now exists tr1, g1.
    + intros (tr & g' & Hp' & Hes & Ht).
      rewrite Hp in Hp'. injection Hp' as -> -> ->.
      destruct Hr as (H0 & _). rewrite H0.
      rewrite (proj2 (fires_iff tk g')) by now split. lia.
  - destruct r1 as [ex|[]]; destruct Hr as (H0 & _); rewrite H0;
      [|destruct (fires tk g1)]; lia.
  - intros Hcount. destruct r1 as [ex|[]].
    + destruct Hr as (H0 & _). rewrite H0 in Hcount. lia.
    + destruct Hr as (H0 & Hst). rewrite H0 in Hcount. rewrite Hst.
      destruct (fires tk g1); [reflexivity | lia].
  - assert (Hst : exists b : bool, state_of (loop_iteration float tk g)
                            = if b then latched g1 else g1).
    { destruct r1 as [ex|[]].
      - exists false. now destruct Hr as (_ & -> & _).
      - exists (fires tk g1). now destruct Hr as (_ & ->). }
    destruct Hst as [b Hst]. rewrite Hst.
    destruct Hg as [-> | [[-> _] | (-> & _ & Hup)]].
    + left. destruct b; cbn; auto.
    + left. destruct b; cbn; auto.
    + right. split; [exact Hup|]. now destruct b.
  - intros ticks Hidle. now apply idle_run_count.
  - intros tr g' Hp'. rewrite Hp in Hp'. injection Hp' as -> -> ->.
    destruct (process_input_outcome tk g) as (tr0 & g0 & r0 & Hp0 & Hq & _).
    rewrite Hp in Hp0. injection Hp0 as <- <- <-.
    split; [apply (quiet_counts tr Hq)|].
    rewrite loop_iteration_run, Hp, check_timeout_run. fold (fires tk g').
    destruct (fires tk g'); reflexivity.
Qed.

(** C6: a line that is not empty and has no comma gives error 11 on both
    displays; a line with a comma whose first or second field [float]
    rejects gives error 10 on both displays.  In both cases the pass ends
    normally with the latch closed and [last_data_time] as it was, and
    nothing else is displayed. *)
Theorem malformed_line (tk : tick) (line : string) (g : globals) :
  stdin tk = Line line ->
  line <> EmptyString ->
  (contains "," line = false ->
     loop_iteration float tk g
     = ([Print (Received line); Print (InvalidFormat line);
         Write cpu_display (error_segments (digit_pattern 1) (digit_pattern 1));
         Write gpu_display (error_segments (digit_pattern 1) (digit_pattern 1));
         Sleep (1 # 10)],
        latched g, inr tt))
  /\ (contains "," line = true ->
      float (field 0 line) = None \/ float (field 1 line) = None ->
      loop_iteration float tk g
      = ([Print (Received line); Print (ErrorParsing line);
          Write cpu_display (error_segments (digit_pattern 1) (digit_pattern 0));
          Write gpu_display (error_segments (digit_pattern 1) (digit_pattern 0));
          Sleep (1 # 10)],
         latched g, inr tt))
  /\ last_data_time (latched g) = last_data_time g
  /\ error_shown (latched g) = true.
Proof.
  intros Hin Hline.
  assert (Hne : nonempty line = true) by (destruct line; [contradiction | reflexivity]).
  split; [|split; [|split; reflexivity]].
  - intros Hc. rewrite loop_iteration_run.
    rewrite (process_input_no_separator tk line g Hin Hne Hc).
    rewrite check_timeout_run. reflexivity.
  - intros Hc Hf. rewrite loop_iteration_run.
    rewrite (process_input_parse_error tk line g Hin Hne Hc Hf).
    rewrite check_timeout_run. reflexivity.
Qed.

(** C9, as the code has it: no instance of [Exception] leaves a pass of
    the loop.  One raised while the console is read or a line is processed,
    and not caught as a parse error by the inner handler, reaches the outer
    handler, which prints it, shows error 99 on both displays, sleeps one
    second and lets the loop go on: while the console raises nothing
    outside [Exception], the loop makes one pass per tick and ends each
    with a sleep.  What the body of a pass raises comes from the console or
    is an instance of [Exception]; a [KeyboardInterrupt] or [SystemExit]
    from the console is not caught and leaves the pass as it is. *)
Theorem loop_catches_exceptions (ticks : list tick) (g : globals) :
  forallb (fun tk => negb (interrupts tk)) ticks = true ->
  result_of (main_loop float ticks g) = inr tt
  /\ count_sleeps (trace_of (main_loop float ticks g)) = List.length ticks
  /\ (forall tk g0 tr g1 ex,
        loop_body float tk g0 = (tr, g1, inl ex) ->
        (stdin tk = Fails ex \/ is_Exception ex = true)
        /\ loop_iteration float tk g0
           = if is_Exception ex
             then (tr ++ [Print (ExceptionMsg ex);
                          Write cpu_display
                            (error_segments (digit_pattern 9) (digit_pattern 9));
                          Write gpu_display
                            (error_segments (digit_pattern 9) (digit_pattern 9));
                          Sleep 1],
                   g1, inr tt)
             else (tr, g1, inl ex)).
Proof.
  intros Hint.
  destruct (main_loop_runs ticks g Hint) as [Hres Hsl].
  split; [exact Hres|]. split; [exact Hsl|].
  intros tk g0 tr g1 ex Hbody. split.
  - revert Hbody. unfold loop_body, bind.
    destruct (process_input float tk g0) as [[tr1 g1'] [e|[]]] eqn:Hp.
    + intros H. injection H as _ _ <-.
      exact (process_input_raises tk g0 g1' tr1 e Hp).
    + rewrite check_timeout_run.
      destruct (negb (error_shown g1')
                && (time_at_check tk - last_data_time g1' >? 10));
        discriminate.
  - unfold loop_iteration, try_except. rewrite Hbody.
    destruct (is_Exception ex); reflexivity.
Qed.

End LoopProperties.

(** ** The loop on lines the host can send *)

(** A good line: both temperatures are displayed, the clock is reset and
    the latch opened. *)
Lemma good_line_updates :
  loop_iteration float_decimal (mk_tick (Line "45.0,62.0") 30 30)
    (mk_globals 0 true)
  = ([Print (Received "45.0,62.0");
      Write cpu_display [0; digit_pattern 4; digit_pattern 5; C];
      Write gpu_display [0; digit_pattern 6; digit_pattern 2; C];
      Print (Displayed (Finite (450 # 10)) (Finite (620 # 10)));
      Sleep (1 # 10)],
     mk_globals 30 false, inr tt).
Proof. reflexivity. Qed.

(** The line ["99.5,50.0"]: [display_temp] raises [IndexError] on the
    first temperature, nothing is displayed but error 99, and the
    time-out test of this pass is not reached. *)
Lemma line_99_5_shows_error_99 :
  loop_iteration float_decimal (mk_tick (Line "99.5,50.0") 11 11)
    (mk_globals 0 false)
  = ([Print (Received "99.5,50.0"); Print (ExceptionMsg IndexError);
      Write cpu_display [E; DASH; digit_pattern 9; digit_pattern 9];
      Write gpu_display [E; DASH; digit_pattern 9; digit_pattern 9];
      Sleep 1],
     mk_globals 0 false, inr tt).
Proof. reflexivity. Qed.

(** The latch is open and 11 seconds have passed, yet this pass shows no
    error 20. *)
Lemma timeout_not_checked_after_exception :
  ~ ((0 < count_error_20
            (trace_of
               (loop_iteration float_decimal
                  (mk_tick (Line "99.5,50.0") 11 11) (mk_globals 0 false))))%nat
     <-> error_shown (mk_globals 0 false) = false
         /\ time_at_check (mk_tick (Line "99.5,50.0") 11 11)
            - last_data_time (mk_globals 0 false) > 10).
Proof.
  intros [_ H].
  assert (Hfire : (0 < count_error_20
            (trace_of
               (loop_iteration float_decimal
                  (mk_tick (Line "99.5,50.0") 11 11) (mk_globals 0 false))))%nat)
    by (apply H; split; reflexivity).
  rewrite line_99_5_shows_error_99 in Hfire.
  vm_compute in Hfire. lia.
Qed.

Lemma timeout_error_20_witness :
  (0 < count_error_20
         (trace_of
            (loop_iteration float_decimal (mk_tick NoLine 11 11)
               (mk_globals 0 false))))%nat
  /\ error_shown
       (state_of
          (loop_iteration float_decimal (mk_tick NoLine 11 11)
             (mk_globals 0 false))) = true.
Proof.
  pose proof (timeout_error_20 float_decimal (mk_tick NoLine 11 11)
                (mk_globals 0 false)) as H.
  cbv zeta in H. destruct H as (Hiff & _ & Hlatch & _).
  assert (Hfire : (0 < count_error_20
         (trace_of
            (loop_iteration float_decimal (mk_tick NoLine 11 11)
               (mk_globals 0 false))))%nat).
  { apply (proj2 Hiff). exists [], (mk_globals 0 false).
    split; [reflexivity|]. split; [reflexivity|]. reflexivity. }
  split; [exact Hfire | exact (Hlatch Hfire)].
Defined.

Lemma malformed_line_witness :
  stdin (mk_tick (Line "abc,62.0") 5 5) = Line "abc,62.0"
  /\ "abc,62.0"%string <> EmptyString
  /\ loop_iteration float_decimal (mk_tick (Line "abc,62.0") 5 5)
       (mk_globals 3 false)
     = ([Print (Received "abc,62.0"); Print (ErrorParsing "abc,62.0");
         Write cpu_display (error_segments (digit_pattern 1) (digit_pattern 0));
         Write gpu_display (error_segments (digit_pattern 1) (digit_pattern 0));
         Sleep (1 # 10)],
        mk_globals 3 true, inr tt)
  /\ loop_iteration float_decimal (mk_tick (Line "45.0") 5 5)
       (mk_globals 3 false)
     = ([Print (Received "45.0"); Print (InvalidFormat "45.0");
         Write cpu_display (error_segments (digit_pattern 1) (digit_pattern 1));
         Write gpu_display (error_segments (digit_pattern 1) (digit_pattern 1));
         Sleep (1 # 10)],
        mk_globals 3 true, inr tt).
Proof.
  assert (H1 : stdin (mk_tick (Line "abc,62.0") 5 5) = Line "abc,62.0")
    by reflexivity.
  assert (H2 : "abc,62.0"%string <> EmptyString) by discriminate.
  assert (H3 : stdin (mk_tick (Line "45.0") 5 5) = Line "45.0")
    by reflexivity.
  assert (H4 : "45.0"%string <> EmptyString) by discriminate.
  split; [exact H1|]. split; [exact H2|]. split.
  - exact (proj1 (proj2
             (malformed_line float_decimal (mk_tick (Line "abc,62.0") 5 5)
                "abc,62.0" (mk_globals 3 false) H1 H2))
             eq_refl (or_introl eq_refl)).
  - exact (proj1
             (malformed_line float_decimal (mk_tick (Line "45.0") 5 5)
                "45.0" (mk_globals 3 false) H3 H4)
             eq_refl).
Defined.

Lemma loop_catches_exceptions_witness :
  forallb (fun tk => negb (interrupts tk))
    [mk_tick (Line "99.5,50.0") 11 11;
     mk_tick (Fails (OtherException "OSError")) 12 12] = true
  /\ result_of
       (main_loop float_decimal
          [mk_tick (Line "99.5,50.0") 11 11;
           mk_tick (Fails (OtherException "OSError")) 12 12]
          (mk_globals 0 false)) = inr tt
  /\ count_sleeps
       (trace_of
          (main_loop float_decimal
             [mk_tick (Line "99.5,50.0") 11 11;
              mk_tick (Fails (OtherException "OSError")) 12 12]
             (mk_globals 0 false))) = 2%nat
  /\ loop_body float_decimal (mk_tick (Line "99.5,50.0") 11 11)
       (mk_globals 0 false)
     = ([Print (Received "99.5,50.0")], mk_globals 0 false, inl IndexError)
  /\ loop_iteration float_decimal (mk_tick (Line "99.5,50.0") 11 11)
       (mk_globals 0 false)
     = ([Print (Received "99.5,50.0")]
        ++ [Print (ExceptionMsg IndexError);
            Write cpu_display
              (error_segments (digit_pattern 9) (digit_pattern 9));
            Write gpu_display
              (error_segments (digit_pattern 9) (digit_pattern 9));
            Sleep 1],
        mk_globals 0 false, inr tt).
Proof.
  assert (Hint : forallb (fun tk => negb (interrupts tk))
                   [mk_tick (Line "99.5,50.0") 11 11;
                    mk_tick (Fails (OtherException "OSError")) 12 12] = true)
    by reflexivity.
  assert (Hbody :
    loop_body float_decimal (mk_tick (Line "99.5,50.0") 11 11)
      (mk_globals 0 false)
    = ([Print (Received "99.5,50.0")], mk_globals 0 false, inl IndexError))
    by reflexivity.
  pose proof (loop_catches_exceptions float_decimal
                [mk_tick (Line "99.5,50.0") 11 11;
                 mk_tick (Fails (OtherException "OSError")) 12 12]
                (mk_globals 0 false) Hint) as H.
  destruct H as (Hres & Hsl & Hpass).
  split; [exact Hint|]. split; [exact Hres|]. split; [exact Hsl|].
  split; [exact Hbody|].
  exact (proj2 (Hpass _ _ _ _ _ Hbody)).
Defined.

(** A [KeyboardInterrupt] from the console leaves the loop: nothing is
    shown, the loop does not sleep and the next tick is not read. *)
Lemma keyboard_interrupt_ends_the_loop :
  main_loop float_decimal
    [mk_tick (Fails KeyboardInterrupt) 1 1; mk_tick NoLine 2 2]
    (mk_globals 0 false)
  = ([], mk_globals 0 false, inl KeyboardInterrupt).
Proof. reflexivity. Qed.

(** The statements before the loop show 1, 2 and 3 on both displays, wait
    two seconds and one second in between, and enter the loop with the
    latch open and the clock at the present time. *)
Lemma startup_run (now : Z) (g : globals) :
  startup now g
  = ([Print (Literal "Status 1: Boot successful");
      Write cpu_display [digit_pattern 1; 0; 0; 0];
      Write gpu_display [digit_pattern 1; 0; 0; 0];
      Sleep 2;
      Print (Literal "Status 2: Waiting for serial connection");
      Write cpu_display [digit_pattern 2; 0; 0; 0];
      Write gpu_display [digit_pattern 2; 0; 0; 0];
      Sleep 1;
      Print (Literal "Status 3: Connected, waiting for temperature data");
      Write cpu_display [digit_pattern 3; 0; 0; 0];
      Write gpu_display [digit_pattern 3; 0; 0; 0]],
     mk_globals now false, inr tt).
Proof. reflexivity. Qed.

(** * More about the driver *)

(** ** The bits of a byte *)

Lemma data_bits_mod (v : Z) : data_bits (v mod 256) = data_bits v.
Proof.
  rewrite !data_bits_testbit. apply map_ext_in. intros i Hi. f_equal.
  change 256 with (2 ^ 8). apply Z.mod_pow2_bits_low.
  unfold range8 in Hi. cbn [In] in Hi. lia.
Qed.

Lemma lsb_first_data_bits (v : Z) : TM1637.lsb_first (data_bits v) = v mod 256.
Proof.
  rewrite <- data_bits_mod. apply data_bits_lsb_first.
  apply Z.mod_pos_bound. lia.
Qed.

Lemma data_bits_values (v : Z) :
  Forall (fun x => x = 0 \/ x = 1) (data_bits v).
Proof.
  rewrite data_bits_testbit. apply Forall_map, Forall_forall.
  intros i _. destruct (Z.testbit v i); [now right | now left].
Qed.

Lemma bit_cycles_inj (self : TM1637.t) (bits1 bits2 : list Z)
    (tail : list hw_event) :
  List.length bits1 = List.length bits2 ->
  flat_map (TM1637.bit_cycle self) bits1 ++ tail
  = flat_map (TM1637.bit_cycle self) bits2 ++ tail ->
  bits1 = bits2.
Proof.
  revert bits2. induction bits1 as [|v1 bits1 IH]; intros [|v2 bits2] Hlen H;
    try discriminate Hlen; [reflexivity|].
  cbn [flat_map TM1637.bit_cycle app] in H.
  injection H as Hv H. injection Hlen as Hlen.
  f_equal; [exact Hv|]. now apply IH.
Qed.

(** X1: [_write_byte] puts on the wire the low eight bits of its argument
    and nothing else of it: two integers give the same pin activity
    exactly when they agree modulo 256.  A pattern above 255 is sent
    truncated; two different bytes are never sent alike. *)
Theorem write_byte_sends_low_byte (self : TM1637.t) (b b' : Z) :
  TM1637._write_byte b self = TM1637._write_byte b' self
  <-> b mod 256 = b' mod 256.
Proof.
  rewrite !write_byte_run. split.
  - intros H. apply (f_equal (fun r => fst (fst r))) in H. cbn [fst] in H.
    apply bit_cycles_inj in H.
    + rewrite <- !lsb_first_data_bits. now rewrite H.
    + unfold data_bits. now rewrite !length_map.
  - intros H. rewrite <- (data_bits_mod b), <- (data_bits_mod b'), H.
    reflexivity.
Qed.

(** ** The pins a write touches *)

Lemma bus_trace_forallb (self : TM1637.t) (P : hw_event -> bool)
    (ops : list TM1637.bus_op) :
  (forall op, In op ops ->
     forallb P (trace_of (TM1637.bus_method op self)) = true) ->
  forallb P (TM1637.bus_trace self ops) = true.
Proof.
  induction ops as [|op ops IH]; intros H; [reflexivity|].
  rewrite bus_trace_cons, forallb_app, H by now left.
  apply IH. intros op' Hin. apply H. now right.
Qed.

Lemma own_pin_clk (self : TM1637.t) (v : Z) :
  v = 0 \/ v = 1 ->
  own_pin_event self (PinValue (TM1637.clk self) v) = true.
Proof.
  intros [-> | ->]; unfold own_pin_event; now rewrite Z.eqb_refl.
Qed.

Lemma own_pin_dio (self : TM1637.t) (v : Z) :
  v = 0 \/ v = 1 ->
  own_pin_event self (PinValue (TM1637.dio self) v) = true.
Proof.
  intros [-> | ->]; unfold own_pin_event;
    now rewrite Z.eqb_refl, orb_true_r.
Qed.

Lemma own_pin_bit_cycles (self : TM1637.t) (bits : list Z) :
  Forall (fun x => x = 0 \/ x = 1) bits ->
  forallb (own_pin_event self) (flat_map (TM1637.bit_cycle self) bits) = true.
Proof.
  induction 1 as [|v bits Hv _ IH]; [reflexivity|].
  cbn [flat_map]. rewrite forallb_app, IH, andb_true_r.
  unfold TM1637.bit_cycle. cbn [forallb].
  rewrite !own_pin_clk, own_pin_dio by auto. reflexivity.
Qed.

Lemma own_pin_bus_method (self : TM1637.t) (op : TM1637.bus_op) :
  forallb (own_pin_event self) (trace_of (TM1637.bus_method op self)) = true.
Proof.
  destruct op as [|v|]; cbn [TM1637.bus_method].
  - rewrite start_run. cbn [trace_of fst forallb].
    rewrite own_pin_dio by auto. reflexivity.
  - rewrite write_byte_run. cbn [trace_of fst].
    rewrite forallb_app, own_pin_bit_cycles by apply data_bits_values.
    unfold TM1637.ack_pulse. cbn [forallb].
    rewrite !own_pin_clk by auto. reflexivity.
  - rewrite stop_run. cbn [trace_of fst forallb].
    rewrite !own_pin_dio, own_pin_clk by auto. reflexivity.
Qed.

(** X2: whatever the frame, [write] only drives the clock and data pins of
    its own display, only with the values 0 and 1, never samples a pin,
    and every delay is 2 microseconds. *)
Theorem write_drives_own_pins (self : TM1637.t) (segments : list Z) :
  forallb (own_pin_event self) (trace_of (TM1637.write segments self)) = true.
Proof.
  rewrite write_run. cbn [trace_of fst].
  apply bus_trace_forallb. intros op _. apply own_pin_bus_method.
Qed.

(** ** The lines between and during transactions *)

Lemma bus_after_app (self : TM1637.t) (b : bus) (tr1 tr2 : list hw_event) :
  bus_after self b (tr1 ++ tr2) = bus_after self (bus_after self b tr1) tr2.
Proof. apply fold_left_app. Qed.

Lemma stop_leaves_idle (self : TM1637.t) (b : bus) :
  bus_after self b (trace_of (TM1637._stop self)) = idle_bus.
Proof.
  rewrite stop_run. cbn [trace_of fst bus_after fold_left drive].
  change (negb (0 =? 0)) with false. change (negb (1 =? 0)) with true.
  cbn [clk_level dio_level]. rewrite !Z.eqb_refl.
  destruct (TM1637.dio self =? TM1637.clk self),
           (TM1637.clk self =? TM1637.dio self); reflexivity.
Qed.

(** X3: from any levels of the two lines, [write] leaves both high, which
    is the state in which the next transaction can start. *)
Theorem write_leaves_bus_idle (self : TM1637.t) (segments : list Z) (b : bus) :
  bus_after self b (trace_of (TM1637.write segments self)) = idle_bus.
Proof.
  rewrite write_run. cbn [trace_of fst].
  rewrite !app_assoc.
  change [TM1637.Stop; TM1637.Start;
          TM1637.Byte (Z.lor 136 (TM1637.brightness self)); TM1637.Stop]
    with ([TM1637.Stop; TM1637.Start;
           TM1637.Byte (Z.lor 136 (TM1637.brightness self))]
          ++ [TM1637.Stop]).
  rewrite !app_assoc, bus_trace_app, bus_after_app.
  cbn [TM1637.bus_trace flat_map TM1637.bus_method]. rewrite app_nil_r.
  apply stop_leaves_idle.
Qed.

Section Lines.

Variable self : TM1637.t.
Hypothesis pins : TM1637.clk self <> TM1637.dio self.

Lemma dio_is_not_clk : (TM1637.dio self =? TM1637.clk self) = false.
Proof. apply Z.eqb_neq. congruence. Qed.

Lemma clk_is_not_dio : (TM1637.clk self =? TM1637.dio self) = false.
Proof. now apply Z.eqb_neq. Qed.

Lemma drive_clk (b : bus) (v : Z) :
  drive self b (PinValue (TM1637.clk self) v)
  = mk_bus (negb (v =? 0)) (dio_level b).
Proof. unfold drive. now rewrite Z.eqb_refl, clk_is_not_dio. Qed.

Lemma drive_dio (b : bus) (v : Z) :
  drive self b (PinValue (TM1637.dio self) v)
  = mk_bus (clk_level b) (negb (v =? 0)).
Proof. unfold drive. now rewrite Z.eqb_refl, dio_is_not_clk. Qed.

(** *** Start and stop conditions *)

Lemma conditions_sleep (b : bus) (n : Z) (tr : list hw_event) :
  conditions self b (SleepUs n :: tr) = conditions self b tr.
Proof.
  cbn [conditions drive].
  destruct (clk_level b), (dio_level b); reflexivity.
Qed.

Lemma conditions_clk (b : bus) (v : Z) (tr : list hw_event) :
  conditions self b (PinValue (TM1637.clk self) v :: tr)
  = conditions self (mk_bus (negb (v =? 0)) (dio_level b)) tr.
Proof.
  cbn [conditions]. rewrite drive_clk. cbn [clk_level dio_level].
  destruct (clk_level b), (negb (v =? 0)), (dio_level b); reflexivity.
Qed.

Lemma conditions_dio_clock_low (d : bool) (v : Z) (tr : list hw_event) :
  conditions self (mk_bus false d) (PinValue (TM1637.dio self) v :: tr)
  = conditions self (mk_bus false (negb (v =? 0))) tr.
Proof. cbn [conditions]. rewrite drive_dio. reflexivity. Qed.

Lemma conditions_dio_clock_high (d : bool) (v : Z) (tr : list hw_event) :
  conditions self (mk_bus true d) (PinValue (TM1637.dio self) v :: tr)
  = (if d && (v =? 0) then [StartCondition]
     else if negb d && negb (v =? 0) then [StopCondition]
     else [])
    ++ conditions self (mk_bus true (negb (v =? 0))) tr.
Proof.
  cbn [conditions]. rewrite drive_dio. cbn [clk_level dio_level andb].
  destruct d, (v =? 0); reflexivity.
Qed.

Ltac step_conditions :=
  repeat first
    [ rewrite conditions_clk
    | rewrite conditions_sleep
    | rewrite conditions_dio_clock_low
    | progress change (negb (0 =? 0)) with false
    | progress change (negb (1 =? 0)) with true
    | progress cbn [dio_level clk_level] ].

Lemma conditions_bit_cycle (b : bus) (v : Z) (tr : list hw_event) :
  conditions self b (TM1637.bit_cycle self v ++ tr)
  = conditions self (mk_bus true (negb (v =? 0))) tr.
Proof.
  unfold TM1637.bit_cycle. rewrite <- !app_comm_cons, app_nil_l.
  step_conditions. reflexivity.
Qed.

Lemma conditions_ack_pulse (b : bus) (tr : list hw_event) :
  conditions self b (TM1637.ack_pulse self ++ tr)
  = conditions self (mk_bus false (dio_level b)) tr.
Proof.
  unfold TM1637.ack_pulse. rewrite <- !app_comm_cons, app_nil_l.
  step_conditions. reflexivity.
Qed.

Lemma conditions_bit_cycles (bits : list Z) (b : bus) :
  exists d, forall tr,
    conditions self b
      ((flat_map (TM1637.bit_cycle self) bits ++ TM1637.ack_pulse self) ++ tr)
    = conditions self (mk_bus false d) tr.
Proof.
  revert b. induction bits as [|v bits IH]; intros b.
  - exists (dio_level b). intros tr. cbn [flat_map app].
    apply conditions_ack_pulse.
  - destruct (IH (mk_bus true (negb (v =? 0)))) as [d Hd].
    exists d. intros tr. cbn [flat_map].
    rewrite <- !app_assoc, conditions_bit_cycle, !app_assoc. apply Hd.
Qed.

(** A byte is sent without a start or a stop condition, and leaves the
    clock low. *)
Lemma conditions_byte (v : Z) (b : bus) :
  exists d, forall tr,
    conditions self b (trace_of (TM1637._write_byte v self) ++ tr)
    = conditions self (mk_bus false d) tr.
Proof.
  rewrite write_byte_run. cbn [trace_of fst]. apply conditions_bit_cycles.
Qed.

Lemma conditions_bytes (bytes : list Z) (d : bool) :
  exists d', forall tr,
    conditions self (mk_bus false d)
      (TM1637.bus_trace self (map TM1637.Byte bytes) ++ tr)
    = conditions self (mk_bus false d') tr.
Proof.
  revert d. induction bytes as [|v bytes IH]; intros d.
  - exists d. reflexivity.
  - destruct (conditions_byte v (mk_bus false d)) as [d1 H1].
    destruct (IH d1) as [d2 H2].
    exists d2. intros tr. cbn [map].
    rewrite bus_trace_cons. cbn [TM1637.bus_method].
    rewrite <- app_assoc, H1. apply H2.
Qed.

Lemma conditions_start (tr : list hw_event) :
  conditions self idle_bus (trace_of (TM1637._start self) ++ tr)
  = StartCondition :: conditions self (mk_bus true false) tr.
Proof.
  rewrite start_run. cbn [trace_of fst]. rewrite <- !app_comm_cons, app_nil_l.
  unfold idle_bus. rewrite conditions_dio_clock_high, conditions_sleep.
  reflexivity.
Qed.

Lemma conditions_stop (d : bool) (tr : list hw_event) :
  conditions self (mk_bus false d) (trace_of (TM1637._stop self) ++ tr)
  = StopCondition :: conditions self idle_bus tr.
Proof.
  rewrite stop_run. cbn [trace_of fst]. rewrite <- !app_comm_cons, app_nil_l.
  step_conditions. rewrite conditions_dio_clock_high.
  reflexivity.
Qed.

(** One transaction: start, the command byte, the data bytes, stop. *)
Lemma conditions_transaction (v : Z) (bytes : list Z) (tr : list hw_event) :
  conditions self idle_bus
    (TM1637.bus_trace self
       (TM1637.Start :: TM1637.Byte v :: map TM1637.Byte bytes ++ [TM1637.Stop])
     ++ tr)
  = StartCondition :: StopCondition :: conditions self idle_bus tr.
Proof.
  rewrite !bus_trace_cons, bus_trace_app. cbn [TM1637.bus_method].
  rewrite <- !app_assoc, conditions_start.
  destruct (conditions_byte v (mk_bus true false)) as [d1 H1]. rewrite H1.
  destruct (conditions_bytes bytes d1) as [d2 H2]. rewrite H2.
  cbn [TM1637.bus_trace flat_map TM1637.bus_method]. rewrite app_nil_r.
  now rewrite conditions_stop.
Qed.

End Lines.

(** X4: from lines that are idle, and whatever the frame, the data line
    changes while the clock is high exactly six times during [write]: a
    start and a stop condition for each of the three transactions.  Every
    other change of the data line, so every data bit, happens while the
    clock is low. *)
Theorem write_start_stop_conditions (self : TM1637.t) (segments : list Z) :
  TM1637.clk self <> TM1637.dio self ->
  conditions self idle_bus (trace_of (TM1637.write segments self))
  = [StartCondition; StopCondition;
     StartCondition; StopCondition;
     StartCondition; StopCondition].
Proof.
  intros Hpins. rewrite write_run. cbn [trace_of fst].
  replace ([TM1637.Start; TM1637.Byte 64; TM1637.Stop;
            TM1637.Start; TM1637.Byte 192]
           ++ map TM1637.Byte segments
           ++ [TM1637.Stop; TM1637.Start;
               TM1637.Byte (Z.lor 136 (TM1637.brightness self)); TM1637.Stop])
    with ((TM1637.Start :: TM1637.Byte 64 :: map TM1637.Byte [] ++ [TM1637.Stop])
          ++ (TM1637.Start :: TM1637.Byte 192
                :: map TM1637.Byte segments ++ [TM1637.Stop])
          ++ (TM1637.Start :: TM1637.Byte (Z.lor 136 (TM1637.brightness self))
                :: map TM1637.Byte [] ++ [TM1637.Stop]))
    by (cbn [map app]; now rewrite <- app_assoc).
  rewrite !bus_trace_app.
  rewrite (conditions_transaction self Hpins), (conditions_transaction self Hpins).
  rewrite <- (app_nil_r (TM1637.bus_trace self _)).
  rewrite (conditions_transaction self Hpins). reflexivity.
Qed.

Lemma write_start_stop_conditions_witness :
  TM1637.clk cpu_display <> TM1637.dio cpu_display
  /\ conditions cpu_display idle_bus
       (trace_of (TM1637.write [0; 7; 91; 57] cpu_display))
     = [StartCondition; StopCondition;
        StartCondition; StopCondition;
        StartCondition; StopCondition].
Proof.
  assert (Hp : TM1637.clk cpu_display <> TM1637.dio cpu_display)
    by discriminate.
  split; [exact Hp|].
  exact (write_start_stop_conditions cpu_display [0; 7; 91; 57] Hp).
Defined.

(** ** What the controller reads *)

Section Sampling.

Variable self : TM1637.t.
Hypothesis pins : TM1637.clk self <> TM1637.dio self.

Lemma samples_sleep (b : bus) (n : Z) (tr : list hw_event) :
  samples self b (SleepUs n :: tr) = samples self b tr.
Proof.
  cbn [samples drive]. destruct (clk_level b); reflexivity.
Qed.

Lemma samples_clk_low (b : bus) (tr : list hw_event) :
  samples self b (PinValue (TM1637.clk self) 0 :: tr)
  = samples self (mk_bus false (dio_level b)) tr.
Proof.
  cbn [samples]. rewrite (drive_clk self pins).
  change (negb (0 =? 0)) with false. cbn [clk_level].
  now rewrite andb_false_r.
Qed.

Lemma samples_clk_high (d : bool) (tr : list hw_event) :
  samples self (mk_bus false d) (PinValue (TM1637.clk self) 1 :: tr)
  = d :: samples self (mk_bus true d) tr.
Proof. cbn [samples]. rewrite (drive_clk self pins). reflexivity. Qed.

Lemma samples_dio (b : bus) (v : Z) (tr : list hw_event) :
  samples self b (PinValue (TM1637.dio self) v :: tr)
  = samples self (mk_bus (clk_level b) (negb (v =? 0))) tr.
Proof.
  cbn [samples]. rewrite (drive_dio self pins). cbn [clk_level].
  destruct (clk_level b); reflexivity.
Qed.

Ltac step_samples :=
  repeat first
    [ rewrite samples_clk_low
    | rewrite samples_clk_high
    | rewrite samples_sleep
    | rewrite samples_dio
    | progress cbn [dio_level clk_level] ].

Lemma samples_bit_cycle (b : bus) (v : Z) (tr : list hw_event) :
  samples self b (TM1637.bit_cycle self v ++ tr)
  = negb (v =? 0) :: samples self (mk_bus true (negb (v =? 0))) tr.
Proof.
  unfold TM1637.bit_cycle. rewrite <- !app_comm_cons, app_nil_l.
  step_samples. reflexivity.
Qed.

Lemma samples_ack_pulse (d : bool) (tr : list hw_event) :
  samples self (mk_bus true d) (TM1637.ack_pulse self ++ tr)
  = d :: samples self (mk_bus false d) tr.
Proof.
  unfold TM1637.ack_pulse. rewrite <- !app_comm_cons, app_nil_l.
  step_samples. reflexivity.
Qed.

Lemma level_of_bit (t : bool) : negb (Z.b2z t =? 0) = t.
Proof. now destruct t. Qed.

End Sampling.

(** X6: at the nine rising edges of the clock in [_write_byte(v)] the data
    line carries bit 0 to bit 7 of [v], in this order, and at the ninth
    edge still bit 7: during the acknowledge pulse the driver neither
    releases the data line nor reads it. *)
Theorem write_byte_sampled_bits (self : TM1637.t) (v : Z) (b : bus) :
  TM1637.clk self <> TM1637.dio self ->
  samples self b (trace_of (TM1637._write_byte v self))
  = map (Z.testbit v) range8 ++ [Z.testbit v 7].
Proof.
  intros Hpins.
  rewrite write_byte_run, data_bits_testbit. cbn [trace_of fst].
  cbn [range8 map flat_map]. rewrite <- !app_assoc, app_nil_l.
  rewrite !(samples_bit_cycle self Hpins), !level_of_bit.
  rewrite <- (app_nil_r (TM1637.ack_pulse self)).
  rewrite (samples_ack_pulse self Hpins).
  reflexivity.
Qed.

Lemma write_byte_sampled_bits_witness :
  TM1637.clk cpu_display <> TM1637.dio cpu_display
  /\ samples cpu_display idle_bus (trace_of (TM1637._write_byte 0xC0 cpu_display))
     = [false; false; false; false; false; false; true; true; true].
Proof.
  assert (Hp : TM1637.clk cpu_display <> TM1637.dio cpu_display)
    by discriminate.
  split; [exact Hp|].
  exact (write_byte_sampled_bits cpu_display 0xC0 idle_bus Hp).
Defined.

(** ** Clock edges and time of a write *)

Lemma total_sleep_us_app (tr1 tr2 : list hw_event) :
  total_sleep_us (tr1 ++ tr2) = total_sleep_us tr1 + total_sleep_us tr2.
Proof.
  induction tr1 as [|[p v|p|n] tr1 IH]; cbn [app total_sleep_us]; lia.
Qed.

Lemma total_sleep_us_bit_cycles (self : TM1637.t) (bits : list Z) :
  total_sleep_us (flat_map (TM1637.bit_cycle self) bits)
  = 6 * Z.of_nat (List.length bits).
Proof.
  induction bits as [|v bits IH]; [reflexivity|].
  cbn [flat_map List.length]. rewrite total_sleep_us_app, IH, Nat2Z.inj_succ.
  unfold TM1637.bit_cycle. cbn [total_sleep_us]. lia.
Qed.

Lemma total_sleep_us_bus_method (self : TM1637.t) (op : TM1637.bus_op) :
  total_sleep_us (trace_of (TM1637.bus_method op self))
  = match op with
    | TM1637.Start => 2
    | TM1637.Byte _ => 54
    | TM1637.Stop => 4
    end.
Proof.
  destruct op as [|v|]; cbn [TM1637.bus_method].
  - now rewrite start_run.
  - rewrite write_byte_run. cbn [trace_of fst].
    rewrite total_sleep_us_app, total_sleep_us_bit_cycles.
    unfold data_bits. rewrite length_map. reflexivity.
  - now rewrite stop_run.
Qed.

Lemma total_sleep_us_bytes (self : TM1637.t) (bytes : list Z) :
  total_sleep_us (TM1637.bus_trace self (map TM1637.Byte bytes))
  = 54 * Z.of_nat (List.length bytes).
Proof.
  induction bytes as [|v bytes IH]; [reflexivity|].
  cbn [map List.length].
  rewrite bus_trace_cons, total_sleep_us_app, IH, Nat2Z.inj_succ,
    total_sleep_us_bus_method.
  lia.
Qed.

Section Edges.

Variable self : TM1637.t.
Hypothesis pins : TM1637.clk self <> TM1637.dio self.

Lemma rising_edges_bit_cycles_then (bits : list Z) (level : bool)
    (tr : list hw_event) :
  rising_edges (TM1637.clk self) level
    ((flat_map (TM1637.bit_cycle self) bits ++ TM1637.ack_pulse self) ++ tr)
  = (S (List.length bits) + rising_edges (TM1637.clk self) false tr)%nat.
Proof.
  revert level. induction bits as [|v bits IH]; intros level.
  - unfold flat_map, TM1637.ack_pulse. rewrite app_nil_l, <- !app_comm_cons, app_nil_l.
    rewrite rising_edges_clk_low, rising_edges_sleep, rising_edges_clk_high,
      rising_edges_sleep, rising_edges_clk_low, rising_edges_sleep.
    reflexivity.
  - change (flat_map (TM1637.bit_cycle self) (v :: bits))
      with (TM1637.bit_cycle self v ++ flat_map (TM1637.bit_cycle self) bits).
    rewrite <- !app_assoc. unfold TM1637.bit_cycle at 1.
    rewrite <- !app_comm_cons, app_nil_l.
    rewrite rising_edges_clk_low, rising_edges_sleep,
      rising_edges_other_pin, rising_edges_sleep, rising_edges_clk_high,
      rising_edges_sleep by congruence.
    rewrite !app_assoc, IH. reflexivity.
Qed.

Lemma rising_edges_byte (v : Z) (level : bool) (tr : list hw_event) :
  rising_edges (TM1637.clk self) level
    (trace_of (TM1637._write_byte v self) ++ tr)
  = (9 + rising_edges (TM1637.clk self) false tr)%nat.
Proof.
  rewrite write_byte_run. cbn [trace_of fst].
  rewrite rising_edges_bit_cycles_then. unfold data_bits.
  now rewrite length_map.
Qed.

Lemma rising_edges_bytes (bytes : list Z) (tr : list hw_event) :
  rising_edges (TM1637.clk self) false
    (TM1637.bus_trace self (map TM1637.Byte bytes) ++ tr)
  = (9 * List.length bytes + rising_edges (TM1637.clk self) false tr)%nat.
Proof.
  induction bytes as [|v bytes IH]; [reflexivity|].
  cbn [map List.length]. rewrite bus_trace_cons. cbn [TM1637.bus_method].
  rewrite <- app_assoc, rising_edges_byte, IH. lia.
Qed.

Lemma rising_edges_start (level : bool) (tr : list hw_event) :
  rising_edges (TM1637.clk self) level (trace_of (TM1637._start self) ++ tr)
  = rising_edges (TM1637.clk self) level tr.
Proof.
  rewrite start_run. cbn [trace_of fst]. rewrite <- !app_comm_cons, app_nil_l.
  now rewrite rising_edges_other_pin, rising_edges_sleep by congruence.
Qed.

Lemma rising_edges_stop (tr : list hw_event) :
  rising_edges (TM1637.clk self) false (trace_of (TM1637._stop self) ++ tr)
  = S (rising_edges (TM1637.clk self) true tr).
Proof.
  rewrite stop_run. cbn [trace_of fst]. rewrite <- !app_comm_cons, app_nil_l.
  rewrite rising_edges_other_pin, rising_edges_sleep, rising_edges_clk_high,
    rising_edges_sleep, rising_edges_other_pin by congruence.
  reflexivity.
Qed.

Lemma rising_edges_transaction (v : Z) (bytes : list Z) (level : bool)
    (tr : list hw_event) :
  rising_edges (TM1637.clk self) level
    (TM1637.bus_trace self
       (TM1637.Start :: TM1637.Byte v :: map TM1637.Byte bytes ++ [TM1637.Stop])
     ++ tr)
  = (9 * List.length bytes + 10 + rising_edges (TM1637.clk self) true tr)%nat.
Proof.
  rewrite !bus_trace_cons, bus_trace_app. cbn [TM1637.bus_method].
  rewrite <- !app_assoc, rising_edges_start, rising_edges_byte,
    rising_edges_bytes.
  cbn [TM1637.bus_trace flat_map TM1637.bus_method]. rewrite app_nil_r.
  rewrite rising_edges_stop. lia.
Qed.

End Edges.

Lemma write_as_transactions (self : TM1637.t) (segments : list Z) :
  trace_of (TM1637.write segments self)
  = TM1637.bus_trace self
      (TM1637.Start :: TM1637.Byte 0x40 :: map TM1637.Byte [] ++ [TM1637.Stop])
    ++ TM1637.bus_trace self
         (TM1637.Start :: TM1637.Byte 0xC0
            :: map TM1637.Byte segments ++ [TM1637.Stop])
    ++ TM1637.bus_trace self
         (TM1637.Start :: TM1637.Byte (Z.lor 0x88 (TM1637.brightness self))
            :: map TM1637.Byte [] ++ [TM1637.Stop])
    ++ [].
Proof.
  rewrite write_run. cbn [trace_of fst].
  rewrite app_nil_r, <- !bus_trace_app. f_equal.
  cbn [map app]. now rewrite <- app_assoc.
Qed.

(** X5: [write] accepts a frame of any length, the empty one included, and
    sends one data byte per entry.  With [n] entries the clock rises
    [9 * (n + 3) + 3] times and the delays add up to [54 * (n + 3) + 18]
    microseconds: 66 edges and 396 microseconds for a frame of four. *)
Theorem write_any_length (self : TM1637.t) (segments : list Z) (level : bool) :
  TM1637.clk self <> TM1637.dio self ->
  let n := List.length segments in
  result_of (TM1637.write segments self) = inr tt
  /\ state_of (TM1637.write segments self) = self
  /\ rising_edges (TM1637.clk self) level (trace_of (TM1637.write segments self))
     = (9 * (n + 3) + 3)%nat
  /\ total_sleep_us (trace_of (TM1637.write segments self))
     = 54 * (Z.of_nat n + 3) + 18.
Proof.
  intros Hpins n. split; [now rewrite write_run|].
  split; [now rewrite write_run|]. split.
  - rewrite write_as_transactions.
    rewrite !(rising_edges_transaction self Hpins).
    cbn [List.length rising_edges]. subst n. lia.
  - rewrite write_as_transactions, !total_sleep_us_app, !bus_trace_cons,
      !total_sleep_us_app, !bus_trace_app, !total_sleep_us_app,
      !total_sleep_us_bytes, !total_sleep_us_bus_method.
    cbn [TM1637.bus_trace flat_map List.length total_sleep_us app].
    rewrite !total_sleep_us_app, !total_sleep_us_bus_method.
    cbn [total_sleep_us]. subst n. lia.
Qed.

Lemma write_any_length_witness :
  TM1637.clk cpu_display <> TM1637.dio cpu_display
  /\ rising_edges 0 true (trace_of (TM1637.write [0; 7; 91; 57] cpu_display))
     = 66%nat
  /\ total_sleep_us (trace_of (TM1637.write [0; 7; 91; 57] cpu_display)) = 396.
Proof.
  assert (Hp : TM1637.clk cpu_display <> TM1637.dio cpu_display)
    by discriminate.
  pose proof (write_any_length cpu_display [0; 7; 91; 57] true Hp) as H.
  cbv zeta in H. destruct H as (_ & _ & Hedges & Hsleep).
  split; [exact Hp|]. split; [exact Hedges | exact Hsleep].
Defined.

(** * More about the rendering *)

(** ** Lookups in the digit table *)

Lemma getitem_digit_wraps (d : Z) :
  -10 <= d <= 9 -> py_getitem DIGITS d = Some (digit_pattern (d mod 10)).
Proof.
  intros Hd.
  assert (H : d = -10 \/ d = -9 \/ d = -8 \/ d = -7 \/ d = -6 \/ d = -5
              \/ d = -4 \/ d = -3 \/ d = -2 \/ d = -1
              \/ d = 0 \/ d = 1 \/ d = 2 \/ d = 3 \/ d = 4 \/ d = 5 \/ d = 6
              \/ d = 7 \/ d = 8 \/ d = 9) by lia.
  repeat (destruct H as [-> | H]; [reflexivity|]). now subst d.
Qed.

Lemma getitem_out_of_range (d : Z) :
  d < -10 \/ 9 < d -> py_getitem DIGITS d = None.
Proof.
  intros Hd. unfold py_getitem.
  change (Z.of_nat (List.length DIGITS)) with 10.
  destruct (Z.leb_spec 0 d), (Z.ltb_spec d 10), (Z.leb_spec (Z.opp 10) d),
    (Z.ltb_spec d 0); cbn [andb]; try reflexivity; exfalso; lia.
Qed.

Lemma digit_is_byte (p : Z) : In p DIGITS -> is_byte p = true.
Proof.
  intros H. unfold DIGITS in H. cbn [In] in H.
  repeat (destruct H as [<- | H]; [reflexivity|]). contradiction.
Qed.

Lemma digit_pattern_in (d : Z) : 0 <= d <= 9 -> In (digit_pattern d) DIGITS.
Proof.
  intros Hd. apply (getitem_in d). now apply getitem_digit.
Qed.

Lemma digit_pattern_inj (d1 d2 : Z) :
  0 <= d1 <= 9 -> 0 <= d2 <= 9 ->
  digit_pattern d1 = digit_pattern d2 -> d1 = d2.
Proof.
  intros H1 H2.
  assert (A1 : d1 = 0 \/ d1 = 1 \/ d1 = 2 \/ d1 = 3 \/ d1 = 4 \/ d1 = 5
               \/ d1 = 6 \/ d1 = 7 \/ d1 = 8 \/ d1 = 9) by lia.
  assert (A2 : d2 = 0 \/ d2 = 1 \/ d2 = 2 \/ d2 = 3 \/ d2 = 4 \/ d2 = 5
               \/ d2 = 6 \/ d2 = 7 \/ d2 = 8 \/ d2 = 9) by lia.
  clear H1 H2.
  repeat (destruct A1 as [-> | A1]);
    repeat (destruct A2 as [-> | A2]); subst;
    intros H; try reflexivity; discriminate H.
Qed.

(** X8: [show_error] works from -100 to 99 and nowhere else.  A negative
    code is not refused: Python's negative index takes the tens digit from
    the end of the table, so that -5 is shown as E-95.  From 100 on and
    below -100 the lookup raises [IndexError] before either display is
    written. *)
Theorem show_error_range (error_code : Z) (g : globals) :
  show_error error_code g
  = if (-100 <=? error_code) && (error_code <=? 99)
    then ([Write cpu_display
             (error_segments (digit_pattern ((error_code / 10) mod 10))
                             (digit_pattern (error_code mod 10)));
           Write gpu_display
             (error_segments (digit_pattern ((error_code / 10) mod 10))
                             (digit_pattern (error_code mod 10)))],
          g, inr tt)
    else ([], g, inl IndexError).
Proof.
  assert (Ho : 0 <= error_code mod 10 <= 9) by div_lia.
  unfold show_error, error_write. run_prog.
  destruct (Z.leb_spec (-100) error_code) as [Hlo|Hlo];
    [destruct (Z.leb_spec error_code 99) as [Hhi|Hhi]|]; cbn [andb].
  - rewrite (getitem_digit_wraps (error_code / 10)) by div_lia.
    rewrite (getitem_digit (error_code mod 10) Ho). reflexivity.
  - rewrite (getitem_out_of_range (error_code / 10)) by (right; div_lia).
    reflexivity.
  - rewrite (getitem_out_of_range (error_code / 10)) by (left; div_lia).
    reflexivity.
Qed.

(** ** What [display_temp] writes *)

(** [display_temp] either raises before writing, or writes one frame to the
    display it is given. *)
Lemma display_temp_outcome (display : TM1637.t) (temp : pyfloat) (g : globals) :
  (exists e, display_temp display temp g = ([], g, inl e))
  \/ (exists segments,
        temperature_frame segments
        /\ display_temp display temp g
           = ([Write display segments], g, inr tt)).
Proof.
  unfold display_temp.
  destruct (float_eq temp 0); [right; eexists; split; [constructor | reflexivity]|].
  destruct (float_lt temp 0 || float_gt temp 999);
    [right; eexists; split; [constructor | reflexivity]|].
  destruct temp as [q| | |]; run_prog;
    try (left; eexists; reflexivity).
  destruct (float_ge (Finite q) 100).
  - destruct (py_getitem DIGITS _) as [h|] eqn:Hh;
      [|left; eexists; reflexivity].
    destruct (py_getitem DIGITS _) as [t|] eqn:Ht in |- *;
      [|left; eexists; reflexivity].
    destruct (py_getitem DIGITS _) as [o|] eqn:Ho in |- *;
      [|left; eexists; reflexivity].
    right. eexists. split; [|reflexivity].
    constructor; eapply getitem_in; eassumption.
  - destruct (round_half_even q / 10 >? 0).
    + destruct (py_getitem DIGITS _) as [t|] eqn:Ht;
        [|left; eexists; reflexivity].
      destruct (py_getitem DIGITS _) as [o|] eqn:Ho in |- *;
        [|left; eexists; reflexivity].
      right. eexists. split; [|reflexivity].
      constructor; [right|]; eapply getitem_in; eassumption.
    + destruct (py_getitem DIGITS _) as [o|] eqn:Ho;
        [|left; eexists; reflexivity].
      right. eexists. split; [|reflexivity].
      constructor; [now left|]. eapply getitem_in; eassumption.
Qed.

Lemma temperature_frame_is_frame (segments : list Z) :
  temperature_frame segments -> is_frame segments = true.
Proof.
  intros [ | |h t o Hh Ht Ho|t o Ht Ho]; try reflexivity;
    unfold is_frame; cbn [List.length Nat.eqb forallb andb].
  - now rewrite (digit_is_byte h Hh), (digit_is_byte t Ht), (digit_is_byte o Ho).
  - rewrite (digit_is_byte o Ho).
    destruct Ht as [-> | Ht]; [reflexivity|].
    now rewrite (digit_is_byte t Ht).
Qed.

(** X9: above 0 and below 99.5, [display_temp] rounds to the nearest
    integer [n], from 0 to 99, and writes blank, the tens digit (blank when
    it is zero), the ones digit and the letter C.  A reading up to 0.5
    degrees is shown as a lone 0 before the C, unlike the reading 0 itself,
    which is shown as two dashes. *)
Theorem display_temp_two_digits (display : TM1637.t) (q : Q) (g : globals) :
  (0 < q)%Q -> (q < 199 # 2)%Q ->
  let n := round_half_even q in
  0 <= n <= 99
  /\ twice_distance q n <= Z.pos (Qden q)
  /\ display_temp display (Finite q) g
     = ([Write display
           [0; if n / 10 >? 0 then digit_pattern (n / 10) else 0;
            digit_pattern (n mod 10); C]],
        g, inr tt)
  /\ ((q <= 1 # 2)%Q ->
      display_temp display (Finite q) g
      = ([Write display [0; 0; digit_pattern 0; C]], g, inr tt)).
Proof.
  intros Hlo Hhi n.
  destruct (display_temp_two_digits_run display q g Hlo Hhi) as [Hn Hrun].
  fold n in Hn, Hrun.
  split; [exact Hn|]. split; [apply round_half_even_nearest|].
  split; [exact Hrun|].
  intros Hhalf. rewrite Hrun.
  assert (H0 : n = 0).
  { subst n. revert Hlo Hhalf Hn. unfold Qlt, Qle. cbn [Qnum Qden].
    intros Hlo Hhalf Hn.
    destruct (round_half_even_cases q) as (f & r & Ha & Hr & H).
    rewrite Ha in Hlo, Hhalf.
    assert (Hf : f = 0) by nia. subst f.
    destruct H as [[H ->]|[[H ->]|[(H & He & ->)|(H & He & ->)]]];
      try reflexivity; try nia.
    discriminate He. }
  rewrite H0. reflexivity.
Qed.

Lemma display_temp_two_digits_witness :
  (0 < 4 # 10)%Q /\ (4 # 10 < 199 # 2)%Q
  /\ display_temp cpu_display (Finite (4 # 10)) (mk_globals 0 false)
     = ([Write cpu_display [0; 0; digit_pattern 0; C]],
        mk_globals 0 false, inr tt).
Proof.
  assert (Hlo : (0 < 4 # 10)%Q) by reflexivity.
  assert (Hhi : (4 # 10 < 199 # 2)%Q) by reflexivity.
  assert (Hhalf : (4 # 10 <= 1 # 2)%Q) by discriminate.
  split; [exact Hlo|]. split; [exact Hhi|].
  exact (proj2 (proj2 (proj2
           (display_temp_two_digits cpu_display (4 # 10) (mk_globals 0 false)
              Hlo Hhi))) Hhalf).
Defined.

(** X10: [display_temp] fails in two cases only.  It raises [ValueError]
    exactly on a NaN and [IndexError] exactly on a float from 99.5 to
    below 100; an infinity is answered by the test for the range and never
    reaches [int(round(temp))].  When it raises, nothing has been written;
    otherwise exactly one frame of four bytes goes to the display it was
    given.  The globals are untouched in every case. *)
Theorem display_temp_failures (display : TM1637.t) (temp : pyfloat)
    (g : globals) :
  let r := display_temp display temp g in
  (result_of r = inl ValueError <-> temp = NaN)
  /\ (result_of r = inl IndexError
      <-> exists q, temp = Finite q /\ (199 # 2 <= q)%Q /\ (q < 100)%Q)
  /\ (forall e, result_of r = inl e -> e = ValueError \/ e = IndexError)
  /\ (forall e, result_of r = inl e -> trace_of r = [])
  /\ (result_of r = inr tt ->
      exists segments,
        trace_of r = [Write display segments] /\ is_frame segments = true)
  /\ state_of r = g.
Proof.
  intros r.
  assert (Hcases :
    (temp = NaN /\ r = ([], g, inl ValueError))
    \/ ((exists q, temp = Finite q /\ (199 # 2 <= q)%Q /\ (q < 100)%Q)
        /\ r = ([], g, inl IndexError))
    \/ (temp <> NaN
        /\ ~ (exists q, temp = Finite q /\ (199 # 2 <= q)%Q /\ (q < 100)%Q)
        /\ exists segments,
             temperature_frame segments
             /\ r = ([Write display segments], g, inr tt))).
  { subst r. destruct temp as [q| | |].
    - destruct (Qlt_le_dec q (199 # 2)) as [Hlow|Hlow];
        [|destruct (Qlt_le_dec q 100) as [Hhigh|Hhigh]].
      + right; right. split; [discriminate|]. split.
        { intros (q' & Hq & Hlo & _). injection Hq as <-.
          revert Hlow. now apply Qle_not_lt. }
        destruct (display_temp_outcome display (Finite q) g)
          as [[e He] | Hw]; [|exact Hw].
        exfalso.
        destruct (Qlt_le_dec 0 q) as [Hpos|Hneg].
        * destruct (display_temp_two_digits_run display q g Hpos Hlow)
            as [_ H].
          rewrite H in He. discriminate He.
        * destruct (Qeq_dec q 0) as [Hz|Hz].
          -- rewrite display_temp_zero in He
               by now apply float_eq_spec.
             discriminate He.
          -- rewrite display_temp_out_of_range in He.
             ++ discriminate He.
             ++ now apply float_eq_false.
             ++ left. apply float_lt_spec.
                apply Qle_lteq in Hneg. destruct Hneg as [H|H]; [exact H|].
                contradiction.
      + right; left. split; [now exists q|].
        now apply display_temp_rounds_to_100.
      + right; right. split; [discriminate|]. split.
        { intros (q' & Hq & _ & Hhi). injection Hq as <-.
          revert Hhi. now apply Qle_not_lt. }
        destruct (display_temp_outcome display (Finite q) g)
          as [[e He] | Hw]; [|exact Hw].
        exfalso.
        destruct (Qlt_le_dec 999 q) as [Hout|Hin].
        * rewrite display_temp_out_of_range in He.
          -- discriminate He.
          -- apply float_eq_false. intros H. rewrite H in Hout.
             revert Hout. apply Qle_not_lt. discriminate.
          -- right. now apply float_gt_spec.
        * pose proof (display_temp_three_digits_run display q g Hhigh Hin) as H.
          cbv zeta in H. rewrite H in He. discriminate He.
    - right; right. split; [discriminate|]. split.
      { intros (q & Hq & _). discriminate Hq. }
      eexists. split; [apply OutOfRange | reflexivity].
    - right; right. split; [discriminate|]. split.
      { intros (q & Hq & _). discriminate Hq. }
      eexists. split; [apply OutOfRange | reflexivity].
    - left. split; reflexivity. }
  clearbody r.
  destruct Hcases as [[Hnan ->] | [[Hidx ->] | (Hnn & Hni & segs & Hf & ->)]];
    cbn [result_of trace_of state_of fst snd].
  - split; [tauto|]. split.
    { split; [discriminate|]. intros (q & Hq & _). congruence. }
    split; [intros e He; injection He as <-; now left|].
    split; [reflexivity|]. split; [discriminate | reflexivity].
  - split.
    { split; [discriminate|]. intros ->. destruct Hidx as (q & Hq & _).
      discriminate Hq. }
    split; [tauto|].
    split; [intros e He; injection He as <-; now right|].
    split; [reflexivity|]. split; [discriminate | reflexivity].
  - split; [split; [discriminate | contradiction]|].
    split; [split; [discriminate | contradiction]|].
    split; [discriminate|]. split; [discriminate|].
    split; [|reflexivity].
    intros _. exists segs. split; [reflexivity|].
    now apply temperature_frame_is_frame.
Qed.

(** ** Telling the frames apart *)

Lemma temperature_frame_not_error (segments : list Z) (pt po : Z) :
  temperature_frame segments -> In pt DIGITS ->
  segments <> error_segments pt po.
Proof.
  intros Hf Hpt Heq. unfold error_segments in Heq.
  destruct (digit_nonzero pt Hpt) as (_ & Hd & _).
  destruct Hf as [ | |h t o Hh Ht Ho|t o Ht Ho];
    try discriminate Heq.
  - injection Heq as Heq _. congruence.
  - injection Heq as Heq _ _. destruct (digit_nonzero h Hh) as (_ & _ & He).
    congruence.
Qed.

Lemma temperature_frame_not_status (segments : list Z) (p : Z) :
  temperature_frame segments -> In p DIGITS ->
  segments <> [p; 0; 0; 0].
Proof.
  intros Hf Hp Heq.
  destruct Hf as [ | |h t o Hh Ht Ho|t o Ht Ho];
    try discriminate Heq.
  injection Heq as _ Heq _. destruct (digit_nonzero t Ht) as (Hz & _).
  congruence.
Qed.

(** X7: what a display shows tells the situations apart.  For the codes
    from 0 to 99, different codes give different error frames; no frame
    [display_temp] writes, for any float, is the frame of an error code or
    of a status code; and the frame of a status code is never the frame of
    an error code. *)
Theorem frames_are_unambiguous (code code' status : Z) (temp : pyfloat)
    (display : TM1637.t) (g : globals) :
  0 <= code <= 99 -> 0 <= code' <= 99 -> 1 <= status <= 3 ->
  (show_error code g = show_error code' g -> code = code')
  /\ (forall ev,
        In ev (trace_of (display_temp display temp g)) ->
        ~ In ev (trace_of (show_error code g))
        /\ ~ In ev (trace_of (show_status status g)))
  /\ (forall ev,
        In ev (trace_of (show_status status g)) ->
        ~ In ev (trace_of (show_error code g))).
Proof.
  intros Hc Hc' Hs.
  assert (Ht : 0 <= code / 10 <= 9) by div_lia.
  assert (Ho : 0 <= code mod 10 <= 9) by div_lia.
  assert (Hst : status = 1 \/ status = 2 \/ status = 3) by lia.
  rewrite (show_error_run code g Hc), (show_error_run code' g Hc'),
    (show_status_run status g Hst).
  cbn [trace_of fst].
  split; [|split].
  - intros H. injection H as H1 H2 _ _.
    apply digit_pattern_inj in H1; [|div_lia|div_lia].
    apply digit_pattern_inj in H2; [|div_lia|div_lia].
    div_lia.
  - intros ev Hin.
    destruct (display_temp_outcome display temp g)
      as [[e He] | (segs & Hf & Hw)];
      [rewrite He in Hin; contradiction|].
    rewrite Hw in Hin. cbn [trace_of fst In] in Hin.
    destruct Hin as [<- | []].
    pose proof (temperature_frame_not_error segs _ (digit_pattern (code mod 10))
                  Hf (digit_pattern_in _ Ht)) as Herr.
    assert (Hin : In (digit_pattern status) DIGITS)
      by (apply digit_pattern_in; lia).
    pose proof (temperature_frame_not_status segs _ Hf Hin) as Hstat.
    unfold error_segments in Herr.
    split; cbn [In]; intros [H | [H | []]]; injection H as _ H;
      congruence.
  - intros ev Hin. cbn [In] in Hin |- *.
    destruct Hin as [<- | [<- | []]];
      intros [H | [H | []]]; discriminate H.
Qed.

Lemma frames_are_unambiguous_witness :
  0 <= 10 <= 99 /\ 0 <= 11 <= 99 /\ 1 <= 1 <= 3
  /\ (show_error 10 (mk_globals 0 false) = show_error 11 (mk_globals 0 false)
      -> 10 = 11).
Proof.
  assert (H1 : 0 <= 10 <= 99) by lia.
  assert (H2 : 0 <= 11 <= 99) by lia.
  assert (H3 : 1 <= 1 <= 3) by lia.
  split; [exact H1|]. split; [exact H2|]. split; [exact H3|].
  exact (proj1 (frames_are_unambiguous 10 11 1 NaN cpu_display
                  (mk_globals 0 false) H1 H2 H3)).
Defined.

(** * More about the loop *)

Lemma contains_nonempty (sep : ascii) (line : string) :
  contains sep line = true -> nonempty line = true.
Proof. destruct line; [discriminate | reflexivity]. Qed.

(** ** Counting in traces *)

Lemma count_displayed_app (tr1 tr2 : list event) :
  count_displayed (tr1 ++ tr2)
  = (count_displayed tr1 + count_displayed tr2)%nat.
Proof. unfold count_displayed. now rewrite filter_app, length_app. Qed.

Lemma without_prints_app (tr1 tr2 : list event) :
  without_prints (tr1 ++ tr2) = without_prints tr1 ++ without_prints tr2.
Proof. apply filter_app. Qed.

Lemma display_eqb_refl (display : TM1637.t) : display_eqb display display = true.
Proof. unfold display_eqb. now rewrite !Z.eqb_refl. Qed.

(** The trace of a call of [display_temp] on one of the two displays. *)
Lemma display_temp_trace (display : TM1637.t) (temp : pyfloat) (g : globals)
    (tr : list event) (g1 : globals) (r : exn + unit) :
  display = cpu_display \/ display = gpu_display ->
  display_temp display temp g = (tr, g1, r) ->
  count_error_20 tr = 0%nat
  /\ count_displayed tr = 0%nat
  /\ forallb well_formed_event tr = true
  /\ without_prints tr = tr.
Proof.
  intros Hd Hrun.
  destruct (display_temp_quiet display temp g) as (tr' & r' & Hq & Hquiet).
  rewrite Hrun in Hq. injection Hq as <- _ _.
  split; [apply (quiet_counts tr Hquiet)|].
  destruct (display_temp_outcome display temp g)
    as [[e He] | (segs & Hf & Hw)].
  - rewrite Hrun in He. injection He as -> _ _. repeat split.
  - rewrite Hrun in Hw. injection Hw as -> _ _.
    split; [reflexivity|]. split; [|reflexivity].
    cbn [forallb well_formed_event].
    rewrite (temperature_frame_is_frame segs Hf).
    destruct Hd as [-> | ->]; reflexivity.
Qed.

Lemma surjective_pairing3 {A B D} (x : A * B * D) :
  x = (fst (fst x), snd (fst x), snd x).
Proof. now destruct x as [[a b] d]. Qed.

Section LoopCoverage.

Variable float : string -> option pyfloat.

(** What reading the console does, case by case. *)
Lemma process_input_shape (tk : tick) (g : globals) :
  (idle tk = true /\ process_input float tk g = ([], g, inr tt))
  \/ (exists ex, stdin tk = Fails ex
                 /\ process_input float tk g = ([], g, inl ex))
  \/ (exists line,
        stdin tk = Line line /\ nonempty line = true
        /\ ((contains "," line = false
             /\ process_input float tk g
                = ([Print (Received line); Print (InvalidFormat line);
                    Write cpu_display (error_segments 0x06 0x06);
                    Write gpu_display (error_segments 0x06 0x06)],
                   latched g, inr tt))
            \/ (contains "," line = true
                /\ (float (field 0 line) = None \/ float (field 1 line) = None)
                /\ process_input float tk g
                   = (Print (Received line) :: parse_error_trace line,
                      latched g, inr tt))
            \/ (contains "," line = true
                /\ exists cpu_temp gpu_temp trc rc trg rg,
                     float (field 0 line) = Some cpu_temp
                     /\ float (field 1 line) = Some gpu_temp
                     /\ display_temp cpu_display cpu_temp g = (trc, g, rc)
                     /\ display_temp gpu_display gpu_temp g = (trg, g, rg)
                     /\ process_input float tk g
                        = match rc, rg with
                          | inr _, inr _ =>
                              (Print (Received line)
                                 :: trc ++ trg
                                 ++ [Print (Displayed cpu_temp gpu_temp)],
                               mk_globals (time_at_update tk) false, inr tt)
                          | inr _, inl e =>
                              if is_ValueError e
                              then (Print (Received line)
                                      :: (trc ++ trg) ++ parse_error_trace line,
                                    latched g, inr tt)
                              else (Print (Received line) :: trc ++ trg,
                                    g, inl e)
                          | inl e, _ =>
                              if is_ValueError e
                              then (Print (Received line)
                                      :: trc ++ parse_error_trace line,
                                    latched g, inr tt)
                              else (Print (Received line) :: trc, g, inl e)
                          end))).
Proof.
  unfold process_input, idle.
  destruct (stdin tk) as [|line|ex] eqn:Hin.
  - left. now split.
  - destruct line as [|c line'] eqn:Hline; [left; now split|].
    rewrite <- Hline. replace (nonempty line) with true by now subst line.
    right; right. exists line. split; [now subst line|].
    split; [now subst line|].
    clear Hline. destruct (contains "," line) eqn:Hc.
    + right.
      destruct (float (field 0 line)) as [cpu_temp|] eqn:Hcpu.
      2:{ left. split; [reflexivity|]. split; [now left|].
          run_loop. now rewrite update_displays_parse_error by auto. }
      destruct (float (field 1 line)) as [gpu_temp|] eqn:Hgpu.
      2:{ left. split; [reflexivity|]. split; [now right|].
          run_loop. now rewrite update_displays_parse_error by auto. }
      right. split; [reflexivity|].
      destruct (update_displays_parsed float tk line g cpu_temp gpu_temp
                  Hc Hcpu Hgpu)
        as (trc & rc & trg & rg & Hdc & Hdg & _ & _ & Hup).
      exists cpu_temp, gpu_temp, trc, rc, trg, rg.
      repeat (split; [assumption || reflexivity|]).
      run_loop. rewrite Hup.
      destruct rc as [e|[]]; [|destruct rg as [e|[]]];
        try destruct e; reflexivity.
    + left. split; reflexivity.
  - right; left. exists ex. now split.
Qed.

(** The bookkeeping of one pass: error 20 is paid for by an open latch or
    by an update; the clock keeps its value or takes the time of the
    update; every write is a frame for one of the two displays. *)
Lemma pass_accounting (tk : tick) (g : globals) :
  let r := loop_iteration float tk g in
  (count_error_20 (trace_of r) + (if error_shown (state_of r) then 0 else 1)
   <= (if error_shown g then 0 else 1) + count_displayed (trace_of r))%nat
  /\ (last_data_time (state_of r) = last_data_time g
      \/ last_data_time (state_of r) = time_at_update tk)
  /\ forallb well_formed_event (trace_of r) = true.
Proof.
  intros r. subst r. rewrite loop_iteration_run.
  destruct g as [t0 es].
  destruct (process_input_shape tk (mk_globals t0 es))
    as [[_ Hp] | [(ex & _ & Hp) | (line & _ & _ & Hline)]].
  - rewrite Hp, check_timeout_run.
    destruct es; cbn [negb andb error_shown last_data_time];
      [|destruct (time_at_check tk - t0 >? 10)];
      cbn; repeat split; auto; lia.
  - rewrite Hp. destruct (is_Exception ex); cbn; repeat split; auto;
      destruct es; lia.
  - destruct Hline as [[_ Hp] | [(_ & _ & Hp) |
      (_ & cpu & gpu & trc & rc & trg & rg & _ & _ & Hdc & Hdg & Hp)]].
    + rewrite Hp, check_timeout_run. cbn. repeat split; auto. lia.
    + rewrite Hp, check_timeout_run. cbn. repeat split; auto. lia.
    + destruct (display_temp_trace _ _ _ _ _ _ (or_introl eq_refl) Hdc)
        as (Hc20 & Hcd & Hcw & _).
      destruct (display_temp_trace _ _ _ _ _ _ (or_intror eq_refl) Hdg)
        as (Hg20 & Hgd & Hgw & _).
      rewrite Hp.
      assert (Hpe : forall l, count_error_20 (parse_error_trace l) = 0%nat
                              /\ count_displayed (parse_error_trace l) = 0%nat
                              /\ forallb well_formed_event (parse_error_trace l)
                                 = true)
        by (intros l; repeat split).
      assert (Hex : forall e, count_error_20 (exception_trace e) = 0%nat
                              /\ count_displayed (exception_trace e) = 0%nat
                              /\ forallb well_formed_event (exception_trace e)
                                 = true)
        by (intros e; repeat split).
      assert (Hto : count_error_20 timeout_trace = 1%nat
                    /\ count_displayed timeout_trace = 0%nat
                    /\ forallb well_formed_event timeout_trace = true)
        by (repeat split).
      destruct Hto as (Hto1 & Hto2 & Hto3).
      destruct rc as [e|[]]; [|destruct rg as [e|[]]];
        try destruct (is_ValueError e);
        try destruct (is_Exception e);
        rewrite ?check_timeout_run;
        cbn [negb andb error_shown last_data_time latched];
        try destruct (time_at_check tk - time_at_update tk >? 10);
        cbn [trace_of state_of result_of fst snd error_shown last_data_time
             latched];
        change (Print (Received line) :: ?l)
          with ([Print (Received line)] ++ l);
        rewrite ?count_error_20_app, ?count_displayed_app, ?forallb_app,
          ?Hc20, ?Hcd, ?Hcw, ?Hg20, ?Hgd, ?Hgw, ?Hto1, ?Hto2, ?Hto3,
          ?(proj1 (Hpe line)), ?(proj1 (proj2 (Hpe line))),
          ?(proj2 (proj2 (Hpe line))),
          ?(proj1 (Hex e)), ?(proj1 (proj2 (Hex e))),
          ?(proj2 (proj2 (Hex e)));
        cbn; repeat split; auto; try (destruct es; lia); lia.
Qed.

Lemma main_loop_well_formed (ticks : list tick) (g : globals) :
  forallb well_formed_event (trace_of (main_loop float ticks g)) = true.
Proof.
  revert g. induction ticks as [|tk ticks IH]; intros g; [reflexivity|].
  rewrite main_loop_cons.
  destruct (pass_accounting tk g) as (_ & _ & Hw).
  destruct (loop_iteration float tk g) as [[tr g1] [e|r]].
  - exact Hw.
  - cbn [trace_of fst] in Hw.
    specialize (IH g1).
    destruct (main_loop float ticks g1) as [[tr' g2] r'].
    cbn [trace_of fst] in IH |- *.
    now rewrite forallb_app, Hw, IH.
Qed.

(** X11: whatever the host sends, every write of the program, in the
    start-up sequence and in any number of passes of the loop, goes to one
    of the two displays and carries a frame of exactly four bytes. *)
Theorem program_writes_frames (now : Z) (ticks : list tick) (g : globals) :
  forallb well_formed_event (trace_of (startup now g)) = true
  /\ forallb well_formed_event (trace_of (main_loop float ticks g)) = true.
Proof.
  split.
  - rewrite startup_run. cbn [trace_of fst forallb well_formed_event].
    reflexivity.
  - apply main_loop_well_formed.
Qed.

(** X17: over any run of the loop, error 20 is shown at most once more
    than there were completed updates, and no more often than there were
    updates when the run starts with the latch closed: between two updates
    the time-out is reported once, whatever else arrives. *)
Theorem error_20_once_per_silence (ticks : list tick) (g : globals) :
  (count_error_20 (trace_of (main_loop float ticks g))
   <= (if error_shown g then 0 else 1)
      + count_displayed (trace_of (main_loop float ticks g)))%nat.
Proof.
  enough (H : (count_error_20 (trace_of (main_loop float ticks g))
               + (if error_shown (state_of (main_loop float ticks g))
                  then 0 else 1)
               <= (if error_shown g then 0 else 1)
                  + count_displayed (trace_of (main_loop float ticks g)))%nat)
    by lia.
  revert g. induction ticks as [|tk ticks IH]; intros g.
  - cbn. lia.
  - rewrite main_loop_cons.
    destruct (pass_accounting tk g) as (Hacc & _ & _).
    destruct (loop_iteration float tk g) as [[tr g1] [e|r]]; [exact Hacc|].
    cbn [trace_of state_of fst snd] in Hacc.
    specialize (IH g1).
    destruct (main_loop float ticks g1) as [[tr' g2] r'].
    cbn [trace_of state_of fst snd] in IH |- *.
    rewrite count_error_20_app, count_displayed_app. lia.
Qed.


(** X14: an empty line is ignored like no line at all: nothing is printed
    and no error is shown for it; the pass is the time-out test and the
    short sleep. *)
Theorem empty_line_ignored (tk : tick) (g : globals) :
  stdin tk = NoLine \/ stdin tk = Line EmptyString ->
  loop_iteration float tk g
  = if fires tk g
    then (timeout_trace ++ [Sleep (1 # 10)], latched g, inr tt)
    else ([Sleep (1 # 10)], g, inr tt).
Proof.
  intros Hin. rewrite loop_iteration_run.
  assert (Hp : process_input float tk g = ([], g, inr tt))
    by (unfold process_input; destruct Hin as [-> | ->]; reflexivity).
  rewrite Hp, check_timeout_run. fold (fires tk g).
  destruct (fires tk g); reflexivity.
Qed.

Lemma process_input_parsed (tk : tick) (line : string) (g : globals)
    (cpu_temp gpu_temp : pyfloat) :
  stdin tk = Line line ->
  contains "," line = true ->
  float (field 0 line) = Some cpu_temp ->
  float (field 1 line) = Some gpu_temp ->
  process_input float tk g
  = match display_temp cpu_display cpu_temp g,
          display_temp gpu_display gpu_temp g with
    | (trc, _, inr _), (trg, _, inr _) =>
        (Print (Received line)
           :: trc ++ trg ++ [Print (Displayed cpu_temp gpu_temp)],
         mk_globals (time_at_update tk) false, inr tt)
    | (trc, _, inr _), (trg, _, inl e) =>
        if is_ValueError e
        then (Print (Received line) :: (trc ++ trg) ++ parse_error_trace line,
              latched g, inr tt)
        else (Print (Received line) :: trc ++ trg, g, inl e)
    | (trc, _, inl e), _ =>
        if is_ValueError e
        then (Print (Received line) :: trc ++ parse_error_trace line,
              latched g, inr tt)
        else (Print (Received line) :: trc, g, inl e)
    end.
Proof.
  intros Hin Hc Hcpu Hgpu.
  destruct (process_input_shape tk g)
    as [[Hidle _] | [(ex & Hex & _) | (line' & Hin' & _ & Hline)]].
  - unfold idle in Hidle. rewrite Hin in Hidle.
    destruct line; [discriminate Hc | discriminate Hidle].
  - rewrite Hin in Hex. discriminate Hex.
  - rewrite Hin in Hin'. injection Hin' as <-.
    destruct Hline as [[Hc' _] | [(_ & Hf & _) |
      (_ & c & p & trc & rc & trg & rg & Hc0 & Hg0 & Hdc & Hdg & Hp)]].
    + congruence.
    + destruct Hf; congruence.
    + rewrite Hcpu in Hc0. injection Hc0 as <-.
      rewrite Hgpu in Hg0. injection Hg0 as <-.
      now rewrite Hp, Hdc, Hdg.
Qed.

(** X12: a line whose first two fields [float] accepts, with temperatures
    [display_temp] can show, updates the first display and then the
    second, sets [last_data_time] to the time read after that and opens
    the latch, whatever the latch and the clock were.  If the time read in
    the time-out test is already more than 10 seconds later, error 20
    follows in the same pass. *)
Theorem update_pass (tk : tick) (line : string) (g : globals)
    (cpu_temp gpu_temp : pyfloat) :
  stdin tk = Line line ->
  contains "," line = true ->
  float (field 0 line) = Some cpu_temp ->
  float (field 1 line) = Some gpu_temp ->
  result_of (display_temp cpu_display cpu_temp g) = inr tt ->
  result_of (display_temp gpu_display gpu_temp g) = inr tt ->
  let late := time_at_check tk - time_at_update tk >? 10 in
  loop_iteration float tk g
  = (Print (Received line)
       :: trace_of (display_temp cpu_display cpu_temp g)
       ++ trace_of (display_temp gpu_display gpu_temp g)
       ++ Print (Displayed cpu_temp gpu_temp)
       :: (if late then timeout_trace else []) ++ [Sleep (1 # 10)],
     mk_globals (time_at_update tk) late, inr tt).
Proof.
  intros Hin Hc Hcpu Hgpu Hrc Hrg late.
  rewrite loop_iteration_run,
    (process_input_parsed tk line g cpu_temp gpu_temp Hin Hc Hcpu Hgpu).
  destruct (display_temp cpu_display cpu_temp g) as [[trc gc] rc].
  destruct (display_temp gpu_display gpu_temp g) as [[trg gg] rg].
  cbn [result_of trace_of fst snd] in Hrc, Hrg |- *. subst rc rg.
  rewrite check_timeout_run.
  cbn [negb andb error_shown last_data_time]. fold late.
  destruct late; cbn [trace_of state_of fst snd latched last_data_time];
    rewrite <- ?app_comm_cons, <- ?app_assoc; reflexivity.
Qed.

(** X15: a NaN is reported as a parse error.  When [float] accepts both
    fields and the first temperature is a NaN, or the first is shown and
    the second is a NaN, the [ValueError] of [int(round(nan))] is caught by
    the inner handler: error 10 on both displays, the latch closed, the
    clock untouched.  A first temperature already written stays written
    until error 10 replaces it. *)
Theorem nan_is_a_parse_error (tk : tick) (line : string) (g : globals)
    (cpu_temp gpu_temp : pyfloat) :
  stdin tk = Line line ->
  contains "," line = true ->
  float (field 0 line) = Some cpu_temp ->
  float (field 1 line) = Some gpu_temp ->
  cpu_temp = NaN
  \/ (result_of (display_temp cpu_display cpu_temp g) = inr tt
      /\ gpu_temp = NaN) ->
  loop_iteration float tk g
  = (Print (Received line)
       :: trace_of (display_temp cpu_display cpu_temp g)
       ++ parse_error_trace line ++ [Sleep (1 # 10)],
     latched g, inr tt).
Proof.
  intros Hin Hc Hcpu Hgpu Hnan.
  rewrite loop_iteration_run,
    (process_input_parsed tk line g cpu_temp gpu_temp Hin Hc Hcpu Hgpu).
  destruct Hnan as [-> | [Hrc ->]].
  - change (display_temp cpu_display NaN g) with
      (@nil event, g, @inl exn unit ValueError).
    cbn [is_ValueError trace_of fst app]. rewrite check_timeout_run.
    reflexivity.
  - change (display_temp gpu_display NaN g) with
      (@nil event, g, @inl exn unit ValueError).
    destruct (display_temp cpu_display cpu_temp g) as [[trc gc] rc].
    cbn [result_of trace_of fst snd] in Hrc |- *. subst rc.
    cbn [is_ValueError]. rewrite check_timeout_run, app_nil_r.
    cbn [negb andb error_shown latched trace_of state_of fst snd app].
    rewrite <- ?app_comm_cons, <- ?app_assoc. reflexivity.
Qed.

(** X16: a temperature from 99.5 to below 100 ends the pass in the outer
    handler.  When [float] accepts both fields and the first temperature
    rounds to 100, or the first is shown and the second rounds to 100, the
    [IndexError] of [display_temp] is printed, error 99 is shown on both
    displays and the loop sleeps a second; latch and clock stay as they
    were and the time-out test of this pass is skipped. *)
Theorem rounding_to_100_ends_in_error_99 (tk : tick) (line : string)
    (g : globals) (cpu_temp gpu_temp : pyfloat) :
  stdin tk = Line line ->
  contains "," line = true ->
  float (field 0 line) = Some cpu_temp ->
  float (field 1 line) = Some gpu_temp ->
  rounds_to_100 cpu_temp
  \/ (result_of (display_temp cpu_display cpu_temp g) = inr tt
      /\ rounds_to_100 gpu_temp) ->
  loop_iteration float tk g
  = (Print (Received line)
       :: trace_of (display_temp cpu_display cpu_temp g)
       ++ exception_trace IndexError,
     g, inr tt).
Proof.
  intros Hin Hc Hcpu Hgpu H100.
  rewrite loop_iteration_run,
    (process_input_parsed tk line g cpu_temp gpu_temp Hin Hc Hcpu Hgpu).
  destruct H100 as [(q & -> & Hlo & Hhi) | [Hrc (q & -> & Hlo & Hhi)]].
  - rewrite (proj2 (display_temp_rounds_to_100 cpu_display q g Hlo Hhi)).
    reflexivity.
  - rewrite (proj2 (display_temp_rounds_to_100 gpu_display q g Hlo Hhi)).
    destruct (display_temp cpu_display cpu_temp g) as [[trc gc] rc].
    cbn [result_of trace_of fst snd] in Hrc |- *. subst rc.
    cbn [is_ValueError]. rewrite app_nil_r. reflexivity.
Qed.

(** X13: only the first two fields of a line are used.  Two lines with a
    comma and the same first and second field, read with the same clock,
    lead to the same writes and sleeps in the same order, the same globals
    and the same result; they differ in what is printed only. *)
Theorem extra_fields_ignored (tk : tick) (line line' : string) (g : globals) :
  stdin tk = Line line ->
  contains "," line = true ->
  contains "," line' = true ->
  field 0 line = field 0 line' ->
  field 1 line = field 1 line' ->
  let tk' := mk_tick (Line line') (time_at_update tk) (time_at_check tk) in
  without_prints (trace_of (loop_iteration float tk g))
  = without_prints (trace_of (loop_iteration float tk' g))
  /\ state_of (loop_iteration float tk g)
     = state_of (loop_iteration float tk' g)
  /\ result_of (loop_iteration float tk g)
     = result_of (loop_iteration float tk' g).
Proof.
  intros Hin Hc Hc' Hf0 Hf1 tk'.
  assert (Hin' : stdin tk' = Line line') by reflexivity.
  assert (Hne : nonempty line = true) by now apply (contains_nonempty ",").
  assert (Hne' : nonempty line' = true) by now apply (contains_nonempty ",").
  rewrite !loop_iteration_run.
  destruct (float (field 0 line)) as [cpu_temp|] eqn:Hcpu;
    [destruct (float (field 1 line)) as [gpu_temp|] eqn:Hgpu|].
  - rewrite (process_input_parsed tk line g cpu_temp gpu_temp Hin Hc Hcpu Hgpu).
    rewrite (process_input_parsed tk' line' g cpu_temp gpu_temp Hin' Hc');
      [|now rewrite <- Hf0|now rewrite <- Hf1].
    destruct (display_temp_trace cpu_display cpu_temp g _ _ _
                (or_introl eq_refl) (surjective_pairing3 _))
      as (_ & _ & _ & Hwc).
    destruct (display_temp_trace gpu_display gpu_temp g _ _ _
                (or_intror eq_refl) (surjective_pairing3 _))
      as (_ & _ & _ & Hwg).
    destruct (display_temp cpu_display cpu_temp g) as [[trc gc] rc].
    destruct (display_temp gpu_display gpu_temp g) as [[trg gg] rg].
    cbn [fst snd] in Hwc, Hwg.
    unfold tk'. cbn [time_at_update time_at_check].
    destruct rc as [e|[]]; [|destruct rg as [e|[]]];
      try destruct (is_ValueError e);
      try destruct (is_Exception e);
      rewrite ?check_timeout_run;
      cbn [negb andb error_shown last_data_time latched time_at_update
           time_at_check];
      try destruct (time_at_check tk - time_at_update tk >? 10);
      cbn [trace_of state_of result_of fst snd];
      change (Print (Received line) :: ?l) with ([Print (Received line)] ++ l);
      change (Print (Received line') :: ?l) with ([Print (Received line')] ++ l);
      rewrite ?without_prints_app, ?Hwc, ?Hwg;
      repeat split.
  - rewrite (process_input_parse_error float tk line g Hin Hne Hc)
      by now right.
    rewrite (process_input_parse_error float tk' line' g Hin' Hne' Hc')
      by (right; now rewrite <- Hf1).
    rewrite !check_timeout_run. repeat split.
  - rewrite (process_input_parse_error float tk line g Hin Hne Hc)
      by now left.
    rewrite (process_input_parse_error float tk' line' g Hin' Hne' Hc')
      by (left; now rewrite <- Hf0).
    rewrite !check_timeout_run. repeat split.
Qed.

End LoopCoverage.

(** ** The loop on more lines the host can send *)

Lemma update_pass_witness :
  stdin (mk_tick (Line "45.0,62.0") 30 31) = Line "45.0,62.0"
  /\ loop_iteration float_decimal (mk_tick (Line "45.0,62.0") 30 31)
       (mk_globals 0 true)
     = ([Print (Received "45.0,62.0");
         Write cpu_display [0; digit_pattern 4; digit_pattern 5; C];
         Write gpu_display [0; digit_pattern 6; digit_pattern 2; C];
         Print (Displayed (Finite (450 # 10)) (Finite (620 # 10)));
         Sleep (1 # 10)],
        mk_globals 30 false, inr tt).
Proof.
  assert (Hin : stdin (mk_tick (Line "45.0,62.0") 30 31) = Line "45.0,62.0")
    by reflexivity.
  split; [exact Hin|].
  exact (update_pass float_decimal (mk_tick (Line "45.0,62.0") 30 31)
           "45.0,62.0" (mk_globals 0 true)
           (Finite (450 # 10)) (Finite (620 # 10))
           Hin eq_refl eq_refl eq_refl eq_refl eq_refl).
Defined.

Lemma extra_fields_ignored_witness :
  stdin (mk_tick (Line "45.0,62.0,junk") 30 31) = Line "45.0,62.0,junk"
  /\ field 0 "45.0,62.0,junk" = field 0 "45.0,62.0"
  /\ field 1 "45.0,62.0,junk" = field 1 "45.0,62.0"
  /\ state_of (loop_iteration float_decimal
                 (mk_tick (Line "45.0,62.0,junk") 30 31) (mk_globals 0 true))
     = state_of (loop_iteration float_decimal
                   (mk_tick (Line "45.0,62.0") 30 31) (mk_globals 0 true)).
Proof.
  assert (Hin : stdin (mk_tick (Line "45.0,62.0,junk") 30 31)
                = Line "45.0,62.0,junk") by reflexivity.
  assert (Hf0 : field 0 "45.0,62.0,junk" = field 0 "45.0,62.0")
    by reflexivity.
  assert (Hf1 : field 1 "45.0,62.0,junk" = field 1 "45.0,62.0")
    by reflexivity.
  split; [exact Hin|]. split; [exact Hf0|]. split; [exact Hf1|].
  exact (proj1 (proj2
           (extra_fields_ignored float_decimal
              (mk_tick (Line "45.0,62.0,junk") 30 31)
              "45.0,62.0,junk" "45.0,62.0" (mk_globals 0 true)
              Hin eq_refl eq_refl Hf0 Hf1))).
Defined.

Lemma empty_line_ignored_witness :
  (stdin (mk_tick (Line "") 5 5) = NoLine
   \/ stdin (mk_tick (Line "") 5 5) = Line EmptyString)
  /\ loop_iteration float_decimal (mk_tick (Line "") 5 5) (mk_globals 3 false)
     = ([Sleep (1 # 10)], mk_globals 3 false, inr tt).
Proof.
  assert (Hin : stdin (mk_tick (Line "") 5 5) = NoLine
                \/ stdin (mk_tick (Line "") 5 5) = Line EmptyString)
    by (right; reflexivity).
  split; [exact Hin|].
  exact (empty_line_ignored float_decimal (mk_tick (Line "") 5 5)
           (mk_globals 3 false) Hin).
Defined.

Lemma nan_is_a_parse_error_witness :
  stdin (mk_tick (Line "45.0,nan") 5 5) = Line "45.0,nan"
  /\ loop_iteration float_decimal (mk_tick (Line "45.0,nan") 5 5)
       (mk_globals 3 false)
     = ([Print (Received "45.0,nan");
         Write cpu_display [0; digit_pattern 4; digit_pattern 5; C];
         Print (ErrorParsing "45.0,nan");
         Write cpu_display (error_segments (digit_pattern 1) (digit_pattern 0));
         Write gpu_display (error_segments (digit_pattern 1) (digit_pattern 0));
         Sleep (1 # 10)],
        mk_globals 3 true, inr tt).
Proof.
  assert (Hin : stdin (mk_tick (Line "45.0,nan") 5 5) = Line "45.0,nan")
    by reflexivity.
  split; [exact Hin|].
  exact (nan_is_a_parse_error float_decimal (mk_tick (Line "45.0,nan") 5 5)
           "45.0,nan" (mk_globals 3 false) (Finite (450 # 10)) NaN
           Hin eq_refl eq_refl eq_refl (or_intror (conj eq_refl eq_refl))).
Defined.

Lemma rounding_to_100_ends_in_error_99_witness :
  stdin (mk_tick (Line "45.0,99.5") 5 5) = Line "45.0,99.5"
  /\ rounds_to_100 (Finite (995 # 10))
  /\ loop_iteration float_decimal (mk_tick (Line "45.0,99.5") 5 5)
       (mk_globals 3 false)
     = ([Print (Received "45.0,99.5");
         Write cpu_display [0; digit_pattern 4; digit_pattern 5; C];
         Print (ExceptionMsg IndexError);
         Write cpu_display (error_segments (digit_pattern 9) (digit_pattern 9));
         Write gpu_display (error_segments (digit_pattern 9) (digit_pattern 9));
         Sleep 1],
        mk_globals 3 false, inr tt).
Proof.
  assert (Hin : stdin (mk_tick (Line "45.0,99.5") 5 5) = Line "45.0,99.5")
    by reflexivity.
  assert (H100 : rounds_to_100 (Finite (995 # 10))).
  { exists (995 # 10). split; [reflexivity|]. split; [discriminate | reflexivity]. }
  split; [exact Hin|]. split; [exact H100|].
  exact (rounding_to_100_ends_in_error_99 float_decimal
           (mk_tick (Line "45.0,99.5") 5 5) "45.0,99.5" (mk_globals 3 false)
           (Finite (450 # 10)) (Finite (995 # 10))
           Hin eq_refl eq_refl eq_refl (or_intror (conj eq_refl H100))).
Defined.

(** * The two displays side by side *)

Lemma conditions_app (self : TM1637.t) (b : bus) (tr1 tr2 : list hw_event) :
  conditions self b (tr1 ++ tr2)
  = conditions self b tr1 ++ conditions self (bus_after self b tr1) tr2.
Proof.
  revert b. induction tr1 as [|ev tr1 IH]; intros b; [reflexivity|].
  cbn [app conditions bus_after fold_left]. rewrite IH.
  unfold bus_after.
  destruct (clk_level b && clk_level (drive self b ev));
    [destruct (dio_level b && negb (dio_level (drive self b ev)));
     [|destruct (negb (dio_level b) && dio_level (drive self b ev))]|];
    reflexivity.
Qed.

(** Events on the pins of another display leave the lines of this one
    alone. *)
Lemma foreign_events (self other : TM1637.t) (b : bus) (tr : list hw_event) :
  TM1637.clk other <> TM1637.clk self -> TM1637.clk other <> TM1637.dio self ->
  TM1637.dio other <> TM1637.clk self -> TM1637.dio other <> TM1637.dio self ->
  forallb (own_pin_event other) tr = true ->
  bus_after self b tr = b /\ conditions self b tr = [].
Proof.
  intros H1 H2 H3 H4. revert b.
  induction tr as [|ev tr IH]; intros b Hown; [now split|].
  cbn [forallb] in Hown. apply andb_true_iff in Hown.
  destruct Hown as [Hev Hown].
  assert (Hdrive : drive self b ev = b).
  { destruct ev as [p v|p|n]; try reflexivity.
    cbn [own_pin_event] in Hev. apply andb_true_iff in Hev.
    destruct Hev as [Hp _]. apply orb_true_iff in Hp.
    unfold drive.
    destruct Hp as [Hp|Hp]; apply Z.eqb_eq in Hp; subst p;
      rewrite (proj2 (Z.eqb_neq _ _)), (proj2 (Z.eqb_neq _ _)) by assumption;
      now destruct b. }
  cbn [bus_after fold_left conditions]. rewrite Hdrive.
  destruct (IH b Hown) as [Hb Hc]. unfold bus_after in Hb.
  rewrite Hb, Hc.
  split; [reflexivity|].
  destruct (clk_level b), (dio_level b); reflexivity.
Qed.

(** A write seen on its own display. *)
Lemma own_write (self : TM1637.t) (segments : list Z) :
  TM1637.clk self <> TM1637.dio self ->
  bus_after self idle_bus (trace_of (TM1637.write segments self)) = idle_bus
  /\ conditions self idle_bus (trace_of (TM1637.write segments self))
     = transaction_conditions.
Proof.
  intros Hpins. split.
  - rewrite write_as_transactions, app_nil_r, !bus_after_app, !bus_trace_cons,
      !bus_after_app, bus_trace_app, bus_after_app.
    cbn [TM1637.bus_trace flat_map TM1637.bus_method]. rewrite app_nil_r.
    apply stop_leaves_idle.
  - rewrite write_as_transactions.
    rewrite !(conditions_transaction self Hpins). reflexivity.
Qed.

Lemma display_eqb_eq (d1 d2 : TM1637.t) : display_eqb d1 d2 = true -> d1 = d2.
Proof.
  unfold display_eqb. intros H.
  apply andb_true_iff in H. destruct H as [H Hb].
  apply andb_true_iff in H. destruct H as [Hc Hd].
  apply Z.eqb_eq in Hc, Hd, Hb. destruct d1, d2. cbn in *. now subst.
Qed.

(** The writes of a program trace, seen from one of the two displays. *)
Lemma program_trace_on_bus (display : TM1637.t) (tr : list event) :
  display = cpu_display \/ display = gpu_display ->
  forallb well_formed_event tr = true ->
  bus_after display idle_bus (hw_trace tr) = idle_bus
  /\ conditions display idle_bus (hw_trace tr)
     = expected_conditions display tr.
Proof.
  intros Hd. induction tr as [|ev tr IH]; intros Hwf; [now split|].
  cbn [forallb] in Hwf. apply andb_true_iff in Hwf.
  destruct Hwf as [Hev Hwf]. destruct (IH Hwf) as [IHb IHc].
  unfold hw_trace in *. cbn [flat_map expected_conditions].
  rewrite bus_after_app, conditions_app.
  destruct ev as [d segs|s|m]; cbn [hw_of_event];
    [|split; assumption|split; assumption].
  cbn [well_formed_event] in Hev. apply andb_true_iff in Hev.
  destruct Hev as [Hdisp _]. apply orb_true_iff in Hdisp.
  assert (Hcases : d = display
                   \/ (display_eqb d display = false
                       /\ bus_after display idle_bus
                            (trace_of (TM1637.write segs d)) = idle_bus
                       /\ conditions display idle_bus
                            (trace_of (TM1637.write segs d)) = [])).
  { assert (Hown : forall other,
              forallb (own_pin_event other)
                (trace_of (TM1637.write segs other)) = true).
    { intros other. rewrite write_run. cbn [trace_of fst].
      apply bus_trace_forallb. intros op _. apply own_pin_bus_method. }
    destruct Hdisp as [H|H]; apply display_eqb_eq in H; subst d;
      destruct Hd as [-> | ->]; try (now left); right;
      (split; [reflexivity|]).
    - apply (foreign_events gpu_display cpu_display idle_bus);
        try discriminate; apply Hown.
    - apply (foreign_events cpu_display gpu_display idle_bus);
        try discriminate; apply Hown. }
  destruct Hcases as [-> | (Hne & Hb & Hc)].
  - rewrite display_eqb_refl.
    destruct (own_write display segs) as [Hb Hc];
      [destruct Hd as [-> | ->]; discriminate|].
    rewrite Hb, Hc, IHb, IHc. now split.
  - rewrite Hne, Hb, Hc, IHb, IHc. now split.
Qed.

Lemma main_run (float : string -> option pyfloat) (now : Z)
    (ticks : list tick) (g : globals) :
  main float now ticks g
  = match main_loop float ticks (mk_globals now false) with
    | (tr, g', r) => (trace_of (startup now g) ++ tr, g', r)
    end.
Proof. unfold main, bind. now rewrite startup_run. Qed.

(** X19: the two displays do not disturb each other.  Over the whole
    script, start-up and any number of passes whatever the host sends,
    and with the lines of both displays high at the start: the controller
    of each display sees a start and a stop condition for each of the
    three transactions of every write to that display, in the order of
    the writes, and none for the writes to the other display; at the end
    the lines of both displays are high again. *)
Theorem displays_do_not_disturb_each_other
    (float : string -> option pyfloat) (now : Z) (ticks : list tick)
    (g : globals) :
  let tr := trace_of (main float now ticks g) in
  forallb well_formed_event tr = true
  /\ bus_after cpu_display idle_bus (hw_trace tr) = idle_bus
  /\ bus_after gpu_display idle_bus (hw_trace tr) = idle_bus
  /\ conditions cpu_display idle_bus (hw_trace tr)
     = expected_conditions cpu_display tr
  /\ conditions gpu_display idle_bus (hw_trace tr)
     = expected_conditions gpu_display tr.
Proof.
  intros tr.
  assert (Hwf : forallb well_formed_event tr = true).
  { subst tr. rewrite main_run.
    pose proof (main_loop_well_formed float ticks (mk_globals now false)) as H.
    destruct (main_loop float ticks (mk_globals now false)) as [[tr' g'] r].
    cbn [trace_of fst] in H |- *.
    rewrite forallb_app, H, startup_run. reflexivity. }
  destruct (program_trace_on_bus cpu_display tr (or_introl eq_refl) Hwf)
    as [Hcb Hcc].
  destruct (program_trace_on_bus gpu_display tr (or_intror eq_refl) Hwf)
    as [Hgb Hgc].
  repeat split; assumption.
Qed.
